(** * Article identity and engagement reconciliation of 21_ABU

    A shallow embedding of
      - [src/services/db/articleService.ts]  (normalizeUrl, saveArticles),
      - [src/services/db/favoriteService.ts] (favorites, comments, votes),
      - [src/hooks/useNewsApp.ts]            (enrichment, identity resolver,
                                              gesture handlers),
    over an explicit model of the Supabase store they talk to.

    Conventions.  A JavaScript string of ASCII characters is the [string]
    of its bytes, and the development is about such strings: [Str.trim] and
    [Str.toLowerCase] are the JavaScript methods on them, and a statement
    that gives their result says so with [Str.ascii_only].  The URL
    constructor of the platform is a parameter, [URL_new], of what calls it;
    [Platform.URL_parse] says what it does on plain web addresses, and a
    statement that needs this asks for [Platform.agrees URL_new].  An
    [async] function is a computation in the monad [M]: it threads the
    [World] (store contents, row-id supply, the answers the store is going
    to give, and the log of the requests sent so far) and ends fulfilled
    ([Ok]) or rejected ([Thrown]).  [await] is [bind], [try]/[catch] is
    [try_catch].  Writes to the console are left out. *)

From Stdlib Require Import PrimFloat Ascii.
From stdpp Require Import gmap strings list.

(* ===================================================================== *)
(** ** Strings *)
(* ===================================================================== *)

Module Str.

Definition code (c : ascii) : nat := nat_of_ascii c.

Definition is_digit (c : ascii) : bool :=
  (48 <=? code c)%nat && (code c <=? 57)%nat.
Definition is_upper (c : ascii) : bool :=
  (65 <=? code c)%nat && (code c <=? 90)%nat.
Definition is_lower (c : ascii) : bool :=
  (97 <=? code c)%nat && (code c <=? 122)%nat.

(** The white space and line terminators [String.prototype.trim] removes,
    within ASCII: TAB, LF, VT, FF, CR and SPACE. *)
Definition is_space (c : ascii) : bool :=
  ((9 <=? code c)%nat && (code c <=? 13)%nat) || (code c =? 32)%nat.

Definition lower (c : ascii) : ascii :=
  if is_upper c then ascii_of_nat (code c + 32) else c.

(** [s.toLowerCase()] on an ASCII string, where it changes the letters
    [A]-[Z] only.  (On other strings the method lower-cases letters beyond
    ASCII too; bytes outside ASCII are left as they are here.) *)
Fixpoint toLowerCase (s : string) : string :=
  match s with
  | EmptyString => EmptyString
  | String c r => String (lower c) (toLowerCase r)
  end.

Fixpoint trimStart (s : string) : string :=
  match s with
  | EmptyString => EmptyString
  | String c r => if is_space c then trimStart r else s
  end.

Fixpoint trimEnd (s : string) : string :=
  match s with
  | EmptyString => EmptyString
  | String c r =>
      match trimEnd r with
      | EmptyString => if is_space c then EmptyString else String c EmptyString
      | r' => String c r'
      end
  end.

(** [s.trim()] on an ASCII string.  (On other strings the method strips
    white space beyond ASCII too, such as U+00A0 or U+2028.) *)
Definition trim (s : string) : string := trimEnd (trimStart s).

(** [s.replace(/\/$/, "")]: without the [m] flag [$] stands for the end
    of the input only, so at most the last character goes. *)
Fixpoint strip_slash (s : string) : string :=
  match s with
  | EmptyString => EmptyString
  | String c EmptyString => if Ascii.eqb c "/"%char then EmptyString else s
  | String c r => String c (strip_slash r)
  end.

(** Every character of [s] is in the class [p]. *)
Fixpoint all (p : ascii -> bool) (s : string) : bool :=
  match s with
  | EmptyString => true
  | String c r => p c && all p r
  end.

(** JavaScript truthiness of a string. *)
Definition nonempty (s : string) : bool :=
  match s with EmptyString => false | _ => true end.

(** [x || d] for a string that may be missing. *)
Definition or_else (x : option string) (d : string) : string :=
  match x with
  | Some s => if nonempty s then s else d
  | None => d
  end.

(** Every character of [s] is an ASCII character. *)
Definition ascii_only (s : string) : bool := all (fun c => (code c <? 128)%nat) s.

End Str.

(* ===================================================================== *)
(** ** The two identifier patterns *)
(* ===================================================================== *)

Module Re.

(** The regular expressions of the sources are sequences of a character
    class repeated a fixed number of times, or one literal character,
    anchored at both ends. *)
Inductive piece : Type :=
| Rep (cls : ascii -> bool) (n : nat)
| Lit (c : ascii).

Fixpoint eat (cls : ascii -> bool) (n : nat) (s : string) : option string :=
  match n with
  | O => Some s
  | S k =>
      match s with
      | EmptyString => None
      | String c r => if cls c then eat cls k r else None
      end
  end.

(** [/^p1p2...pn$/.test(s)] *)
Fixpoint test (ps : list piece) (s : string) : bool :=
  match ps with
  | [] => negb (Str.nonempty s)
  | Rep cls n :: ps' =>
      match eat cls n s with
      | Some r => test ps' r
      | None => false
      end
  | Lit c :: ps' =>
      match s with
      | String d r => Ascii.eqb c d && test ps' r
      | EmptyString => false
      end
  end.

(** [[0-9a-fA-F]] *)
Definition hex (c : ascii) : bool :=
  Str.is_digit c
  || ((97 <=? Str.code c)%nat && (Str.code c <=? 102)%nat)
  || ((65 <=? Str.code c)%nat && (Str.code c <=? 70)%nat).

(** [[0-9a-fA-F-]] *)
Definition hex_or_hyphen (c : ascii) : bool := hex c || Ascii.eqb c "-"%char.

End Re.

(** favoriteService.ts, [isValidUUID]'s pattern:
    [/^[0-9a-fA-F]{8}-[0-9a-fA-F]{4}-[0-9a-fA-F]{4}-[0-9a-fA-F]{4}-[0-9a-fA-F]{12}$/] *)
Definition uuid_pattern : list Re.piece :=
  [Re.Rep Re.hex 8; Re.Lit "-"%char; Re.Rep Re.hex 4; Re.Lit "-"%char;
   Re.Rep Re.hex 4; Re.Lit "-"%char; Re.Rep Re.hex 4; Re.Lit "-"%char;
   Re.Rep Re.hex 12].

(** useNewsApp.ts, the resolver's pattern: [/^[0-9a-fA-F-]{36}$/] *)
Definition id36_pattern : list Re.piece := [Re.Rep Re.hex_or_hyphen 36].

(** [const isValidUUID = (id: string | undefined): boolean] *)
Definition isValidUUID (id : option string) : bool :=
  match id with
  | None => false
  | Some s => if Str.nonempty s then Re.test uuid_pattern s else false
  end.

(* ===================================================================== *)
(** ** The store *)
(* ===================================================================== *)

(** The Supabase client ([supabaseClient]) and the schema behind it are
    outside the sources.  The model below holds the five relations the
    services name, with the constraints the sources rely on: [articles] is
    unique on [url] (the upsert's [onConflict: 'url']), and [favorites],
    [likes] and [dislikes] are unique on (article, user) (the duplicate-key
    code 23505 [addFavorite] expects).  Rows keep their insertion order. *)

Record ArticleData : Type := {
  row_url : string;
  row_category : string;
  row_title : string;
  row_summary : string;
  row_source : string;
  row_published_date : string;
  row_sentiment_score : float;
  row_image_url : option string;
  row_audio_base64 : option string
}.

Record ArticleRow : Type := { row_id : string; row_data : ArticleData }.

(** A row of [favorites], [likes] or [dislikes]. *)
Record PairRow : Type := {
  pair_id : string;
  article_id : string;
  user_id : string
}.

Record CommentRow : Type := {
  comment_id : string;
  comment_article_id : string;
  comment_user_id : string;
  comment_username : string;
  comment_text : string;
  comment_created_at : string
}.

Inductive pair_table : Type := Favorites | Likes | Dislikes.

Record Database : Type := {
  db_articles : list ArticleRow;
  db_favorites : list PairRow;
  db_likes : list PairRow;
  db_dislikes : list PairRow;
  db_comments : list CommentRow
}.

Definition pairs (t : pair_table) (d : Database) : list PairRow :=
  match t with
  | Favorites => db_favorites d
  | Likes => db_likes d
  | Dislikes => db_dislikes d
  end.

Definition set_pairs (t : pair_table) (rows : list PairRow) (d : Database)
  : Database :=
  match t with
  | Favorites =>
      {| db_articles := db_articles d; db_favorites := rows;
         db_likes := db_likes d; db_dislikes := db_dislikes d;
         db_comments := db_comments d |}
  | Likes =>
      {| db_articles := db_articles d; db_favorites := db_favorites d;
         db_likes := rows; db_dislikes := db_dislikes d;
         db_comments := db_comments d |}
  | Dislikes =>
      {| db_articles := db_articles d; db_favorites := db_favorites d;
         db_likes := db_likes d; db_dislikes := rows;
         db_comments := db_comments d |}
  end.

Definition set_articles (rows : list ArticleRow) (d : Database) : Database :=
  {| db_articles := rows; db_favorites := db_favorites d;
     db_likes := db_likes d; db_dislikes := db_dislikes d;
     db_comments := db_comments d |}.

Definition set_comments (rows : list CommentRow) (d : Database) : Database :=
  {| db_articles := db_articles d; db_favorites := db_favorites d;
     db_likes := db_likes d; db_dislikes := db_dislikes d;
     db_comments := rows |}.

(** *** Identifiers the store hands out *)

Definition hex_digit (d : nat) : ascii :=
  nth d (String.list_ascii_of_string "0123456789abcdef") "0"%char.

(** The [k] low hexadecimal digits of [n], most significant first. *)
Fixpoint hex_digits (k n : nat) : string :=
  match k with
  | O => EmptyString
  | S k' => hex_digits k' (n / 16) +:+ String (hex_digit (n mod 16)) EmptyString
  end.

(** The identifier of the [n]-th row the store creates, in UUID dress. *)
Definition uuid_of_nat (n : nat) : string :=
  "00000000-0000-0000-0000-" +:+ hex_digits 12 n.

(** *** What a request comes back with *)

Inductive pg_error : Type :=
| UniqueViolation      (* code 23505 *)
| MultipleRows         (* maybeSingle() found more than one row *)
| StoreFailure.        (* anything else: network, permissions, ... *)

(** [{ data, error }] *)
Record response (A : Type) : Type := {
  data : option A;
  error : option pg_error
}.
Arguments data {A} _.
Arguments error {A} _.

Definition answered {A : Type} (a : A) : response A :=
  {| data := Some a; error := None |}.
Definition no_data {A : Type} : response A :=
  {| data := None; error := None |}.
Definition refused {A : Type} (e : pg_error) : response A :=
  {| data := None; error := Some e |}.

Definition same_pair (a u : string) (r : PairRow) : bool :=
  bool_decide (article_id r = a) && bool_decide (user_id r = u).

(** [from(t).delete().eq('article_id', a).eq('user_id', u)] *)
Definition delete_pair (t : pair_table) (a u : string) (d : Database) (n : nat)
  : response unit * Database * nat :=
  (no_data,
   set_pairs t (List.filter (fun r => negb (same_pair a u r)) (pairs t d)) d,
   n).

(** [from(t).select('id').eq('article_id', a).eq('user_id', u).maybeSingle()] *)
Definition select_pair_id (t : pair_table) (a u : string) (d : Database) (n : nat)
  : response string * Database * nat :=
  (match List.filter (same_pair a u) (pairs t d) with
   | [] => no_data
   | [r] => answered (pair_id r)
   | _ => refused MultipleRows
   end, d, n).

(** [from(t).delete().eq('id', i)] *)
Definition delete_pair_by_id (t : pair_table) (i : string) (d : Database) (n : nat)
  : response unit * Database * nat :=
  (no_data,
   set_pairs t
     (List.filter (fun r => negb (bool_decide (pair_id r = i))) (pairs t d)) d,
   n).

(** [from(t).insert([{ article_id: a, user_id: u }])] *)
Definition insert_pair (t : pair_table) (a u : string) (d : Database) (n : nat)
  : response unit * Database * nat :=
  if existsb (same_pair a u) (pairs t d)
  then (refused UniqueViolation, d, n)
  else (no_data,
        set_pairs t
          (pairs t d ++ [{| pair_id := uuid_of_nat n; article_id := a; user_id := u |}])
          d,
        S n).

(** [from(t).select('*', { count: 'exact', head: true }).eq('article_id', a)];
    the answer's [count] is carried in [data]. *)
Definition count_pairs (t : pair_table) (a : string) (d : Database) (n : nat)
  : response nat * Database * nat :=
  (answered
     (length (List.filter (fun r => bool_decide (article_id r = a)) (pairs t d))),
   d, n).

(** [from(t).select('article_id').in('article_id', ids)] *)
Definition select_article_ids_in (t : pair_table) (ids : list string)
  (d : Database) (n : nat) : response (list string) * Database * nat :=
  (answered
     (map article_id
        (List.filter (fun r => bool_decide (article_id r ∈ ids)) (pairs t d))),
   d, n).

(** [from('comments').delete().eq('id', c).eq('user_id', u)] *)
Definition delete_comment_of (c u : string) (d : Database) (n : nat)
  : response unit * Database * nat :=
  (no_data,
   set_comments
     (List.filter
        (fun r => negb (bool_decide (comment_id r = c)
                        && bool_decide (comment_user_id r = u)))
        (db_comments d)) d,
   n).

(** [from('articles').select('id').eq('url', u).maybeSingle()] *)
Definition select_article_id (u : string) (d : Database) (n : nat)
  : response string * Database * nat :=
  (match List.filter (fun r => bool_decide (row_url (row_data r) = u)) (db_articles d) with
   | [] => no_data
   | [r] => answered (row_id r)
   | _ => refused MultipleRows
   end, d, n).

(** [from('articles').upsert(row, { onConflict: 'url' }).select().single()]:
    a row with this [url] takes the new column values and keeps its [id];
    without one, a row is appended under a new [id]. *)
Definition upsert_article (row : ArticleData) (d : Database) (n : nat)
  : response ArticleRow * Database * nat :=
  let hit r := bool_decide (row_url (row_data r) = row_url row) in
  match List.filter hit (db_articles d) with
  | [] =>
      let r := {| row_id := uuid_of_nat n; row_data := row |} in
      (answered r, set_articles (db_articles d ++ [r]) d, S n)
  | old :: _ =>
      let r := {| row_id := row_id old; row_data := row |} in
      (answered r,
       set_articles
         (map (fun x => if hit x then {| row_id := row_id x; row_data := row |} else x)
            (db_articles d)) d,
       n)
  end.

(* ===================================================================== *)
(** ** Asynchronous computations *)
(* ===================================================================== *)

Inductive relation : Type :=
| Rel_articles | Rel_favorites | Rel_likes | Rel_dislikes | Rel_comments.

Definition rel_of (t : pair_table) : relation :=
  match t with
  | Favorites => Rel_favorites
  | Likes => Rel_likes
  | Dislikes => Rel_dislikes
  end.

Inductive verb : Type := Select | Insert | Upsert | Delete.

(** One request sent to the store. *)
Record request : Type := { on : relation; does : verb }.

(** How the store treats a request: it carries it out, it answers with an
    [error] and changes nothing, or the awaited promise rejects. *)
Inductive answer : Type := Serve | Fail | Throw.

Record World : Type := {
  store : Database;
  supply : nat;              (* number of identifiers handed out so far *)
  answers : list answer;     (* for the coming requests; [Serve] once used up *)
  log : list request         (* the requests sent so far, oldest first *)
}.

Inductive result (A : Type) : Type :=
| Ok (a : A)
| Thrown.
Arguments Ok {A} a.
Arguments Thrown {A}.

Definition M (A : Type) : Type := World -> result A * World.

Definition ret {A : Type} (a : A) : M A := fun w => (Ok a, w).

Definition bind {A B : Type} (m : M A) (f : A -> M B) : M B :=
  fun w =>
    match m w with
    | (Ok a, w') => f a w'
    | (Thrown, w') => (Thrown, w')
    end.

Notation "'await' x <- m ;; k" := (bind m (fun x => k))
  (at level 10, x name, m at level 99, k at level 200).
Notation "'run' m ;; k" := (bind m (fun _ => k))
  (at level 10, m at level 99, k at level 200).

(** [try { m } catch (e) { h }] *)
Definition try_catch {A : Type} (m h : M A) : M A :=
  fun w =>
    match m w with
    | (Ok a, w') => (Ok a, w')
    | (Thrown, w') => h w'
    end.

(** [await Promise.all([m1, m2])]: both calls are started, in this order;
    the result is rejected as soon as one of them is. *)
Definition promise_all {A B : Type} (m1 : M A) (m2 : M B) : M (A * B) :=
  fun w =>
    let '(r1, w1) := m1 w in
    let '(r2, w2) := m2 w1 in
    match r1, r2 with
    | Ok a, Ok b => (Ok (a, b), w2)
    | _, _ => (Thrown, w2)
    end.

(** A pure computation that may throw, run inside an [async] function. *)
Definition lift {A : Type} (r : result A) : M A := fun w => (r, w).

(** Sending one request. *)
Definition send {A : Type} (q : request)
  (op : Database -> nat -> response A * Database * nat) : M (response A) :=
  fun w =>
    match hd Serve (answers w) with
    | Serve =>
        let '(r, d, n) := op (store w) (supply w) in
        (Ok r, {| store := d; supply := n;
                  answers := tl (answers w); log := log w ++ [q] |})
    | Fail =>
        (Ok (refused StoreFailure),
         {| store := store w; supply := supply w;
            answers := tl (answers w); log := log w ++ [q] |})
    | Throw =>
        (Thrown,
         {| store := store w; supply := supply w;
            answers := tl (answers w); log := log w ++ [q] |})
    end.

Definition ask (r : relation) (v : verb) : request := {| on := r; does := v |}.

(* ===================================================================== *)
(** ** favoriteService.ts *)
(* ===================================================================== *)

(** [addFavorite]: a duplicate key counts as success. *)
Definition addFavorite (articleId userId : string) : M bool :=
  if negb (isValidUUID (Some articleId)) || negb (Str.nonempty userId)
  then ret false
  else
    try_catch
      (await r <- send (ask Rel_favorites Insert)
                    (insert_pair Favorites articleId userId) ;;
       ret (match error r with
            | None => true
            | Some UniqueViolation => true
            | Some _ => false
            end))
      (ret false).

Definition removeFavorite (articleId userId : string) : M bool :=
  if negb (isValidUUID (Some articleId)) || negb (Str.nonempty userId)
  then ret false
  else
    try_catch
      (await r <- send (ask Rel_favorites Delete)
                    (delete_pair Favorites articleId userId) ;;
       ret (match error r with None => true | Some _ => false end))
      (ret false).

(** [deleteComment]: both branches after the request only write to the
    console. *)
Definition deleteComment (commentId userId : string) : M unit :=
  await r <- send (ask Rel_comments Delete) (delete_comment_of commentId userId) ;;
  match error r with
  | Some _ => ret tt
  | None => ret tt
  end.

(** [{ likes, dislikes }], two objects used as maps from article id to
    number of votes. *)
Record Counts : Type := {
  likes : gmap string nat;
  dislikes : gmap string nat
}.

(** [rows.forEach(l => { m[l.article_id] = (m[l.article_id] || 0) + 1 })] *)
Definition tally (article_ids : list string) : gmap string nat :=
  fold_left (fun m k => <[k := default 0 (m !! k) + 1]> m) article_ids ∅.

(** [x.data?.forEach(...)]: an answer without [data] leaves the object empty. *)
Definition tally_response (r : response (list string)) : gmap string nat :=
  match data r with
  | Some rows => tally rows
  | None => ∅
  end.

Definition getBatchCounts (articleIds : list string) : M Counts :=
  let validIds := List.filter (fun i => isValidUUID (Some i)) articleIds in
  if (length validIds =? 0)%nat
  then ret {| likes := ∅; dislikes := ∅ |}
  else
    await res <- promise_all
                   (send (ask Rel_likes Select) (select_article_ids_in Likes validIds))
                   (send (ask Rel_dislikes Select) (select_article_ids_in Dislikes validIds)) ;;
    ret {| likes := tally_response (fst res);
           dislikes := tally_response (snd res) |}.

(** The two toggles differ in the relations they name only. *)
Definition toggle (mine other : pair_table) (articleId userId : string) : M bool :=
  if negb (isValidUUID (Some articleId))
  then ret false
  else
    run send (ask (rel_of other) Delete) (delete_pair other articleId userId) ;;
    await existing <- send (ask (rel_of mine) Select)
                        (select_pair_id mine articleId userId) ;;
    match data existing with
    | Some i =>
        run send (ask (rel_of mine) Delete) (delete_pair_by_id mine i) ;;
        ret false
    | None =>
        run send (ask (rel_of mine) Insert) (insert_pair mine articleId userId) ;;
        ret true
    end.

Definition toggleLike (articleId userId : string) : M bool :=
  toggle Likes Dislikes articleId userId.

Definition toggleDislike (articleId userId : string) : M bool :=
  toggle Dislikes Likes articleId userId.

(** [return count || 0] *)
Definition count_of (t : pair_table) (articleId : string) : M nat :=
  if negb (isValidUUID (Some articleId))
  then ret 0
  else
    await r <- send (ask (rel_of t) Select) (count_pairs t articleId) ;;
    ret (default 0 (data r)).

Definition getLikeCount (articleId : string) : M nat := count_of Likes articleId.

Definition getDislikeCount (articleId : string) : M nat := count_of Dislikes articleId.

(** [hasUserLiked] / [hasUserDisliked] *)
Definition has_user_voted (t : pair_table) (articleId userId : string) : M bool :=
  if negb (isValidUUID (Some articleId)) || negb (Str.nonempty userId)
  then ret false
  else
    await r <- send (ask (rel_of t) Select) (select_pair_id t articleId userId) ;;
    ret (match data r with Some _ => true | None => false end).

Definition hasUserLiked (articleId userId : string) : M bool :=
  has_user_voted Likes articleId userId.

Definition hasUserDisliked (articleId userId : string) : M bool :=
  has_user_voted Dislikes articleId userId.

(* ===================================================================== *)
(** ** Articles *)
(* ===================================================================== *)

(** What [likeCount] or [dislikeCount] of an article may hold.
    [enrichArticlesWithCounts] reads the counters out of plain objects
    ([counts.likes[a.id]]), and a plain object answers for the members of
    [Object.prototype] too: under such a name the property read yields
    the inherited member, not a number. *)
Inductive count : Type :=
| NoCount
| Count (n : nat)
| Inherited (member : string).

(** [types.ts] is not among the sources; the fields are those the services
    and the hook read and write.  [None] stands for a property that is
    missing or holds [undefined] or [null]. *)
Record Article : Type := {
  id : option string;
  url : string;
  title : string;
  summary : string;
  source : string;
  date : string;
  category : option string;
  imageUrl : option string;
  audioBase64 : option string;
  sentimentScore : float;
  likeCount : count;
  dislikeCount : count;
  isNew : option bool
}.

(** [x || null] and the truthiness test [!!x] of an optional string. *)
Definition truthy (x : option string) : option string :=
  match x with
  | Some s => if Str.nonempty s then Some s else None
  | None => None
  end.

(** The parts of a parsed URL that [normalizeUrl] reads. *)
Record URL : Type := { hostname : string; pathname : string }.

Section ArticleService.

(** [new URL(url)] of the platform; [None] when it throws. *)
Variable URL_new : string -> option URL.

Definition new_URL (url : string) : result URL :=
  match URL_new url with
  | Some u => Ok u
  | None => Thrown
  end.

(** articleService.ts, [normalizeUrl]: the [try] block first, the [catch]
    block when the constructor throws. *)
Definition normalizeUrl (url : string) : result string :=
  match new_URL url with
  | Ok u =>
      let normalized := hostname u +:+ Str.strip_slash (pathname u) in
      Ok (Str.toLowerCase normalized)
  | Thrown => Ok (Str.strip_slash (Str.toLowerCase (Str.trim url)))
  end.

(** [uniqueInputMap.has(norm)] on a [Map] kept as the list of its entries
    in insertion order. *)
Definition map_has (m : list (string * Article)) (norm : string) : bool :=
  existsb (fun kv => bool_decide (fst kv = norm)) m.

(** [articles.forEach(a => { if (a.url) { ... if (!has(norm)) set(norm, a) } })] *)
Fixpoint unique_input_map (m : list (string * Article)) (articles : list Article)
  : result (list (string * Article)) :=
  match articles with
  | [] => Ok m
  | a :: rest =>
      if Str.nonempty (url a)
      then
        match normalizeUrl (url a) with
        | Ok norm =>
            unique_input_map (if map_has m norm then m else m ++ [(norm, a)]) rest
        | Thrown => Thrown
        end
      else unique_input_map m rest
  end.

(** The [row] object built for one article. *)
Definition row_of (cleanCategory : string) (article : Article) : ArticleData :=
  {| row_url := url article;
     row_category := Str.or_else (category article) cleanCategory;
     row_title := title article;
     row_summary := summary article;
     row_source := source article;
     row_published_date := date article;
     row_sentiment_score := sentimentScore article;
     row_image_url := truthy (imageUrl article);
     row_audio_base64 := truthy (audioBase64 article) |}.

(** [{ ...article, id: data.id, category: data.category,
       audioBase64: data.audio_base_64 || data.audio_base64 }];
    the row has no [audio_base_64] column, so the last is [data.audio_base64]. *)
Definition persisted (article : Article) (d : ArticleRow) : Article :=
  {| id := Some (row_id d);
     url := url article;
     title := title article;
     summary := summary article;
     source := source article;
     date := date article;
     category := Some (row_category (row_data d));
     imageUrl := imageUrl article;
     audioBase64 := row_audio_base64 (row_data d);
     sentimentScore := sentimentScore article;
     likeCount := likeCount article;
     dislikeCount := dislikeCount article;
     isNew := isNew article |}.

(** The body of [for (const article of uniqueInput)]. *)
Definition save_one (cleanCategory : string) (savedArticles : list Article)
  (article : Article) : M (list Article) :=
  try_catch
    (await r <- send (ask Rel_articles Upsert)
                  (upsert_article (row_of cleanCategory article)) ;;
     match data r with
     | Some d => ret (savedArticles ++ [persisted article d])
     | None => ret savedArticles
     end)
    (ret savedArticles).

Fixpoint save_each (cleanCategory : string) (uniqueInput savedArticles : list Article)
  : M (list Article) :=
  match uniqueInput with
  | [] => ret savedArticles
  | article :: rest =>
      await saved <- save_one cleanCategory savedArticles article ;;
      save_each cleanCategory rest saved
  end.

(** articleService.ts, [saveArticles] *)
Definition saveArticles (categoryLabel : string) (articles : list Article)
  : M (list Article) :=
  if (length articles =? 0)%nat
  then ret []
  else
    let cleanCategory := Str.trim (Str.or_else (Some categoryLabel) "Generale") in
    await uniqueInputMap <- lift (unique_input_map [] articles) ;;
    save_each cleanCategory (map snd uniqueInputMap) [].

(* ===================================================================== *)
(** ** useNewsApp.ts *)
(* ===================================================================== *)

(** [dbService.ts] is not among the sources: [db.f] is the function [f] of
    the services above, and [supabase] is the client they use. *)

(** useNewsApp.ts, [ensureArticleSaved] *)
Definition ensureArticleSaved (article : Article) : M (option string) :=
  if match truthy (id article) with
     | Some i => Re.test id36_pattern i
     | None => false
     end
  then ret (id article)
  else
    await r <- send (ask Rel_articles Select) (select_article_id (url article)) ;;
    match truthy (data r) with
    | Some i => ret (Some i)
    | None =>
        try_catch
          (await saved <- saveArticles (Str.or_else (category article) "Generale")
                            [article] ;;
           match saved with
           | first :: _ => ret (truthy (id first))
           | [] => ret None
           end)
          (ret None)
    end.

End ArticleService.

(** The names under which a plain object answers without owning them. *)
Definition object_prototype_members : list string :=
  ["constructor"; "hasOwnProperty"; "isPrototypeOf"; "propertyIsEnumerable";
   "toLocaleString"; "toString"; "valueOf"; "__proto__";
   "__defineGetter__"; "__defineSetter__"; "__lookupGetter__"; "__lookupSetter__"].

(** [m[k]] on an object used as a map. *)
Definition read_count (m : gmap string nat) (k : string) : count :=
  match m !! k with
  | Some n => Count n
  | None =>
      if bool_decide (k ∈ object_prototype_members) then Inherited k else NoCount
  end.

(** [c || 0] *)
Definition or_zero (c : count) : count :=
  match c with
  | NoCount => Count 0
  | Count n => Count n
  | Inherited k => Inherited k
  end.

(** [{ ...a, likeCount: l, dislikeCount: d }] *)
Definition with_counts (a : Article) (l d : count) : Article :=
  {| id := id a; url := url a; title := title a; summary := summary a;
     source := source a; date := date a; category := category a;
     imageUrl := imageUrl a; audioBase64 := audioBase64 a;
     sentimentScore := sentimentScore a;
     likeCount := l; dislikeCount := d; isNew := isNew a |}.

(** useNewsApp.ts, [enrichArticlesWithCounts] *)
Definition enrichArticlesWithCounts (list : list Article)
  : M (Datatypes.list Article) :=
  let ids := omap (fun a => truthy (id a)) list in
  if (length ids =? 0)%nat
  then ret list
  else
    try_catch
      (await counts <- getBatchCounts ids ;;
       ret (map (fun a =>
                   with_counts a
                     (match truthy (id a) with
                      | Some i => or_zero (read_count (likes counts) i)
                      | None => Count 0
                      end)
                     (match truthy (id a) with
                      | Some i => or_zero (read_count (dislikes counts) i)
                      | None => Count 0
                      end))
              list))
      (ret list).

(** *** The hook's state and its gesture handlers *)

(** [User] of [types.ts], as far as the handlers read it. *)
Record User : Type := { user_ident : string; username : string }.

(** The [useState] cells the gesture handlers can reach.  ([categories],
    [activeCategoryId] and [searchTerm] belong to the category and search
    effects, which no handler below touches.) *)
Record AppState : Type := {
  articles : list Article;
  loading : bool;
  selectedArticle : option Article;
  showLoginModal : bool;
  showFavoritesOnly : bool;
  currentUser : option User;
  favoriteArticleIds : gset string;
  notification : option string
}.

Definition setShowLoginModal (b : bool) (s : AppState) : AppState :=
  {| articles := articles s; loading := loading s;
     selectedArticle := selectedArticle s; showLoginModal := b;
     showFavoritesOnly := showFavoritesOnly s; currentUser := currentUser s;
     favoriteArticleIds := favoriteArticleIds s; notification := notification s |}.

Definition setFavoriteArticleIds (f : gset string -> gset string) (s : AppState)
  : AppState :=
  {| articles := articles s; loading := loading s;
     selectedArticle := selectedArticle s; showLoginModal := showLoginModal s;
     showFavoritesOnly := showFavoritesOnly s; currentUser := currentUser s;
     favoriteArticleIds := f (favoriteArticleIds s);
     notification := notification s |}.

(** [showToast]: the message is set now; the timer that clears it later is
    left out. *)
Definition showToast (msg : string) (s : AppState) : AppState :=
  {| articles := articles s; loading := loading s;
     selectedArticle := selectedArticle s; showLoginModal := showLoginModal s;
     showFavoritesOnly := showFavoritesOnly s; currentUser := currentUser s;
     favoriteArticleIds := favoriteArticleIds s; notification := Some msg |}.

Definition over {A : Type} (x y : option A) : option A :=
  match y with
  | Some _ => y
  | None => x
  end.

(** [{ ...a, ...updated }]: every property [updated] has wins, and [a]
    keeps the others.  An optional field that is [None] (a counter that is
    [NoCount]) in [updated] is read here as a property [updated] does not
    have, so [a] keeps its own value; had [updated] the property with the
    value [null] or [undefined], the object would take that instead.  The
    two readings give the same article wherever [updated] has a value, and
    everywhere when [a] has no value either where [updated] has none; the
    statements on [spread] assert nothing else. *)
Definition spread (a updated : Article) : Article :=
  {| id := over (id a) (id updated);
     url := url updated;
     title := title updated;
     summary := summary updated;
     source := source updated;
     date := date updated;
     category := over (category a) (category updated);
     imageUrl := over (imageUrl a) (imageUrl updated);
     audioBase64 := over (audioBase64 a) (audioBase64 updated);
     sentimentScore := sentimentScore updated;
     likeCount := match likeCount updated with
                  | NoCount => likeCount a
                  | c => c
                  end;
     dislikeCount := match dislikeCount updated with
                     | NoCount => dislikeCount a
                     | c => c
                     end;
     isNew := over (isNew a) (isNew updated) |}.

(** [a.id === updated.id || a.url === updated.url]; two articles without
    an [id] pass the first test, [undefined === undefined]. *)
Definition same_article (a updated : Article) : bool :=
  bool_decide (id a = id updated) || bool_decide (url a = url updated).

(** useNewsApp.ts, [handleArticleUpdate] *)
Definition handleArticleUpdate (updated : Article) (s : AppState) : AppState :=
  {| articles :=
       map (fun a => if same_article a updated then spread a updated else a)
         (articles s);
     loading := loading s;
     selectedArticle :=
       match selectedArticle s with
       | Some prev =>
           if same_article prev updated then Some (spread prev updated) else Some prev
       | None => None
       end;
     showLoginModal := showLoginModal s;
     showFavoritesOnly := showFavoritesOnly s;
     currentUser := currentUser s;
     favoriteArticleIds := favoriteArticleIds s;
     notification := notification s |}.

(** [{ ...article, id: targetId, likeCount: nLike, dislikeCount: nDislike }] *)
Definition voted (article : Article) (targetId : string) (nLike nDislike : nat)
  : Article :=
  {| id := Some targetId; url := url article; title := title article;
     summary := summary article; source := source article; date := date article;
     category := category article; imageUrl := imageUrl article;
     audioBase64 := audioBase64 article; sentimentScore := sentimentScore article;
     likeCount := Count nLike; dislikeCount := Count nDislike;
     isNew := isNew article |}.

Section Gestures.

Variable URL_new : string -> option URL.

(** useNewsApp.ts, [handleToggleFavorite] *)
Definition handleToggleFavorite (article : Article) (s : AppState) : M AppState :=
  match currentUser s with
  | None => ret (setShowLoginModal true s)
  | Some user =>
      await targetId <- ensureArticleSaved URL_new article ;;
      match truthy targetId with
      | None => ret s
      | Some targetId =>
          try_catch
            (if bool_decide (targetId ∈ favoriteArticleIds s)
             then
               run removeFavorite targetId (user_ident user) ;;
               ret (showToast "Rimosso dai preferiti 💔"
                      (setFavoriteArticleIds (fun prev => prev ∖ {[targetId]}) s))
             else
               run addFavorite targetId (user_ident user) ;;
               ret (showToast "Aggiunto ai preferiti! ❤️"
                      (setFavoriteArticleIds (fun prev => prev ∪ {[targetId]}) s)))
            (ret s)
      end
  end.

(** useNewsApp.ts, [handleLike] *)
Definition handleLike (article : Article) (s : AppState) : M AppState :=
  match currentUser s with
  | None => ret (setShowLoginModal true s)
  | Some user =>
      await targetId <- ensureArticleSaved URL_new article ;;
      match truthy targetId with
      | None => ret s
      | Some targetId =>
          try_catch
            (run toggleLike targetId (user_ident user) ;;
             await n <- promise_all (getLikeCount targetId) (getDislikeCount targetId) ;;
             ret (showToast "Grazie per il tuo feedback positivo! ✨"
                    (handleArticleUpdate (voted article targetId (fst n) (snd n)) s)))
            (ret s)
      end
  end.

(** useNewsApp.ts, [handleDislike] *)
Definition handleDislike (article : Article) (s : AppState) : M AppState :=
  match currentUser s with
  | None => ret (setShowLoginModal true s)
  | Some user =>
      await targetId <- ensureArticleSaved URL_new article ;;
      match truthy targetId with
      | None => ret s
      | Some targetId =>
          try_catch
            (run toggleDislike targetId (user_ident user) ;;
             await n <- promise_all (getLikeCount targetId) (getDislikeCount targetId) ;;
             ret (showToast "Feedback ricevuto."
                    (handleArticleUpdate (voted article targetId (fst n) (snd n)) s)))
            (ret s)
      end
  end.

End Gestures.

(* ===================================================================== *)
(** ** A URL constructor to run examples with *)
(* ===================================================================== *)

Module Platform.

(** What the URL parser of the platform (the basic URL parser of the WHATWG
    URL standard, called without a base) does on plain web addresses, as
    far as [normalizeUrl] reads it.  [URL_parse] answers in three ways:
    [Parsed u] when [new URL] returns a URL with that host name and path
    name, [Rejected] when [new URL] throws, and [Unmodelled] for every
    string this description does not cover; it never answers [Parsed] or
    [Rejected] on a guess.

    Covered as [Parsed]: after the leading and trailing C0 controls and
    spaces are stripped and every tab and newline is removed, the scheme
    [http] or [https] in any letter case followed by [://]; a host of ASCII
    letters, digits, dots and hyphens with no empty label, no label that
    starts with [xn--], and a last label that starts with a letter (so the
    host is a domain of ASCII labels, which the parser lower-cases, and not
    a number, which it would read as an IPv4 address); an optional decimal
    port up to 65535; a path whose characters the parser copies as they are
    (printable ASCII outside its percent-encode set, no backslash), without
    dot segments; and any query and fragment.  The path name is the path as
    written, or [/] when there is none.

    Covered as [Rejected]: a string with no colon at all (it has no
    scheme), and an address as above with a port beyond 65535. *)

Inductive parse : Type :=
| Parsed (u : URL)
| Rejected
| Unmodelled.

Fixpoint break (stop : ascii -> bool) (s : string) : string * string :=
  match s with
  | EmptyString => (EmptyString, EmptyString)
  | String c r =>
      if stop c then (EmptyString, s)
      else let '(a, b) := break stop r in (String c a, b)
  end.

Definition one_of (chars : string) (c : ascii) : bool :=
  existsb (Ascii.eqb c) (String.list_ascii_of_string chars).

(** The pieces of [s] between the characters of the class [sep]. *)
Fixpoint pieces (sep : ascii -> bool) (s : string) : list string :=
  match s with
  | EmptyString => [EmptyString]
  | String c r =>
      if sep c then EmptyString :: pieces sep r
      else
        match pieces sep r with
        | p :: ps => String c p :: ps
        | [] => [String c EmptyString]
        end
  end.

(** *** The input, cleaned *)

Definition c0_or_space (c : ascii) : bool := (Str.code c <=? 32)%nat.

Definition tab_or_newline (c : ascii) : bool :=
  (Str.code c =? 9)%nat || (Str.code c =? 10)%nat || (Str.code c =? 13)%nat.

Fixpoint drop_leading (p : ascii -> bool) (s : string) : string :=
  match s with
  | EmptyString => EmptyString
  | String c r => if p c then drop_leading p r else s
  end.

Fixpoint drop_trailing (p : ascii -> bool) (s : string) : string :=
  match s with
  | EmptyString => EmptyString
  | String c r =>
      let r' := drop_trailing p r in
      if p c && negb (Str.nonempty r') then EmptyString else String c r'
  end.

Fixpoint remove (p : ascii -> bool) (s : string) : string :=
  match s with
  | EmptyString => EmptyString
  | String c r => if p c then remove p r else String c (remove p r)
  end.

Definition clean (input : string) : string :=
  remove tab_or_newline (drop_trailing c0_or_space (drop_leading c0_or_space input)).

(** *** Scheme *)

(** [s] without the prefix [p], which is matched in any letter case. *)
Fixpoint drop_prefix (p s : string) : option string :=
  match p, s with
  | EmptyString, _ => Some s
  | String a p', String b s' =>
      if Ascii.eqb a (Str.lower b) then drop_prefix p' s' else None
  | String _ _, EmptyString => None
  end.

Definition after_scheme (s : string) : option string :=
  match drop_prefix "http://" s with
  | Some rest => Some rest
  | None => drop_prefix "https://" s
  end.

(** *** Host *)

Definition host_char (c : ascii) : bool :=
  Str.is_lower c || Str.is_upper c || Str.is_digit c || one_of ".-" c.

Definition starts_with_letter (l : string) : bool :=
  match l with
  | String c _ => Str.is_lower c || Str.is_upper c
  | EmptyString => false
  end.

Definition punycode_label (l : string) : bool :=
  match drop_prefix "xn--" l with
  | Some _ => true
  | None => false
  end.

Definition domain_of_ascii_labels (host : string) : bool :=
  let labels := pieces (one_of ".") host in
  Str.all host_char host
  && forallb Str.nonempty labels
  && forallb (fun l => negb (punycode_label l)) labels
  && starts_with_letter (List.last labels EmptyString).

(** *** Port *)

Fixpoint decimal (acc : N) (s : string) : N :=
  match s with
  | EmptyString => acc
  | String c r => decimal (10 * acc + N.of_nat (Str.code c - 48))%N r
  end.

Inductive port_verdict : Type := Port_fine | Port_too_large | Port_other.

(** What follows the host inside the authority: nothing, or a colon and
    decimal digits. *)
Definition port_of (p : string) : port_verdict :=
  match p with
  | EmptyString => Port_fine
  | String c digits =>
      if Ascii.eqb c ":"%char && Str.all Str.is_digit digits
      then if (decimal 0 digits <=? 65535)%N then Port_fine else Port_too_large
      else Port_other
  end.

(** *** Path *)

(** Printable ASCII that the path state appends as it is: not the double
    quote (34), [#], [<], [>], [?], the circumflex, the backquote, the
    braces, nor the backslash (92), which separates segments like [/]. *)
Definition path_char (c : ascii) : bool :=
  (33 <=? Str.code c)%nat && (Str.code c <=? 126)%nat
  && negb ((Str.code c =? 34)%nat || (Str.code c =? 92)%nat || one_of "#<>?^`{}" c).

(** [.], [..] and their percent-encoded spellings. *)
Definition dot_segment (seg : string) : bool :=
  existsb (String.eqb (Str.toLowerCase seg))
    ["."; ".."; "%2e"; ".%2e"; "%2e."; "%2e%2e"].

Definition plain_path (path : string) : bool :=
  Str.all path_char path
  && forallb (fun seg => negb (dot_segment seg)) (pieces (one_of "/") path).

(** *** The parser *)

(** What follows [http://] or [https://]: authority, path, and the query
    and fragment, which [normalizeUrl] does not read. *)
Definition parse_after_scheme (rest : string) : parse :=
  let '(authority, tail) :=
    break (fun c => one_of "/?#" c || (Str.code c =? 92)%nat) rest in
  let '(host, port) := break (one_of ":") authority in
  let '(path, _) := break (one_of "?#") tail in
  if domain_of_ascii_labels host
  then
    match port_of port with
    | Port_fine =>
        if plain_path path
        then Parsed {| hostname := Str.toLowerCase host;
                       pathname := if Str.nonempty path then path else "/" |}
        else Unmodelled
    | Port_too_large => Rejected
    | Port_other => Unmodelled
    end
  else Unmodelled.

Definition URL_parse (input : string) : parse :=
  let s := clean input in
  match after_scheme s with
  | Some rest => parse_after_scheme rest
  | None =>
      if Str.all (fun c => negb (Ascii.eqb c ":"%char)) s then Rejected else Unmodelled
  end.

(** A URL constructor that does what [URL_parse] says: the assumption on
    the platform under which the statements about web addresses hold. *)
Definition agrees (URL_new : string -> option URL) : Prop :=
  forall input,
    match URL_parse input with
    | Parsed u => URL_new input = Some u
    | Rejected => URL_new input = None
    | Unmodelled => True
    end.

(** The constructor the examples run on.  It agrees with [URL_parse]; on a
    string [URL_parse] leaves open it throws, which says nothing about the
    platform, and no example relies on it. *)
Definition URL_basic (input : string) : option URL :=
  match URL_parse input with
  | Parsed u => Some u
  | Rejected => None
  | Unmodelled => None
  end.

End Platform.

(* ===================================================================== *)
(** ** Vocabulary of the statements *)
(* ===================================================================== *)

(** The store carries out every request that is still to come. *)
Definition served (w : World) : Prop := Forall (fun a => a = Serve) (answers w).


(** A like, a dislike or a favorite of [userId] on [articleId] is on record. *)
Definition has_pair (t : pair_table) (articleId userId : string) (d : Database)
  : bool :=
  existsb (same_pair articleId userId) (pairs t d).

(** A vote gesture, and a run of gestures one after the other: each call
    starts in the world the previous one left, whatever it returned. *)
Inductive vote : Type :=
| VoteLike (articleId userId : string)
| VoteDislike (articleId userId : string).

Definition cast (v : vote) : M bool :=
  match v with
  | VoteLike a u => toggleLike a u
  | VoteDislike a u => toggleDislike a u
  end.

Definition cast_all (vs : list vote) (w : World) : World :=
  fold_left (fun w v => snd (cast v w)) vs w.

(** The store's identifier for its next new row is carried by no row of [t]. *)
Definition next_id_unused (t : pair_table) (w : World) : Prop :=
  Forall (fun r => pair_id r <> uuid_of_nat (supply w)) (pairs t (store w)).

(** The number of rows of [t] on an article: its like or dislike count. *)
Definition votes_on (t : pair_table) (articleId : string) (d : Database) : nat :=
  length (List.filter (fun r => bool_decide (article_id r = articleId)) (pairs t d)).

(** Two articles that agree on everything but the two counters. *)
Definition same_but_counts (a b : Article) : Prop :=
  id b = id a /\ url b = url a /\ title b = title a /\ summary b = summary a
  /\ source b = source a /\ date b = date a /\ category b = category a
  /\ imageUrl b = imageUrl a /\ audioBase64 b = audioBase64 a
  /\ sentimentScore b = sentimentScore a /\ isNew b = isNew a.

(** The rows of [articles] stored under a URL, and the uniqueness
    constraint on that column. *)
Definition rows_at (u : string) (d : Database) : list ArticleRow :=
  List.filter (fun r => bool_decide (row_url (row_data r) = u)) (db_articles d).

Definition unique_urls (d : Database) : Prop :=
  forall u, length (rows_at u d) <= 1.

(** The normalized key of an article's URL. *)
Definition key_of (URL_new : string -> option URL) (a : Article) : string :=
  match normalizeUrl URL_new (url a) with
  | Ok key => key
  | Thrown => EmptyString
  end.

Definition has_url (a : Article) : bool := Str.nonempty (url a).

(** The rows of [articles] whose URL has the normalized key [k]. *)
Definition rows_keyed (URL_new : string -> option URL) (k : string) (d : Database)
  : list ArticleRow :=
  List.filter
    (fun r => match normalizeUrl URL_new (row_url (row_data r)) with
              | Ok key => bool_decide (key = k)
              | Thrown => false
              end)
    (db_articles d).

(** Deduplication in the words of the specification: going through the
    list, an article is kept unless an earlier one had the same key. *)
Fixpoint first_occurrences (key : Article -> string) (seen : list string)
  (l : list Article) : list Article :=
  match l with
  | [] => []
  | a :: rest =>
      if bool_decide (key a ∈ seen)
      then first_occurrences key seen rest
      else a :: first_occurrences key (key a :: seen) rest
  end.

(** The articles whose request the store is going to serve, when one
    request is sent per article, in order. *)
Fixpoint kept (plan : list answer) (l : list Article) : list Article :=
  match l with
  | [] => []
  | a :: rest =>
      match hd Serve plan with
      | Serve => a :: kept (tl plan) rest
      | _ => kept (tl plan) rest
      end
  end.

(** Thirty-six hyphens: an [id] the resolver's pattern accepts. *)
Definition hyphens36 : string := "------------------------------------".

(** *** Data for the examples *)

Module Sample.

Definition empty_db : Database :=
  {| db_articles := []; db_favorites := []; db_likes := []; db_dislikes := [];
     db_comments := [] |}.

(** An empty store that serves every request. *)
Definition start : World :=
  {| store := empty_db; supply := 0; answers := []; log := [] |}.

(** The same store when its next requests are refused, or rejected. *)
Definition failing (plan : list answer) : World :=
  {| store := empty_db; supply := 0; answers := plan; log := [] |}.

Definition durable_id : string := "0123abcd-89ef-4a4a-bbbb-0123456789ab".

Definition news (i : option string) (u : string) : Article :=
  {| id := i; url := u; title := "Buone notizie"; summary := "Tutto bene";
     source := "ANSA"; date := "2025-01-31"; category := None;
     imageUrl := None; audioBase64 := None; sentimentScore := 0.5%float;
     likeCount := Count 5; dislikeCount := Count 2; isNew := None |}.

Definition ada : User := {| user_ident := "user-1"; username := "ada" |}.

Definition session (u : option User) : AppState :=
  {| articles := [news None "https://x.com/a"]; loading := false;
     selectedArticle := None; showLoginModal := false;
     showFavoritesOnly := false; currentUser := u;
     favoriteArticleIds := ∅; notification := None |}.

Definition comment_by (c u : string) : CommentRow :=
  {| comment_id := c; comment_article_id := durable_id; comment_user_id := u;
     comment_username := "ada"; comment_text := "Bello!";
     comment_created_at := "2025-01-31T10:00:00Z" |}.

(** A store with one comment, by [user-1]. *)
Definition commented : World :=
  {| store := set_comments [comment_by "c-1" "user-1"] empty_db;
     supply := 0; answers := []; log := [] |}.

(** The world [w] when the store is going to answer as [plan] says. *)
Definition answering (plan : list answer) (w : World) : World :=
  {| store := store w; supply := supply w; answers := plan; log := log w |}.

(** A store that already holds the article of [https://x.com/a]. *)
Definition stored : World :=
  {| store :=
       set_articles
         [{| row_id := durable_id;
             row_data := row_of "Generale" (news None "https://x.com/a") |}]
         empty_db;
     supply := 1; answers := []; log := [] |}.

End Sample.

(* ===================================================================== *)
(** ** More of the services *)
(* ===================================================================== *)

(** [from('favorites').select('article_id').eq('user_id', u)] *)
Definition select_article_ids_of (t : pair_table) (u : string)
  (d : Database) (n : nat) : response (list string) * Database * nat :=
  (answered
     (map article_id
        (List.filter (fun r => bool_decide (user_id r = u)) (pairs t d))),
   d, n).

(** favoriteService.ts, [isFavorite] *)
Definition isFavorite (articleId userId : string) : M bool :=
  if negb (isValidUUID (Some articleId)) || negb (Str.nonempty userId)
  then ret false
  else
    try_catch
      (await r <- send (ask Rel_favorites Select)
                    (select_pair_id Favorites articleId userId) ;;
       ret (match data r with Some _ => true | None => false end))
      (ret false).

(** favoriteService.ts, [getUserFavoritesIds]: the [Set] of the article
    ids, empty when the answer carries an [error] or the request throws. *)
Definition getUserFavoritesIds (userId : string) : M (gset string) :=
  if negb (Str.nonempty userId)
  then ret ∅
  else
    try_catch
      (await r <- send (ask Rel_favorites Select)
                    (select_article_ids_of Favorites userId) ;;
       match error r with
       | Some _ => ret ∅
       | None => ret (list_to_set (default [] (data r)))
       end)
      (ret ∅).


(** ** articleService.ts, reading the cache *)

(** [0.8], the binary64 number the literal denotes. *)
Definition default_sentiment : float := 0x1.999999999999ap-1%float.

(** [x || d] for a number: 0, -0 and NaN are falsy. *)
Definition number_or (x d : float) : float :=
  if PrimFloat.is_zero x || PrimFloat.is_nan x then d else x.

Section Cache.

Variable URL_new : string -> option URL.

(** [.order('created_at', { ascending: false })].  The rows of this model
    carry no creation time: the order in which the store hands the selected
    rows out is a parameter. *)
Variable newest_first : list ArticleRow -> list ArticleRow.

(** [new Date(a.created_at).toLocaleDateString()], for the same reason. *)
Variable created_on : ArticleRow -> string.

(** [from('articles').select('*').eq('category', c)
      .order('created_at', { ascending: false }).limit(40)] *)
Definition select_category (c : string) (d : Database) (n : nat)
  : response (list ArticleRow) * Database * nat :=
  (answered
     (take 40
        (newest_first
           (List.filter (fun r => bool_decide (row_category (row_data r) = c))
              (db_articles d)))),
   d, n).

(** [data.forEach(item => { const norm = normalizeUrl(item.url);
      if (!uniqueMap.has(norm)) uniqueMap.set(norm, item) })],
    the [Map] kept as the list of its entries in insertion order. *)
Fixpoint unique_map (m : list (string * ArticleRow)) (data : list ArticleRow)
  : result (list (string * ArticleRow)) :=
  match data with
  | [] => Ok m
  | item :: rest =>
      match normalizeUrl URL_new (row_url (row_data item)) with
      | Ok norm =>
          unique_map
            (if existsb (fun kv => bool_decide (fst kv = norm)) m
             then m else m ++ [(norm, item)])
            rest
      | Thrown => Thrown
      end
  end.

(** The object [mapArticles] builds from a row.  The rows have no [date],
    [like_count], [dislike_count] or [audio_base_base64] column, so these
    reads give [undefined] and the next alternative is taken. *)
Definition mapped (a : ArticleRow) : Article :=
  {| id := Some (row_id a);
     url := row_url (row_data a);
     title := row_title (row_data a);
     summary := row_summary (row_data a);
     source := row_source (row_data a);
     date := if Str.nonempty (row_published_date (row_data a))
             then row_published_date (row_data a)
             else created_on a;
     category := Some (row_category (row_data a));
     imageUrl := Some (Str.or_else (row_image_url (row_data a)) EmptyString);
     audioBase64 := Some (Str.or_else (row_audio_base64 (row_data a)) EmptyString);
     sentimentScore := number_or (row_sentiment_score (row_data a)) default_sentiment;
     likeCount := Count 0;
     dislikeCount := Count 0;
     isNew := None |}.

(** articleService.ts, [mapArticles] *)
Definition mapArticles (data : option (list ArticleRow)) : result (list Article) :=
  match data with
  | None => Ok []
  | Some rows =>
      match unique_map [] rows with
      | Ok uniqueMap => Ok (map (fun kv => mapped (snd kv)) uniqueMap)
      | Thrown => Thrown
      end
  end.

(** articleService.ts, [getCachedArticles] *)
Definition getCachedArticles (categoryLabel : string) : M (list Article) :=
  let cleanLabel :=
    if Str.nonempty categoryLabel then Str.trim categoryLabel else "Generale" in
  try_catch
    (await r <- send (ask Rel_articles Select) (select_category cleanLabel) ;;
     match error r with
     | Some _ => ret []
     | None => lift (mapArticles (data r))
     end)
    (ret []).

End Cache.

(** ** favoriteService.ts, the favorite articles *)

Section FavoriteArticles.

(** [.order('created_at', { ascending: false })] on [favorites]: the order
    in which the store hands the selected rows out. *)
Variable recent_first : list PairRow -> list PairRow.

(** [from('favorites').select(`article_id, articles (...)`).eq('user_id', u)
      .order('created_at', { ascending: false })]: each favorite row comes
    with the article its [article_id] refers to, or [null]. *)
Definition select_favorites (u : string) (d : Database) (n : nat)
  : response (list (string * option ArticleRow)) * Database * nat :=
  (answered
     (map (fun f =>
             (article_id f,
              List.find (fun r => bool_decide (row_id r = article_id f)) (db_articles d)))
        (recent_first
           (List.filter (fun r => bool_decide (user_id r = u)) (pairs Favorites d)))),
   d, n).

(** The object built from the embedded article. *)
Definition favorite_article (rawArt : ArticleRow) : Article :=
  {| id := Some (row_id rawArt);
     url := row_url (row_data rawArt);
     title := row_title (row_data rawArt);
     summary := row_summary (row_data rawArt);
     source := row_source (row_data rawArt);
     date := row_published_date (row_data rawArt);
     category := Some (Str.or_else (Some (row_category (row_data rawArt))) "Generale");
     imageUrl := Some (Str.or_else (row_image_url (row_data rawArt)) EmptyString);
     audioBase64 := Some (Str.or_else (row_audio_base64 (row_data rawArt)) EmptyString);
     sentimentScore :=
       number_or (row_sentiment_score (row_data rawArt)) default_sentiment;
     likeCount := Count 0;
     dislikeCount := Count 0;
     isNew := None |}.

(** favoriteService.ts, [getUserFavoriteArticles] *)
Definition getUserFavoriteArticles (userId : string) : M (list Article) :=
  if negb (Str.nonempty userId) then ret []
  else
    try_catch
      (await r <- send (ask Rel_favorites Select) (select_favorites userId) ;;
       match error r with
       | Some _ => ret []
       | None =>
           match data r with
           | None => ret []
           | Some [] => ret []
           | Some items =>
               ret (omap (fun item => option_map favorite_article (snd item)) items)
           end
       end)
      (ret []).

End FavoriteArticles.

(** ** favoriteService.ts, comments *)

(** [Comment] of [types.ts], as the services build it. *)
Module Comment.

Record t : Type := {
  id : string;
  articleId : string;
  userId : string;
  username : string;
  text : string;
  timestamp : float
}.

End Comment.

(** [throw e] *)
Definition throw {A : Type} : M A := fun w => (Thrown, w).

Section Comments.

(** [.order('created_at', { ascending: false })]: the order in which the
    store hands the selected comments out. *)
Variable latest_first : list CommentRow -> list CommentRow.

(** [new Date(created_at).getTime()] *)
Variable Date_getTime : string -> float.

(** The [created_at] the store gives the row it creates as its [n]-th. *)
Variable clock : nat -> string.

(** [ensureUserExists] of [authService], which is not among the sources. *)
Variable ensureUserExists : User -> M unit.

(** [from('comments').select('*').eq('article_id', a)
      .order('created_at', { ascending: false })] *)
Definition select_comments (a : string) (d : Database) (n : nat)
  : response (list CommentRow) * Database * nat :=
  (answered
     (latest_first
        (List.filter (fun r => bool_decide (comment_article_id r = a)) (db_comments d))),
   d, n).

(** [from('comments').insert([{ article_id, user_id, username, text }])
      .select().single()] *)
Definition insert_comment (a : string) (user : User) (text : string)
  (d : Database) (n : nat) : response CommentRow * Database * nat :=
  let r := {| comment_id := uuid_of_nat n; comment_article_id := a;
              comment_user_id := user_ident user;
              comment_username := username user;
              comment_text := text; comment_created_at := clock n |} in
  (answered r, set_comments (db_comments d ++ [r]) d, S n).

(** The object both functions build from a row. *)
Definition comment_of (c : CommentRow) : Comment.t :=
  {| Comment.id := comment_id c;
     Comment.articleId := comment_article_id c;
     Comment.userId := comment_user_id c;
     Comment.username := comment_username c;
     Comment.text := comment_text c;
     Comment.timestamp := Date_getTime (comment_created_at c) |}.

(** favoriteService.ts, [getComments] *)
Definition getComments (articleId : string) : M (list Comment.t) :=
  if negb (isValidUUID (Some articleId)) then ret []
  else
    try_catch
      (await r <- send (ask Rel_comments Select) (select_comments articleId) ;;
       match error r with
       | Some _ => ret []
       | None => ret (map comment_of (default [] (data r)))
       end)
      (ret []).

(** favoriteService.ts, [addComment]; reading [data.id] of a missing
    [data] throws. *)
Definition addComment (articleId : string) (user : User) (text : string)
  : M Comment.t :=
  if negb (isValidUUID (Some articleId)) then throw
  else
    run ensureUserExists user ;;
    await r <- send (ask Rel_comments Insert) (insert_comment articleId user text) ;;
    match error r with
    | Some _ => throw
    | None =>
        match data r with
        | Some row => ret (comment_of row)
        | None => throw
        end
    end.

End Comments.

(** ** The article view, deleting a comment *)

(** The cells of the view that [performDeleteComment] writes. *)
Record DetailState : Type := {
  comments : list Comment.t;
  deletingCommentId : option string
}.

(** The article view, [performDeleteComment] *)
Definition performDeleteComment (currentUser : option User) (commentId : string)
  (s : DetailState) : M DetailState :=
  match currentUser with
  | None => ret s
  | Some user =>
      await s' <- try_catch
                    (run deleteComment commentId (user_ident user) ;;
                     ret {| comments :=
                              List.filter
                                (fun c => negb (bool_decide (Comment.id c = commentId)))
                                (comments s);
                            deletingCommentId := deletingCommentId s |})
                    (ret s) ;;
      ret {| comments := comments s'; deletingCommentId := None |}
  end.

(** ** useNewsApp.ts, loading the news *)

Definition setLoading (b : bool) (s : AppState) : AppState :=
  {| articles := articles s; loading := b;
     selectedArticle := selectedArticle s; showLoginModal := showLoginModal s;
     showFavoritesOnly := showFavoritesOnly s; currentUser := currentUser s;
     favoriteArticleIds := favoriteArticleIds s; notification := notification s |}.

Definition setArticles (l : list Article) (s : AppState) : AppState :=
  {| articles := l; loading := loading s;
     selectedArticle := selectedArticle s; showLoginModal := showLoginModal s;
     showFavoritesOnly := showFavoritesOnly s; currentUser := currentUser s;
     favoriteArticleIds := favoriteArticleIds s; notification := notification s |}.

(** [{ ...a, isNew: true }] *)
Definition as_new (a : Article) : Article :=
  {| id := id a; url := url a; title := title a; summary := summary a;
     source := source a; date := date a; category := category a;
     imageUrl := imageUrl a; audioBase64 := audioBase64 a;
     sentimentScore := sentimentScore a;
     likeCount := likeCount a; dislikeCount := dislikeCount a;
     isNew := Some true |}.

Section News.

Variable URL_new : string -> option URL.
Variable newest_first : list ArticleRow -> list ArticleRow.
Variable created_on : ArticleRow -> string.

(** [fetchPositiveNews] of [geminiService], which is not among the
    sources; a missing result is the empty list. *)
Variable fetchPositiveNews : string -> string -> M (list Article).

(** useNewsApp.ts, [fetchNews]; [currentRequestMode] is the value of the
    ref when the call starts.  The [try] block changes the state only as
    its last step, so a throw inside it finds the state as [setLoading(true)]
    left it; the [finally] block runs on every way out, the early [return]
    included. *)
Definition fetchNews (currentRequestMode query label : string) (forceAi : bool)
  (s : AppState) : M AppState :=
  if bool_decide (currentRequestMode = "favorites") then ret s
  else
    let s1 := setLoading true s in
    await s2 <-
      try_catch
        (await early <-
           (if negb forceAi
            then
              await cached <- getCachedArticles URL_new newest_first created_on label ;;
              if negb (length cached =? 0)%nat
              then
                await finalArticles <- enrichArticlesWithCounts cached ;;
                ret (Some (setLoading false (setArticles finalArticles s1)))
              else ret None
            else ret None) ;;
         match early with
         | Some returned => ret returned
         | None =>
             await aiArticles <- fetchPositiveNews query label ;;
             if negb (length aiArticles =? 0)%nat
             then
               await saved <- saveArticles URL_new label aiArticles ;;
               await finalArticles <- enrichArticlesWithCounts (map as_new saved) ;;
               ret (setArticles finalArticles s1)
             else
               if forceAi
               then ret (showToast "Nessuna nuova notizia trovata ora." s1)
               else ret s1
         end)
        (ret s1) ;;
    ret (setLoading false s2).

End News.

(** ** useNewsApp.ts, the effect that fills the list *)

(** A category of the hook's [categories], with the fields the effect reads. *)
Record Category : Type := {
  cat_id : string;
  cat_label : string;
  cat_value : string
}.

Section ListEffect.

Variable URL_new : string -> option URL.
Variable newest_first : list ArticleRow -> list ArticleRow.
Variable created_on : ArticleRow -> string.
Variable fetchPositiveNews : string -> string -> M (list Article).
Variable recent_first : list PairRow -> list PairRow.

(** useNewsApp.ts, the effect on [showFavoritesOnly], [currentUser],
    [activeCategoryId], [categories] and [searchTerm], run to the end of what
    it starts.  [searchTerm], [activeCategoryId] and [categories] are the
    hook's cells of those names, and [currentRequestMode] is the value of the
    ref when the effect starts; the result carries the value of the ref at
    the end.  The favorites arrive in a later turn: [isMounted] is the
    effect's variable of that name as the callback of [then] finds it
    ([false] once the clean-up has run), and [modeOnArrival] the value of
    the ref the callback finds (['favorites'] unless a later run of the
    effect has set it to ['news']).  The callback returns at once when
    either has changed, and [loading] stays on; else it goes on as written.
    With [showFavoritesOnly] off the effect sets the ref to ['news'] and
    calls [fetchNews] for the search term, or for the active category when
    the list of categories has it. *)
Definition list_effect (searchTerm activeCategoryId : string)
  (categories : list Category) (isMounted : bool) (modeOnArrival : string)
  (currentRequestMode : string) (s : AppState) : M (AppState * string) :=
  if showFavoritesOnly s
  then
    match currentUser s with
    | Some user =>
        let s1 := setLoading true s in
        await favs <- getUserFavoriteArticles recent_first (user_ident user) ;;
        if negb isMounted || negb (bool_decide (modeOnArrival = "favorites"))
        then ret (s1, modeOnArrival)
        else
          await enriched <- enrichArticlesWithCounts favs ;;
          ret (setLoading false
                 (setFavoriteArticleIds
                    (fun _ => list_to_set (omap (fun a => truthy (id a)) enriched))
                    (setArticles enriched s1)),
               modeOnArrival)
    | None => ret (s, currentRequestMode)
    end
  else
    let fetch := fetchNews URL_new newest_first created_on fetchPositiveNews "news" in
    await s' <-
      (if Str.nonempty searchTerm
       then fetch searchTerm searchTerm false s
       else
         if Str.nonempty activeCategoryId && negb (length categories =? 0)%nat
         then
           match List.find (fun c => bool_decide (cat_id c = activeCategoryId)) categories with
           | Some cat => fetch (cat_value cat) (cat_label cat) false s
           | None => ret s
           end
         else ret s) ;;
    ret (s', "news").

End ListEffect.

(** ** More of the hook and of the article view *)

(** [l.findIndex(p)]: the index of the first element that satisfies [p],
    or -1. *)
Fixpoint findIndex {A : Type} (p : A -> bool) (l : list A) : Z :=
  match l with
  | [] => (-1)%Z
  | x :: rest =>
      if p x then 0%Z
      else
        let i := findIndex p rest in
        if (i <? 0)%Z then (-1)%Z else (i + 1)%Z
  end.

(** [l[i] || null] for an integer index: [undefined] outside the list. *)
Definition at_index {A : Type} (l : list A) (i : Z) : option A :=
  if (i <? 0)%Z then None else l !! Z.to_nat i.

(** useNewsApp.ts, the [nextArticle] the hook returns. *)
Definition nextArticle (s : AppState) : option Article :=
  match selectedArticle s with
  | Some sel =>
      at_index (articles s)
        (findIndex (fun a => bool_decide (url a = url sel)) (articles s) + 1)
  | None => None
  end.

(** [s.split(sep)] for a one-character separator: the pieces between the
    separators, at least one. *)
Fixpoint split_on (sep : ascii) (s : string) : list string :=
  match s with
  | EmptyString => [EmptyString]
  | String c r =>
      if Ascii.eqb c sep then EmptyString :: split_on sep r
      else
        match split_on sep r with
        | p :: ps => String c p :: ps
        | [] => [String c EmptyString]
        end
  end.

(** The article view, [formatDate] *)
Definition formatDate (dateString : string) : string :=
  if negb (Str.nonempty dateString) then EmptyString
  else
    match split_on "-"%char dateString with
    | [p0; p1; p2] => p2 +:+ "-" +:+ p1 +:+ "-" +:+ p0
    | _ => dateString
    end.

(** ** More vocabulary *)

(** The update has a value wherever the article has one, among the
    optional fields and the counters. *)
Definition covers (updated a : Article) : Prop :=
  (id updated = None -> id a = None)
  /\ (category updated = None -> category a = None)
  /\ (imageUrl updated = None -> imageUrl a = None)
  /\ (audioBase64 updated = None -> audioBase64 a = None)
  /\ (isNew updated = None -> isNew a = None)
  /\ (likeCount updated = NoCount -> likeCount a = NoCount)
  /\ (dislikeCount updated = NoCount -> dislikeCount a = NoCount).

(** What [handleArticleUpdate] makes of an article [a]: [a] itself when it
    shares neither [id] nor [url] with the update; else an article with
    every value the update has, which is the update itself when the update
    covers [a]. *)
Definition rewritten (updated a a' : Article) : Prop :=
  if same_article a updated
  then
    url a' = url updated /\ title a' = title updated
    /\ summary a' = summary updated /\ source a' = source updated
    /\ date a' = date updated /\ sentimentScore a' = sentimentScore updated
    /\ (forall i, id updated = Some i -> id a' = Some i)
    /\ (forall c, category updated = Some c -> category a' = Some c)
    /\ (forall u, imageUrl updated = Some u -> imageUrl a' = Some u)
    /\ (forall b, audioBase64 updated = Some b -> audioBase64 a' = Some b)
    /\ (forall b, isNew updated = Some b -> isNew a' = Some b)
    /\ (likeCount updated <> NoCount -> likeCount a' = likeCount updated)
    /\ (dislikeCount updated <> NoCount -> dislikeCount a' = dislikeCount updated)
    /\ (covers updated a -> a' = updated)
  else a' = a.

(** The store carries out the coming request. *)
Definition next_served (w : World) : bool :=
  match hd Serve (answers w) with
  | Serve => true
  | _ => false
  end.

(** A relation holds at most one row for the pair. *)
Definition at_most_one (t : pair_table) (a u : string) (d : Database) : Prop :=
  length (List.filter (same_pair a u) (pairs t d)) <= 1.

(** Going through [l], an element is kept unless an earlier one, or
    [seen], had its key. *)
Fixpoint firsts {A : Type} (key : A -> string) (seen : list string) (l : list A)
  : list A :=
  match l with
  | [] => []
  | x :: rest =>
      if bool_decide (key x ∈ seen)
      then firsts key seen rest
      else x :: firsts key (key x :: seen) rest
  end.

(** The label [getCachedArticles] asks the store for:
    [categoryLabel ? categoryLabel.trim() : 'Generale']. *)
Definition clean_label (categoryLabel : string) : string :=
  if Str.nonempty categoryLabel then Str.trim categoryLabel else "Generale".

(** [sep] does not occur in [s]. *)
Definition free_of (sep : ascii) (s : string) : bool :=
  Str.all (fun c => negb (Ascii.eqb c sep)) s.

(** [parts.join(sep)] *)
Fixpoint join (sep : ascii) (parts : list string) : string :=
  match parts with
  | [] => EmptyString
  | [p] => p
  | p :: rest => p +:+ String sep (join sep rest)
  end.

(** The row under the URL of [a] holds what [a] is saved as. *)
Definition settled (cat : string) (d : Database) (a : Article) (r : ArticleRow) : Prop :=
  rows_at (url a) d = [r] /\ row_data r = row_of cat a.

(** The test [ensureArticleSaved] starts with:
    [article.id && /^[0-9a-fA-F-]{36}$/.test(article.id)]. *)
Definition durable_shaped (a : Article) : bool :=
  match truthy (id a) with
  | Some i => Re.test id36_pattern i
  | None => false
  end.

(** Every row of [articles] has a non-empty [id]. *)
Definition ids_present (d : Database) : Prop :=
  Forall (fun r => Str.nonempty (row_id r) = true) (db_articles d).

Module Scene.

Definition a_like : PairRow :=
  {| pair_id := uuid_of_nat 0; article_id := Sample.durable_id; user_id := "user-1" |}.

(** A store with one like, by [user-1] on the sample article. *)
Definition liked : World :=
  {| store := set_pairs Likes [a_like] Sample.empty_db;
     supply := 1; answers := []; log := [] |}.

(** A store with one favorite, of [user-1]. *)
Definition favored : World :=
  {| store := set_pairs Favorites [a_like] Sample.empty_db;
     supply := 1; answers := []; log := [] |}.

(** Two articles on screen, the first one open. *)
Definition reading : AppState :=
  {| articles := [Sample.news None "https://x.com/a"; Sample.news None "https://x.com/b"];
     loading := false;
     selectedArticle := Some (Sample.news None "https://x.com/a");
     showLoginModal := false; showFavoritesOnly := false; currentUser := None;
     favoriteArticleIds := ∅; notification := None |}.

(** A platform for the comment examples: comments come back in the
    reverse of their insertion order, every time stamp reads as zero,
    rows are created at one instant, and the user is on record already. *)
Definition latest_first (l : list CommentRow) : list CommentRow := rev l.

Definition getTime (created_at : string) : float := 0%float.

Definition clock (n : nat) : string := "2025-01-31T10:00:00Z".

Definition ensureUserExists (user : User) : M unit := ret tt.

(** A favorite of [user-1] whose article is in the store, and the order
    favorites come back in. *)
Definition kept : World :=
  {| store := set_pairs Favorites [a_like] (store Sample.stored);
     supply := 2; answers := []; log := [] |}.

Definition recent_first (l : list PairRow) : list PairRow := rev l.

(** [ada] has asked for her favorites. *)
Definition asking : AppState :=
  {| articles := [Sample.news None "https://x.com/a"]; loading := false;
     selectedArticle := None; showLoginModal := false;
     showFavoritesOnly := true; currentUser := Some Sample.ada;
     favoriteArticleIds := ∅; notification := None |}.

(** A news service with one article to offer. *)
Definition one_news (query label : string) : M (list Article) :=
  ret [Sample.news None "https://x.com/b"].

(** A news service that is out of order. *)
Definition no_news (query label : string) : M (list Article) := throw.

(** The order and the creation dates used in the examples. *)
Definition oldest_last (l : list ArticleRow) : list ArticleRow := rev l.

Definition a_day (r : ArticleRow) : string := "31/1/2025".

End Scene.

(** What [getCachedArticles] finds in [Sample.stored] under [Generale]. *)
Definition cached_sample : list Article :=
  Eval vm_compute in
    match fst (getCachedArticles Platform.URL_basic Scene.oldest_last Scene.a_day
                 "Generale" Sample.stored) with
    | Ok l => l
    | Thrown => []
    end.

(* ===================================================================== *)
(** * Properties *)
(* ===================================================================== *)

(** ** The store and the monad *)

Lemma pairs_set_pairs t rows d : pairs t (set_pairs t rows d) = rows.
Proof. destruct t; reflexivity. Qed.

Lemma pairs_set_pairs_ne t t' rows d :
  t <> t' -> pairs t (set_pairs t' rows d) = pairs t d.
Proof. destruct t, t'; intros Hne; try reflexivity; contradiction. Qed.

Lemma set_pairs_id t d : set_pairs t (pairs t d) d = d.
Proof. destruct t, d; reflexivity. Qed.

Lemma set_pairs_set_pairs t rows rows' d :
  set_pairs t rows' (set_pairs t rows d) = set_pairs t rows' d.
Proof. destruct t; reflexivity. Qed.

Lemma served_hd w : served w -> hd Serve (answers w) = Serve.
Proof.
  unfold served. destruct (answers w) as [|a l]; simpl; [reflexivity|].
  intros H. inversion H; assumption.
Qed.

Lemma served_tl (l : list answer) :
  Forall (fun a => a = Serve) l -> Forall (fun a => a = Serve) (tl l).
Proof. destruct l; simpl; [trivial|]. intros H; inversion H; assumption. Qed.

(** A served request: the operation runs on the store, the request is
    logged, and what is still to come stays served. *)
Lemma send_served {A : Type} (q : request)
  (op : Database -> nat -> response A * Database * nat) (w : World) :
  served w ->
  exists w',
    send q op w = (Ok (op (store w) (supply w)).1.1, w')
    /\ store w' = (op (store w) (supply w)).1.2
    /\ supply w' = (op (store w) (supply w)).2
    /\ log w' = log w ++ [q]
    /\ served w'.
Proof.
  intros Hs. unfold send. rewrite (served_hd w Hs).
  destruct (op (store w) (supply w)) as [[r d] n]. simpl.
  eexists. split; [reflexivity|]. simpl. repeat split.
  apply served_tl, Hs.
Qed.

Lemma bind_ok {A B : Type} (m : M A) (f : A -> M B) w a w' :
  m w = (Ok a, w') -> bind m f w = f a w'.
Proof. intros H. unfold bind. rewrite H. reflexivity. Qed.

(** ** The identifier patterns *)

Lemma eat_weaken (cls cls' : ascii -> bool) n s r :
  (forall c, cls c = true -> cls' c = true) ->
  Re.eat cls n s = Some r -> Re.eat cls' n s = Some r.
Proof.
  intros Hc. revert s. induction n as [|n IH]; intros s; simpl; [trivial|].
  destruct s as [|c s]; [discriminate|].
  destruct (cls c) eqn:E; [|discriminate].
  rewrite (Hc c E). apply IH.
Qed.

Lemma eat_add (cls : ascii -> bool) n m s r r' :
  Re.eat cls n s = Some r -> Re.eat cls m r = Some r' ->
  Re.eat cls (n + m) s = Some r'.
Proof.
  revert s. induction n as [|n IH]; intros s; simpl.
  - intros [= ->]. trivial.
  - destruct s as [|c s]; [discriminate|].
    destruct (cls c); [|discriminate]. apply IH.
Qed.

Lemma eat_hyphen d r :
  Ascii.eqb "-"%char d = true -> Re.eat Re.hex_or_hyphen 1 (String d r) = Some r.
Proof.
  intros Hd. apply Ascii.eqb_eq in Hd. subst d. reflexivity.
Qed.

Lemma hex_is_hex_or_hyphen c : Re.hex c = true -> Re.hex_or_hyphen c = true.
Proof. unfold Re.hex_or_hyphen. intros ->. reflexivity. Qed.

(** One hex group followed by a hyphen, read by the wider class. *)
Lemma eat_group n ps s :
  Re.test (Re.Rep Re.hex n :: Re.Lit "-"%char :: ps) s = true ->
  exists r, Re.eat Re.hex_or_hyphen (n + 1) s = Some r /\ Re.test ps r = true.
Proof.
  simpl. destruct (Re.eat Re.hex n s) as [r|] eqn:E; [|discriminate].
  destruct r as [|d r]; [discriminate|].
  intros H. apply andb_prop in H as [Hd Ht].
  exists r. split; [|exact Ht].
  eapply eat_add.
  - eapply eat_weaken; [exact hex_is_hex_or_hyphen|exact E].
  - apply eat_hyphen, Hd.
Qed.

Lemma eat_all (cls : ascii -> bool) (s : string) :
  Str.all cls s = true -> Re.eat cls (String.length s) s = Some EmptyString.
Proof.
  induction s as [|c s IH]; simpl; [reflexivity|].
  intros H. apply andb_prop in H as [-> H]. apply IH, H.
Qed.

(** The resolver's test accepts 36 characters of its class, whatever they are. *)
Lemma id36_accepts (i : string) :
  String.length i = 36 -> Str.all Re.hex_or_hyphen i = true ->
  Re.test id36_pattern i = true.
Proof.
  intros Hlen Hall. unfold id36_pattern. cbn [Re.test].
  rewrite <- Hlen, (eat_all _ _ Hall). reflexivity.
Qed.

(** Every identifier [isValidUUID] accepts passes the resolver's test. *)
Lemma uuid_is_id36 s : isValidUUID (Some s) = true -> Re.test id36_pattern s = true.
Proof.
  unfold isValidUUID. destruct (Str.nonempty s); [|discriminate].
  unfold uuid_pattern. intros H.
  apply eat_group in H as (r1 & E1 & H).
  apply eat_group in H as (r2 & E2 & H).
  apply eat_group in H as (r3 & E3 & H).
  apply eat_group in H as (r4 & E4 & H).
  cbn [Re.test] in H.
  destruct (Re.eat Re.hex 12 r4) as [r5|] eqn:E5; [|discriminate].
  apply (eat_weaken _ _ _ _ _ hex_is_hex_or_hyphen) in E5.
  pose proof (eat_add _ _ _ _ _ _ E1 (eat_add _ _ _ _ _ _ E2
               (eat_add _ _ _ _ _ _ E3 (eat_add _ _ _ _ _ _ E4 E5)))) as E.
  change (8 + 1 + (4 + 1 + (4 + 1 + (4 + 1 + 12)))) with 36 in E.
  unfold id36_pattern. cbn [Re.test]. rewrite E. exact H.
Qed.

(** ** Votes on an identifier that is not durable *)

(** C6.  For every [articleId] that fails the identifier shape check
    ([isValidUUID]) and every [userId], [toggleLike] and [toggleDislike]
    return [false] and leave the world as it was: the store's contents and
    the log of requests are unchanged, so nothing was read or written. *)
Theorem toggle_invalid_id_no_request (articleId userId : string) (w : World) :
  isValidUUID (Some articleId) = false ->
  toggleLike articleId userId w = (Ok false, w)
  /\ toggleDislike articleId userId w = (Ok false, w).
Proof.
  intros Hbad. unfold toggleLike, toggleDislike, toggle.
  rewrite Hbad. split; reflexivity.
Qed.

(** ** Gestures without a signed-in user *)

(** C8.  With no user signed in, [handleLike], [handleDislike] and
    [handleToggleFavorite] end normally with the login prompt requested
    ([showLoginModal] set) and nothing else changed: the world is the same
    (no request was sent, so no identity was resolved), and so are the
    article list with its counts, the selection and the favorite set. *)
Theorem gesture_needs_login (URL_new : string -> option URL)
  (article : Article) (s : AppState) (w : World) :
  currentUser s = None ->
  handleLike URL_new article s w = (Ok (setShowLoginModal true s), w)
  /\ handleDislike URL_new article s w = (Ok (setShowLoginModal true s), w)
  /\ handleToggleFavorite URL_new article s w = (Ok (setShowLoginModal true s), w)
  /\ showLoginModal (setShowLoginModal true s) = true
  /\ articles (setShowLoginModal true s) = articles s
  /\ selectedArticle (setShowLoginModal true s) = selectedArticle s
  /\ favoriteArticleIds (setShowLoginModal true s) = favoriteArticleIds s
  /\ notification (setShowLoginModal true s) = notification s.
Proof.
  intros Hnone. unfold handleLike, handleDislike, handleToggleFavorite.
  rewrite Hnone. repeat split.
Qed.

(** ** The resolver's shape test is the weaker one *)

(** C10.  The resolver's test [/^[0-9a-fA-F-]{36}$/] accepts every string
    of 36 hexadecimal digits and hyphens, hence whatever [isValidUUID]
    accepts, but not the other way round: the string of 36 hyphens passes
    the resolver's test only.  For an article carrying it as
    [id], [ensureArticleSaved] returns the id with no request sent, while
    [toggleLike], [toggleDislike], [getLikeCount] and [getDislikeCount] on
    it return [false] and [0] with no request sent; so a vote gesture of a
    signed-in user on that article leaves the store untouched and
    broadcasts zero counts, with the usual toast. *)
Theorem resolver_accepts_what_votes_reject (URL_new : string -> option URL)
  (article : Article) (user : User) (s : AppState) (w : World) :
  id article = Some hyphens36 ->
  currentUser s = Some user ->
  (forall i, String.length i = 36 -> Str.all Re.hex_or_hyphen i = true ->
             Re.test id36_pattern i = true)
  /\ (forall i, isValidUUID (Some i) = true -> Re.test id36_pattern i = true)
  /\ Re.test id36_pattern hyphens36 = true
  /\ isValidUUID (Some hyphens36) = false
  /\ ensureArticleSaved URL_new article w = (Ok (Some hyphens36), w)
  /\ toggleLike hyphens36 (user_ident user) w = (Ok false, w)
  /\ toggleDislike hyphens36 (user_ident user) w = (Ok false, w)
  /\ getLikeCount hyphens36 w = (Ok 0, w)
  /\ getDislikeCount hyphens36 w = (Ok 0, w)
  /\ handleLike URL_new article s w =
       (Ok (showToast "Grazie per il tuo feedback positivo! ✨"
              (handleArticleUpdate (voted article hyphens36 0 0) s)), w)
  /\ handleDislike URL_new article s w =
       (Ok (showToast "Feedback ricevuto."
              (handleArticleUpdate (voted article hyphens36 0 0) s)), w).
Proof.
  intros Hid Huser.
  assert (Hres : ensureArticleSaved URL_new article w = (Ok (Some hyphens36), w)).
  { unfold ensureArticleSaved. rewrite Hid. reflexivity. }
  split; [exact id36_accepts|].
  split; [exact uuid_is_id36|].
  repeat (split; [reflexivity|]).
  split; [exact Hres|].
  repeat (split; [reflexivity|]).
  unfold handleLike, handleDislike. rewrite Huser.
  split.
  - rewrite (bind_ok _ _ _ _ _ Hres). reflexivity.
  - rewrite (bind_ok _ _ _ _ _ Hres). reflexivity.
Qed.

(** ** Deleting a comment *)

(** C9.  [deleteComment commentId userId] can only take away rows whose
    [id] is [commentId] and whose author is [userId], and touches no other
    relation; when no row of that id is by [userId] the comments stay as
    they are, and the call ends normally unless the request itself is
    rejected; when the store carries the request out, exactly the rows of
    that id by that author are gone. *)
Theorem deleteComment_author_only (commentId userId : string) (w : World) :
  let w' := snd (deleteComment commentId userId w) in
  (forall r, In r (db_comments (store w)) -> ~ In r (db_comments (store w')) ->
             comment_id r = commentId /\ comment_user_id r = userId)
  /\ (forall r, In r (db_comments (store w')) -> In r (db_comments (store w)))
  /\ db_articles (store w') = db_articles (store w)
  /\ db_favorites (store w') = db_favorites (store w)
  /\ db_likes (store w') = db_likes (store w)
  /\ db_dislikes (store w') = db_dislikes (store w)
  /\ ((forall r, In r (db_comments (store w)) -> comment_id r = commentId ->
                 comment_user_id r <> userId) ->
      store w' = store w
      /\ (hd Serve (answers w) <> Throw ->
          fst (deleteComment commentId userId w) = Ok tt))
  /\ (hd Serve (answers w) = Serve ->
      fst (deleteComment commentId userId w) = Ok tt
      /\ forall r, In r (db_comments (store w')) <->
                   In r (db_comments (store w))
                   /\ ~ (comment_id r = commentId /\ comment_user_id r = userId)).
Proof.
  set (keep := fun r : CommentRow =>
                 negb (bool_decide (comment_id r = commentId)
                       && bool_decide (comment_user_id r = userId))).
  assert (Hkeep : forall r, keep r = true <->
                    ~ (comment_id r = commentId /\ comment_user_id r = userId)).
  { intros r. unfold keep. repeat case_bool_decide; simpl; split;
      intros; try tauto; discriminate. }
  assert (Hnoop : (forall r, In r (db_comments (store w)) -> comment_id r = commentId ->
                             comment_user_id r <> userId) ->
                  List.filter keep (db_comments (store w)) = db_comments (store w)).
  { intros Hno. induction (db_comments (store w)) as [|r l IH]; [reflexivity|].
    simpl. assert (Hr : keep r = true).
    { apply Hkeep. intros [Hc Hu]. exact (Hno r (or_introl eq_refl) Hc Hu). }
    rewrite Hr. f_equal. apply IH. intros r' Hin. apply Hno. right. exact Hin. }
  unfold deleteComment, bind, send, delete_comment_of.
  destruct (hd Serve (answers w)) eqn:Hans; cbn; fold keep.
  - split; [|split; [|repeat (split; [reflexivity|]); split]].
    + intros r Hin Hout.
      destruct (keep r) eqn:Hk.
      * exfalso. apply Hout, List.filter_In. split; assumption.
      * apply not_true_iff_false in Hk. rewrite Hkeep in Hk.
        destruct (decide (comment_id r = commentId));
          destruct (decide (comment_user_id r = userId)); tauto.
    + intros r Hin. apply List.filter_In in Hin. tauto.
    + intros Hno. rewrite (Hnoop Hno). split; [|reflexivity].
      destruct (store w); reflexivity.
    + intros _. split; [reflexivity|]. intros r.
      rewrite List.filter_In, Hkeep. tauto.
  - split; [|split; [|repeat (split; [reflexivity|]); split]].
    + intros r Hin Hout. contradiction.
    + trivial.
    + intros _. split; reflexivity.
    + discriminate.
  - split; [|split; [|repeat (split; [reflexivity|]); split]].
    + intros r Hin Hout. contradiction.
    + trivial.
    + intros _. split; [reflexivity|]. intros Hne. contradiction.
    + discriminate.
Qed.

(** ** One toggle, when the store serves every request *)

Lemma existsb_filter_nil {A : Type} (f : A -> bool) (l : list A) :
  existsb f l = false <-> List.filter f l = [].
Proof.
  induction l as [|x l IH]; simpl; [tauto|].
  destruct (f x); simpl; [split; discriminate|exact IH].
Qed.

Lemma filter_all {A : Type} (f : A -> bool) (l : list A) :
  Forall (fun x => f x = true) l -> List.filter f l = l.
Proof.
  induction 1 as [|x l Hx _ IH]; simpl; [reflexivity|].
  rewrite Hx, IH. reflexivity.
Qed.

Ltac served_step E Hst Hsu Hlog Hs :=
  match goal with
  | Hw : served ?w |- context [bind (send ?q ?op) ?k ?w] =>
      let w' := fresh "w" in
      destruct (send_served q op w Hw) as (w' & E & Hst & Hsu & Hlog & Hs);
      rewrite (bind_ok (send q op) k w _ w' E); cbv beta
  end.

(** What [toggle] does in such a world, by the rows the pair has in its own
    relation: one row is withdrawn, none is answered by a new row, and more
    than one (which the uniqueness constraint rules out) leaves the
    relation as it is, the insertion being refused. *)
Lemma toggle_served (mine other : pair_table) (a u : string) (w : World) :
  mine <> other -> isValidUUID (Some a) = true -> served w ->
  let cleared :=
    set_pairs other
      (List.filter (fun r => negb (same_pair a u r)) (pairs other (store w)))
      (store w) in
  exists w',
    served w'
    /\ log w' = log w ++ [ask (rel_of other) Delete; ask (rel_of mine) Select;
                          ask (rel_of mine)
                            (match List.filter (same_pair a u) (pairs mine (store w)) with
                             | [_] => Delete
                             | _ => Insert
                             end)]
    /\ match List.filter (same_pair a u) (pairs mine (store w)) with
       | [] =>
           toggle mine other a u w = (Ok true, w')
           /\ store w' =
                set_pairs mine
                  (pairs mine (store w)
                   ++ [{| pair_id := uuid_of_nat (supply w);
                          article_id := a; user_id := u |}]) cleared
           /\ supply w' = S (supply w)
       | [r] =>
           toggle mine other a u w = (Ok false, w')
           /\ store w' =
                set_pairs mine
                  (List.filter (fun x => negb (bool_decide (pair_id x = pair_id r)))
                     (pairs mine (store w))) cleared
           /\ supply w' = supply w
       | _ :: _ :: _ =>
           toggle mine other a u w = (Ok true, w')
           /\ store w' = cleared
           /\ supply w' = supply w
       end.
Proof.
  intros Hne Hvalid Hs0 cleared. unfold toggle. rewrite Hvalid. cbn [negb].
  served_step E1 Hst1 Hsu1 Hlog1 Hs1.
  served_step E2 Hst2 Hsu2 Hlog2 Hs2.
  cbn in Hst1, Hsu1, Hst2, Hsu2. fold cleared in Hst1.
  assert (Hmine : pairs mine (store w0) = pairs mine (store w)).
  { rewrite Hst1. unfold cleared. apply pairs_set_pairs_ne, Hne. }
  cbn [select_pair_id fst snd]. rewrite Hmine.
  destruct (List.filter (same_pair a u) (pairs mine (store w))) as [|r [|r' l]] eqn:Hf;
    cbn [data answered no_data refused].
  - served_step E3 Hst3 Hsu3 Hlog3 Hs3.
    exists w2. split; [exact Hs3|]. split.
    { rewrite Hlog3, Hlog2, Hlog1, <- !app_assoc. reflexivity. }
    unfold insert_pair in Hst3, Hsu3.
    rewrite Hst2, Hsu2, Hsu1, Hmine in Hst3, Hsu3.
    apply existsb_filter_nil in Hf. rewrite Hf in Hst3, Hsu3. cbn in Hst3, Hsu3.
    rewrite Hst1 in Hst3. repeat split; assumption.
  - served_step E3 Hst3 Hsu3 Hlog3 Hs3.
    exists w2. split; [exact Hs3|]. split.
    { rewrite Hlog3, Hlog2, Hlog1, <- !app_assoc. reflexivity. }
    unfold delete_pair_by_id in Hst3, Hsu3. cbn in Hst3, Hsu3.
    rewrite Hst2, Hmine, Hst1 in Hst3. rewrite Hsu2, Hsu1 in Hsu3.
    repeat split; assumption.
  - served_step E3 Hst3 Hsu3 Hlog3 Hs3.
    exists w2. split; [exact Hs3|]. split.
    { rewrite Hlog3, Hlog2, Hlog1, <- !app_assoc. reflexivity. }
    unfold insert_pair in Hst3, Hsu3.
    rewrite Hst2, Hsu2, Hsu1, Hmine in Hst3, Hsu3.
    assert (Hex : existsb (same_pair a u) (pairs mine (store w)) = true).
    { destruct (existsb (same_pair a u) (pairs mine (store w))) eqn:Ex; [reflexivity|].
      apply existsb_filter_nil in Ex. rewrite Ex in Hf. discriminate. }
    rewrite Hex in Hst3, Hsu3. cbn in Hst3, Hsu3.
    rewrite Hst1 in Hst3. repeat split; assumption.
Qed.

(** ** Likes and dislikes exclude each other *)










(** ** Two likes in a row *)

Lemma count_of_served (t : pair_table) (a : string) (w : World) :
  isValidUUID (Some a) = true -> served w ->
  fst (count_of t a w) =
  Ok (length (List.filter (fun r => bool_decide (article_id r = a)) (pairs t (store w)))).
Proof.
  intros Hvalid Hs. unfold count_of. rewrite Hvalid. cbn [negb].
  served_step E Hst Hsu Hlog Hs'. reflexivity.
Qed.

(** C2.  For a durable-shaped [articleId] and a [userId] holding neither a
    like nor a dislike on it, in a store that serves its requests and
    gives new rows unused identifiers: [toggleLike] called twice in a row
    returns [true], then [false]; in between the like is on record and the
    like count is one more; afterwards every relation of the store, and
    with them the like count of the article, is as it was at the start. *)
Theorem toggleLike_twice (articleId userId : string) (w : World) :
  isValidUUID (Some articleId) = true ->
  served w ->
  has_pair Likes articleId userId (store w) = false ->
  has_pair Dislikes articleId userId (store w) = false ->
  next_id_unused Likes w ->
  exists (w1 w2 : World) (n : nat),
    toggleLike articleId userId w = (Ok true, w1)
    /\ toggleLike articleId userId w1 = (Ok false, w2)
    /\ has_pair Likes articleId userId (store w1) = true
    /\ fst (getLikeCount articleId w) = Ok n
    /\ fst (getLikeCount articleId w1) = Ok (S n)
    /\ fst (getLikeCount articleId w2) = Ok n
    /\ store w2 = store w.
Proof.
  intros Hvalid Hs Hlike Hdis Hfresh.
  unfold has_pair in Hlike, Hdis.
  set (new := {| pair_id := uuid_of_nat (supply w);
                 article_id := articleId; user_id := userId |}).
  assert (Hnew : same_pair articleId userId new = true).
  { unfold same_pair, new. simpl. rewrite !bool_decide_eq_true_2; reflexivity. }
  assert (Hclear : forall d,
            existsb (same_pair articleId userId) (pairs Dislikes d) = false ->
            set_pairs Dislikes
              (List.filter (fun r => negb (same_pair articleId userId r))
                 (pairs Dislikes d)) d = d).
  { intros d Hd. rewrite filter_all; [apply set_pairs_id|].
    apply List.Forall_forall. intros r Hin.
    destruct (same_pair articleId userId r) eqn:E; [|reflexivity].
    exfalso. assert (existsb (same_pair articleId userId) (pairs Dislikes d) = true)
      by (apply existsb_exists; exists r; tauto).
    congruence. }
  unfold toggleLike.
  destruct (toggle_served Likes Dislikes articleId userId w
              ltac:(discriminate) Hvalid Hs) as (w1 & Hs1 & _ & Hrun1).
  pose proof Hlike as Hnil. apply existsb_filter_nil in Hnil.
  rewrite Hnil in Hrun1. destruct Hrun1 as (Hrun1 & Hst1 & Hsu1).
  rewrite (Hclear (store w) Hdis) in Hst1. fold new in Hst1.
  assert (Hlikes1 : pairs Likes (store w1) = pairs Likes (store w) ++ [new])
    by (rewrite Hst1; apply pairs_set_pairs).
  assert (Hdis1 : pairs Dislikes (store w1) = pairs Dislikes (store w))
    by (rewrite Hst1; reflexivity).
  destruct (toggle_served Likes Dislikes articleId userId w1
              ltac:(discriminate) Hvalid Hs1) as (w2 & Hs2 & _ & Hrun2).
  rewrite Hlikes1, List.filter_app, Hnil in Hrun2. cbn [List.filter app] in Hrun2.
  rewrite Hnew in Hrun2. destruct Hrun2 as (Hrun2 & Hst2 & Hsu2).
  rewrite Hclear in Hst2 by (rewrite Hdis1; exact Hdis).
  assert (Hback : List.filter (fun x => negb (bool_decide (pair_id x = pair_id new)))
                    (pairs Likes (store w) ++ [new]) = pairs Likes (store w)).
  { rewrite List.filter_app. cbn [List.filter].
    rewrite (bool_decide_eq_true_2 _ eq_refl). cbn [negb].
    rewrite app_nil_r. apply filter_all.
    unfold next_id_unused in Hfresh.
    eapply List.Forall_impl; [|exact Hfresh]. intros r Hr. cbn beta in Hr.
    rewrite bool_decide_eq_false_2; [reflexivity|exact Hr]. }
  rewrite Hback, Hst1, set_pairs_set_pairs, set_pairs_id in Hst2.
  exists w1, w2,
    (length (List.filter (fun r => bool_decide (article_id r = articleId))
               (pairs Likes (store w)))).
  split; [exact Hrun1|]. split; [exact Hrun2|]. split.
  { unfold has_pair. rewrite Hlikes1, existsb_app. simpl. rewrite Hnew.
    apply orb_true_iff. right. reflexivity. }
  unfold getLikeCount.
  rewrite !count_of_served by assumption.
  rewrite Hlikes1, Hst2, List.filter_app, length_app. cbn [List.filter].
  unfold new at 1. cbn [article_id].
  rewrite (bool_decide_eq_true_2 _ eq_refl). cbn [length].
  repeat split; try reflexivity. f_equal. lia.
Qed.

(** ** The normalized URL key *)

Lemma append_nil_l (s : string) : EmptyString +:+ s = s.
Proof. reflexivity. Qed.

Lemma append_cons (c : ascii) (p s : string) : String c p +:+ s = String c (p +:+ s).
Proof. reflexivity. Qed.

Lemma append_nil_r (s : string) : s +:+ EmptyString = s.
Proof.
  induction s as [|c s IH]; [reflexivity|].
  rewrite append_cons, IH. reflexivity.
Qed.

Lemma all_append (p : ascii -> bool) (a b : string) :
  Str.all p (a +:+ b) = Str.all p a && Str.all p b.
Proof.
  induction a as [|c a IH]; [reflexivity|].
  rewrite append_cons. cbn [Str.all]. rewrite IH, andb_assoc. reflexivity.
Qed.

Lemma strip_slash_snoc (p : string) : Str.strip_slash (p +:+ "/") = p.
Proof.
  induction p as [|c p IH]; [reflexivity|].
  destruct p as [|c' p']; [reflexivity|].
  change (String c (Str.strip_slash (String c' p' +:+ "/")) = String c (String c' p')).
  rewrite IH. reflexivity.
Qed.

Lemma strip_slash_tail (c : ascii) (r : string) :
  Str.strip_slash (String c r) = String c r -> Str.strip_slash r = r.
Proof.
  destruct r as [|c' r']; [reflexivity|].
  cbn [Str.strip_slash]. intros H. injection H as H. exact H.
Qed.

(** A string that does not end in a slash has no suffix that does. *)
Lemma strip_slash_suffix (a b : string) :
  Str.strip_slash (a +:+ b) = a +:+ b -> b <> EmptyString ->
  Str.strip_slash b = b.
Proof.
  intros H Hb. induction a as [|c a IH]; [exact H|].
  apply IH. rewrite append_cons in H. exact (strip_slash_tail _ _ H).
Qed.

Lemma strip_slash_trimStart (s : string) :
  Str.strip_slash s = s -> Str.strip_slash (Str.trimStart s) = Str.trimStart s.
Proof.
  induction s as [|c r IH]; [reflexivity|].
  intros H. cbn [Str.trimStart]. destruct (Str.is_space c); [|exact H].
  apply IH. exact (strip_slash_tail _ _ H).
Qed.

Lemma lower_slash (c : ascii) :
  Ascii.eqb (Str.lower c) "/"%char = Ascii.eqb c "/"%char.
Proof.
  destruct c as [[] [] [] [] [] [] [] []]; reflexivity.
Qed.

Lemma strip_slash_toLowerCase (s : string) :
  Str.strip_slash s = s ->
  Str.strip_slash (Str.toLowerCase s) = Str.toLowerCase s.
Proof.
  induction s as [|c r IH]; [reflexivity|].
  intros H. pose proof (strip_slash_tail _ _ H) as Hr.
  destruct r as [|c' r'].
  - cbn [Str.toLowerCase Str.strip_slash] in *. rewrite lower_slash.
    destruct (Ascii.eqb c "/"); [discriminate|reflexivity].
  - change (String (Str.lower c) (Str.strip_slash (Str.toLowerCase (String c' r')))
            = String (Str.lower c) (Str.toLowerCase (String c' r'))).
    rewrite (IH Hr). reflexivity.
Qed.

Lemma toLowerCase_append (a b : string) :
  Str.toLowerCase (a +:+ b) = Str.toLowerCase a +:+ Str.toLowerCase b.
Proof.
  induction a as [|c a IH]; [reflexivity|].
  rewrite append_cons. cbn [Str.toLowerCase]. rewrite IH. reflexivity.
Qed.

Lemma trimStart_snoc_slash (s : string) :
  Str.trimStart (s +:+ "/") = Str.trimStart s +:+ "/".
Proof.
  induction s as [|c r IH]; [reflexivity|].
  rewrite append_cons. cbn [Str.trimStart].
  destruct (Str.is_space c); [exact IH|reflexivity].
Qed.

Lemma trimEnd_snoc_slash (s : string) : Str.trimEnd (s +:+ "/") = s +:+ "/".
Proof.
  induction s as [|c r IH]; [reflexivity|].
  rewrite append_cons. cbn [Str.trimEnd]. rewrite IH.
  destruct r; reflexivity.
Qed.

Lemma trimEnd_trimStart (s : string) :
  Str.trimEnd s = s -> Str.trimEnd (Str.trimStart s) = Str.trimStart s.
Proof.
  induction s as [|c r IH]; [reflexivity|].
  intros H. cbn [Str.trimStart]. destruct (Str.is_space c) eqn:Hc; [|exact H].
  apply IH. cbn [Str.trimEnd] in H. rewrite Hc in H.
  destruct (Str.trimEnd r); [discriminate|]. injection H as H. exact H.
Qed.

(** *** The URL description *)

Lemma break_append (stop : ascii -> bool) (s t : string) :
  Platform.break stop (s +:+ t)
  = let '(a, b) := Platform.break stop s in
    match b with
    | EmptyString => let '(a', b') := Platform.break stop t in (a +:+ a', b')
    | _ => (a, b +:+ t)
    end.
Proof.
  induction s as [|c r IH].
  - rewrite append_nil_l. cbn [Platform.break].
    destruct (Platform.break stop t). reflexivity.
  - rewrite append_cons. cbn [Platform.break].
    destruct (stop c); [reflexivity|].
    rewrite IH. destruct (Platform.break stop r) as [a b].
    destruct b; [destruct (Platform.break stop t)|]; reflexivity.
Qed.

Lemma break_spec (stop : ascii -> bool) (s : string) :
  s = fst (Platform.break stop s) +:+ snd (Platform.break stop s).
Proof.
  induction s as [|c r IH]; [reflexivity|].
  cbn [Platform.break]. destruct (stop c); [reflexivity|].
  destruct (Platform.break stop r) as [a b]. cbn [fst snd] in *.
  rewrite append_cons. f_equal. exact IH.
Qed.

Lemma pieces_nonempty (sep : ascii -> bool) (s : string) :
  Platform.pieces sep s <> [].
Proof.
  destruct s as [|c r]; cbn [Platform.pieces]; [discriminate|].
  destruct (sep c); [discriminate|].
  destruct (Platform.pieces sep r); discriminate.
Qed.

Lemma pieces_snoc (sep : ascii -> bool) (s : string) (c : ascii) :
  sep c = true ->
  Platform.pieces sep (s +:+ String c EmptyString)
  = Platform.pieces sep s ++ [EmptyString].
Proof.
  intros Hc. induction s as [|d r IH].
  - rewrite append_nil_l. cbn [Platform.pieces]. rewrite Hc. reflexivity.
  - rewrite append_cons. cbn [Platform.pieces]. rewrite IH.
    destruct (sep d); [reflexivity|].
    pose proof (pieces_nonempty sep r) as Hne.
    destruct (Platform.pieces sep r); [contradiction|reflexivity].
Qed.

Lemma plain_path_snoc_slash (path : string) :
  Platform.plain_path path = true -> Platform.plain_path (path +:+ "/") = true.
Proof.
  unfold Platform.plain_path. intros H.
  apply andb_true_iff in H as [Hall Hseg].
  rewrite all_append, Hall, (pieces_snoc _ _ "/"%char eq_refl), forallb_app, Hseg.
  reflexivity.
Qed.

Lemma remove_clean (p : ascii -> bool) (s : string) :
  Str.all (fun c => negb (p c)) s = true -> Platform.remove p s = s.
Proof.
  induction s as [|c r IH]; [reflexivity|].
  cbn [Str.all Platform.remove]. intros H. apply andb_true_iff in H as [Hc Hr].
  apply negb_true_iff in Hc. rewrite Hc, (IH Hr). reflexivity.
Qed.

Lemma drop_trailing_clean (p : ascii -> bool) (s : string) :
  Str.all (fun c => negb (p c)) s = true -> Platform.drop_trailing p s = s.
Proof.
  induction s as [|c r IH]; [reflexivity|].
  cbn [Str.all Platform.drop_trailing]. intros H.
  apply andb_true_iff in H as [Hc Hr].
  apply negb_true_iff in Hc. rewrite Hc, (IH Hr). reflexivity.
Qed.

Lemma visible_no_tab (s : string) :
  Str.all (fun c => negb (Platform.c0_or_space c)) s = true ->
  Str.all (fun c => negb (Platform.tab_or_newline c)) s = true.
Proof.
  induction s as [|c r IH]; [reflexivity|].
  cbn [Str.all]. intros H. apply andb_true_iff in H as [Hc Hr].
  rewrite (IH Hr), andb_true_r.
  unfold Platform.c0_or_space in Hc. unfold Platform.tab_or_newline.
  apply negb_true_iff, Nat.leb_gt in Hc.
  apply negb_true_iff, orb_false_iff. split; [apply orb_false_iff; split|];
    apply Nat.eqb_neq; lia.
Qed.

(** After [http://] and [https://] the parser reads the same thing. *)
Lemma URL_parse_http (rest : string) :
  Platform.URL_parse ("http://" +:+ rest)
  = Platform.parse_after_scheme
      (Platform.remove Platform.tab_or_newline
         (Platform.drop_trailing Platform.c0_or_space rest)).
Proof. reflexivity. Qed.

Lemma URL_parse_https (rest : string) :
  Platform.URL_parse ("https://" +:+ rest)
  = Platform.parse_after_scheme
      (Platform.remove Platform.tab_or_newline
         (Platform.drop_trailing Platform.c0_or_space rest)).
Proof. reflexivity. Qed.

Lemma URL_parse_visible (scheme rest : string) :
  scheme = "http://" \/ scheme = "https://" ->
  Str.all (fun c => negb (Platform.c0_or_space c)) rest = true ->
  Platform.URL_parse (scheme +:+ rest) = Platform.parse_after_scheme rest.
Proof.
  intros Hs Hv.
  assert (E : Platform.remove Platform.tab_or_newline
                (Platform.drop_trailing Platform.c0_or_space rest) = rest).
  { rewrite (drop_trailing_clean _ _ Hv). apply remove_clean, visible_no_tab, Hv. }
  destruct Hs as [-> | ->]; [rewrite URL_parse_http|rewrite URL_parse_https];
    rewrite E; reflexivity.
Qed.

(** One more slash at the end of an address the parser reads: the host is
    the same, and the path is the same (the slash went into the query or the
    fragment, or it is the whole path) or longer by that slash. *)
Lemma parse_after_scheme_snoc_slash (rest : string) (p : URL) :
  Platform.parse_after_scheme rest = Platform.Parsed p ->
  Str.strip_slash rest = rest ->
  exists q,
    Platform.parse_after_scheme (rest +:+ "/") = Platform.Parsed q
    /\ hostname q = hostname p
    /\ (pathname q = pathname p
        \/ (pathname q = pathname p +:+ "/"
            /\ Str.strip_slash (pathname p) = pathname p)).
Proof.
  unfold Platform.parse_after_scheme. intros Hp Hend.
  rewrite break_append.
  pose proof (break_spec (fun c => Platform.one_of "/?#" c || (Str.code c =? 92)%nat) rest)
    as Hrest.
  destruct (Platform.break _ rest) as [authority tail]. cbn [fst snd] in Hrest.
  destruct tail as [|t0 tail'].
  - (* no path: the slash is the path *)
    change (Platform.break (fun c => Platform.one_of "/?#" c || (Str.code c =? 92)%nat) "/")
      with (EmptyString, "/").
    cbv beta iota zeta. rewrite append_nil_r.
    destruct (Platform.break (Platform.one_of ":") authority) as [host port].
    cbn [Platform.break] in Hp.
    change (Platform.break (Platform.one_of "?#") "/") with ("/", EmptyString).
    destruct (Platform.domain_of_ascii_labels host); [|discriminate].
    destruct (Platform.port_of port); try discriminate.
    change (Platform.plain_path "") with true in Hp.
    change (Platform.plain_path "/") with true.
    injection Hp as <-. eexists. split; [reflexivity|]. cbn. auto.
  - set (tail := String t0 tail') in *.
    change (match tail with
            | EmptyString =>
                let '(a', b') :=
                  Platform.break (fun c => Platform.one_of "/?#" c || (Str.code c =? 92)%nat) "/"
                in (authority +:+ a', b')
            | String _ _ => (authority, tail +:+ "/")
            end) with (authority, tail +:+ "/").
    destruct (Platform.break (Platform.one_of ":") authority) as [host port].
    rewrite break_append.
    pose proof (break_spec (Platform.one_of "?#") tail) as Htail.
    destruct (Platform.break (Platform.one_of "?#") tail) as [path qf].
    cbn [fst snd] in Htail.
    destruct (Platform.domain_of_ascii_labels host); [|discriminate].
    destruct (Platform.port_of port); try discriminate.
    destruct (Platform.plain_path path) eqn:Hplain; [|discriminate].
    injection Hp as <-.
    destruct qf as [|q0 qf'].
    + (* no query, no fragment: the path grows by the slash *)
      change (Platform.break (Platform.one_of "?#") "/") with ("/", EmptyString).
      cbv beta iota zeta. rewrite (plain_path_snoc_slash _ Hplain).
      rewrite append_nil_r in Htail. subst path.
      eexists. split; [reflexivity|]. cbn [hostname pathname].
      split; [reflexivity|]. right.
      assert (Hstrip : Str.strip_slash tail = tail).
      { apply (strip_slash_suffix authority); [|discriminate].
        rewrite <- Hrest. exact Hend. }
      split; [reflexivity|exact Hstrip].
    + cbv beta iota zeta. rewrite Hplain.
      eexists. split; [reflexivity|]. cbn [hostname pathname]. auto.
Qed.

Lemma agrees_URL_basic : Platform.agrees Platform.URL_basic.
Proof.
  intros input. unfold Platform.URL_basic.
  destruct (Platform.URL_parse input); reflexivity.
Qed.

Lemma normalizeUrl_parsed (URL_new : string -> option URL) (s : string) (p : URL) :
  Platform.agrees URL_new ->
  Platform.URL_parse s = Platform.Parsed p ->
  normalizeUrl URL_new s
  = Ok (Str.toLowerCase (hostname p +:+ Str.strip_slash (pathname p))).
Proof.
  intros Hag Hp. specialize (Hag s). rewrite Hp in Hag.
  unfold normalizeUrl, new_URL. rewrite Hag. reflexivity.
Qed.

Lemma normalizeUrl_rejected (URL_new : string -> option URL) (s : string) :
  Platform.agrees URL_new ->
  Platform.URL_parse s = Platform.Rejected ->
  normalizeUrl URL_new s = Ok (Str.strip_slash (Str.toLowerCase (Str.trim s))).
Proof.
  intros Hag Hp. specialize (Hag s). rewrite Hp in Hag.
  unfold normalizeUrl, new_URL. rewrite Hag. reflexivity.
Qed.

(** C5, as the code has it.  [normalizeUrl] returns a key for every
    string, whatever the URL constructor does with it.

    Whatever the constructor is: when it accepts two strings and reads the
    same host out of both, the keys are identical if the paths are the same
    or if one path is the other followed by one slash and the other does
    not itself end in a slash (one trailing slash is stripped, not more).
    An ASCII string the constructor rejects is trimmed, lower-cased and
    relieved of one trailing slash, its scheme kept; if [url] and [url]
    followed by a slash are both rejected, their keys are identical as soon
    as [url] ends neither in white space nor in a slash.

    On a platform whose constructor does what [Platform.URL_parse] says:
    when [Platform.URL_parse] reads [http://rest], the strings [http://rest]
    and [https://rest] get the same key, the lower-cased host and path
    without one trailing slash; if moreover [rest] has no white space and no
    control character and does not end in a slash, one more slash at its end
    does not change the key; and on every string [Platform.URL_parse]
    covers, as an address or as a rejection, the key is the one the
    examples compute with [Platform.URL_basic]. *)
Theorem normalizeUrl_total_and_insensitive (URL_new : string -> option URL) :
  (forall url, exists key, normalizeUrl URL_new url = Ok key)
  /\ (forall u1 u2 p1 p2,
        URL_new u1 = Some p1 -> URL_new u2 = Some p2 ->
        hostname p1 = hostname p2 ->
        pathname p1 = pathname p2
        \/ (pathname p2 = pathname p1 +:+ "/"
            /\ Str.strip_slash (pathname p1) = pathname p1) ->
        normalizeUrl URL_new u1 = normalizeUrl URL_new u2)
  /\ (forall url,
        Str.ascii_only url = true ->
        URL_new url = None ->
        normalizeUrl URL_new url
        = Ok (Str.strip_slash (Str.toLowerCase (Str.trim url))))
  /\ (forall url,
        Str.ascii_only url = true ->
        URL_new url = None -> URL_new (url +:+ "/") = None ->
        Str.trimEnd url = url -> Str.strip_slash url = url ->
        normalizeUrl URL_new (url +:+ "/") = normalizeUrl URL_new url)
  /\ (Platform.agrees URL_new ->
      (forall rest p,
         Platform.URL_parse ("http://" +:+ rest) = Platform.Parsed p ->
         let key := Str.toLowerCase (hostname p +:+ Str.strip_slash (pathname p)) in
         normalizeUrl URL_new ("http://" +:+ rest) = Ok key
         /\ normalizeUrl URL_new ("https://" +:+ rest) = Ok key)
      /\ (forall scheme rest p,
            scheme = "http://" \/ scheme = "https://" ->
            Str.all (fun c => negb (Platform.c0_or_space c)) rest = true ->
            Str.strip_slash rest = rest ->
            Platform.URL_parse (scheme +:+ rest) = Platform.Parsed p ->
            normalizeUrl URL_new (scheme +:+ rest +:+ "/")
            = normalizeUrl URL_new (scheme +:+ rest))
      /\ (forall url,
            Platform.URL_parse url <> Platform.Unmodelled ->
            normalizeUrl URL_new url = normalizeUrl Platform.URL_basic url)).
Proof.
  split; [|split; [|split; [|split]]].
  - intros url. unfold normalizeUrl, new_URL.
    destruct (URL_new url); eexists; reflexivity.
  - intros u1 u2 p1 p2 H1 H2 Hhost Hpath.
    unfold normalizeUrl, new_URL. rewrite H1, H2, Hhost.
    destruct Hpath as [-> | [-> Hend]]; [reflexivity|].
    rewrite strip_slash_snoc, Hend. reflexivity.
  - intros url _ Hnone. unfold normalizeUrl, new_URL. rewrite Hnone. reflexivity.
  - intros url _ Hnone Hnone' Hspace Hslash.
    unfold normalizeUrl, new_URL. rewrite Hnone, Hnone'. f_equal.
    unfold Str.trim.
    rewrite trimStart_snoc_slash, trimEnd_snoc_slash, (trimEnd_trimStart _ Hspace).
    rewrite toLowerCase_append. change (Str.toLowerCase "/") with "/".
    rewrite strip_slash_snoc. symmetry.
    apply strip_slash_toLowerCase, strip_slash_trimStart, Hslash.
  - intros Hag. split; [|split].
    + intros rest p Hp key. split.
      * exact (normalizeUrl_parsed URL_new _ p Hag Hp).
      * apply (normalizeUrl_parsed URL_new _ p Hag).
        rewrite URL_parse_https, <- URL_parse_http. exact Hp.
    + intros scheme rest p Hs Hv Hend Hp.
      rewrite (URL_parse_visible scheme rest Hs Hv) in Hp.
      destruct (parse_after_scheme_snoc_slash rest p Hp Hend)
        as (q & Hq & Hhost & Hpath).
      assert (Hv' : Str.all (fun c => negb (Platform.c0_or_space c)) (rest +:+ "/") = true).
      { rewrite all_append, Hv. reflexivity. }
      rewrite <- (URL_parse_visible scheme _ Hs Hv') in Hq.
      rewrite <- (URL_parse_visible scheme rest Hs Hv) in Hp.
      rewrite (normalizeUrl_parsed URL_new _ q Hag Hq).
      rewrite (normalizeUrl_parsed URL_new _ p Hag Hp).
      rewrite Hhost. destruct Hpath as [-> | [-> Hstrip]]; [reflexivity|].
      rewrite strip_slash_snoc, Hstrip. reflexivity.
    + intros url Hcov.
      pose proof (Hag url) as H1. pose proof (agrees_URL_basic url) as H2.
      unfold normalizeUrl, new_URL.
      destruct (Platform.URL_parse url); [| |contradiction];
        rewrite H1, H2; reflexivity.
Qed.

(** ** Batch enrichment *)

Lemma tally_from (rows : list string) (m : gmap string nat) (k : string) :
  default 0
    (fold_left (fun m k => <[k := default 0 (m !! k) + 1]> m) rows m !! k)
  = default 0 (m !! k) + length (List.filter (fun x => bool_decide (x = k)) rows).
Proof.
  revert m. induction rows as [|x rows IH]; intros m; simpl; [lia|].
  rewrite IH. case_bool_decide as Hx.
  - subst x. rewrite lookup_insert_eq. simpl. lia.
  - rewrite lookup_insert_ne by exact Hx. reflexivity.
Qed.

Lemma tally_default (rows : list string) (k : string) :
  default 0 (tally rows !! k)
  = length (List.filter (fun x => bool_decide (x = k)) rows).
Proof. unfold tally. rewrite tally_from, lookup_empty. reflexivity. Qed.

Lemma selected_occurrences (ids : list string) (rows : list PairRow) (i : string) :
  length (List.filter (fun x => bool_decide (x = i))
            (map article_id
               (List.filter (fun r => bool_decide (article_id r ∈ ids)) rows)))
  = if bool_decide (i ∈ ids)
    then length (List.filter (fun r => bool_decide (article_id r = i)) rows)
    else 0.
Proof.
  induction rows as [|r rows IH]; [destruct (bool_decide _); reflexivity|].
  cbn [List.filter].
  destruct (bool_decide (article_id r ∈ ids)) eqn:Hin; cbn [map List.filter].
  - apply bool_decide_eq_true in Hin.
    destruct (bool_decide (article_id r = i)) eqn:Hi; cbn [length]; rewrite IH.
    + apply bool_decide_eq_true in Hi. subst i.
      rewrite bool_decide_eq_true_2 by exact Hin. reflexivity.
    + reflexivity.
  - apply bool_decide_eq_false in Hin. rewrite IH.
    destruct (bool_decide (article_id r = i)) eqn:Hi; cbn [length]; [|reflexivity].
    apply bool_decide_eq_true in Hi. subst i.
    rewrite bool_decide_eq_false_2 by exact Hin. reflexivity.
Qed.

(** No member of [Object.prototype] is named like a durable identifier. *)
Lemma uuid_not_inherited (i : string) :
  isValidUUID (Some i) = true -> i ∉ object_prototype_members.
Proof.
  intros Hvalid Hin. apply list_elem_of_In in Hin. simpl in Hin.
  repeat (destruct Hin as [<-|Hin]; [discriminate Hvalid|]).
  exact Hin.
Qed.

Lemma read_own_count (m : gmap string nat) (i : string) :
  i ∉ object_prototype_members ->
  or_zero (read_count m i) = Count (default 0 (m !! i)).
Proof.
  intros Hi. unfold read_count. destruct (m !! i); [reflexivity|].
  rewrite bool_decide_eq_false_2 by exact Hi. reflexivity.
Qed.

(** The batched lookup in a store that serves it: at most the two bulk
    reads, no change to the store, and for every identifier the number of
    its rows if it is durable-shaped and among those asked for, else 0. *)
Lemma getBatchCounts_served (ids : list string) (w : World) :
  served w ->
  exists c w',
    getBatchCounts ids w = (Ok c, w')
    /\ store w' = store w
    /\ log w' = log w
                ++ (if (length (List.filter (fun i => isValidUUID (Some i)) ids) =? 0)%nat
                    then []
                    else [ask Rel_likes Select; ask Rel_dislikes Select])
    /\ forall i,
         default 0 (likes c !! i)
         = (if isValidUUID (Some i) && bool_decide (i ∈ ids)
            then votes_on Likes i (store w) else 0)
         /\ default 0 (dislikes c !! i)
            = (if isValidUUID (Some i) && bool_decide (i ∈ ids)
               then votes_on Dislikes i (store w) else 0).
Proof.
  intros Hs. unfold getBatchCounts.
  set (validIds := List.filter (fun i => isValidUUID (Some i)) ids).
  assert (Hvalid : forall i, bool_decide (i ∈ validIds)
                             = isValidUUID (Some i) && bool_decide (i ∈ ids)).
  { intros i. apply eq_true_iff_eq.
    rewrite andb_true_iff, !bool_decide_eq_true, !list_elem_of_In.
    unfold validIds. rewrite List.filter_In. tauto. }
  destruct (length validIds =? 0)%nat eqn:Hlen.
  - exists {| likes := ∅; dislikes := ∅ |}, w.
    split; [reflexivity|]. split; [reflexivity|]. split; [symmetry; apply app_nil_r|].
    intros i. cbn [likes dislikes]. rewrite lookup_empty. cbn [default].
    rewrite <- Hvalid. apply Nat.eqb_eq in Hlen.
    destruct validIds; [|discriminate].
    rewrite bool_decide_eq_false_2 by apply not_elem_of_nil. split; reflexivity.
  - destruct (send_served (ask Rel_likes Select) (select_article_ids_in Likes validIds)
                w Hs) as (w1 & E1 & Hst1 & _ & Hlog1 & Hs1).
    destruct (send_served (ask Rel_dislikes Select)
                (select_article_ids_in Dislikes validIds) w1 Hs1)
      as (w2 & E2 & Hst2 & _ & Hlog2 & Hs2).
    eexists _, w2. split.
    { unfold bind, promise_all. rewrite E1, E2. reflexivity. }
    cbn in Hst1, Hst2. split; [congruence|]. split.
    { rewrite Hlog2, Hlog1, <- app_assoc. reflexivity. }
    intros i. cbn [likes dislikes fst snd select_article_ids_in tally_response
                   data answered].
    rewrite !tally_default, !selected_occurrences, Hvalid, Hst1.
    split; reflexivity.
Qed.

Lemma Forall2_map_self {A B : Type} (R : A -> B -> Prop) (f : A -> B) (l : list A) :
  (forall a, In a l -> R a (f a)) -> Forall2 R l (map f l).
Proof.
  induction l as [|x l IH]; intros H; simpl; constructor.
  - apply H. left. reflexivity.
  - apply IH. intros a Ha. apply H. right. exact Ha.
Qed.

(** C7, as the code has it.  Let [ids] be the identifiers present in the
    list.  If there is none, the list comes back as it is, counts
    included, and no request is sent.  If the batched lookup throws, the
    original list comes back.  If the store serves the lookup, the
    result has the length and order of the list, every article keeps all
    fields but the two counters, and these are: the numbers of its like
    and dislike rows for an article with a durable-shaped id, read in one
    batched lookup of two bulk requests that leaves the store unchanged; zero
    for an article without an id; and zero as well for an id that is
    not durable-shaped and not the name of a member of [Object.prototype]. *)
Theorem enrich_overwrites_counts (arts : list Article) (w : World) :
  let ids := omap (fun a => truthy (id a)) arts in
  (ids = [] -> enrichArticlesWithCounts arts w = (Ok arts, w))
  /\ (fst (getBatchCounts ids w) = Thrown ->
      fst (enrichArticlesWithCounts arts w) = Ok arts)
  /\ (ids <> [] -> served w ->
      exists out w',
        enrichArticlesWithCounts arts w = (Ok out, w')
        /\ store w' = store w
        /\ log w' = log w
             ++ (if (length (List.filter (fun i => isValidUUID (Some i)) ids) =? 0)%nat
                 then []
                 else [ask Rel_likes Select; ask Rel_dislikes Select])
        /\ Forall2
             (fun a b =>
                same_but_counts a b
                /\ match truthy (id a) with
                   | None => likeCount b = Count 0 /\ dislikeCount b = Count 0
                   | Some i =>
                       (isValidUUID (Some i) = true ->
                        likeCount b = Count (votes_on Likes i (store w))
                        /\ dislikeCount b = Count (votes_on Dislikes i (store w)))
                       /\ (isValidUUID (Some i) = false ->
                           i ∉ object_prototype_members ->
                           likeCount b = Count 0 /\ dislikeCount b = Count 0)
                   end)
             arts out).
Proof.
  intros ids. unfold enrichArticlesWithCounts. fold ids.
  split; [|split].
  - intros ->. reflexivity.
  - intros Hthrown.
    destruct ids as [|i0 ids0] eqn:Hids; [discriminate Hthrown|].
    cbn [length Nat.eqb].
    unfold try_catch, bind.
    destruct (getBatchCounts (i0 :: ids0) w) as [[c|] w'] eqn:E;
      [discriminate Hthrown|reflexivity].
  - intros Hne Hs.
    destruct (getBatchCounts_served ids w Hs) as (c & w' & E & Hst & Hlog & Hc).
    destruct ids as [|i0 ids0] eqn:Hids; [contradiction|]. cbn [length Nat.eqb].
    unfold try_catch. rewrite (bind_ok _ _ _ _ _ E).
    eexists _, w'. split; [reflexivity|]. split; [exact Hst|]. split; [exact Hlog|].
    apply Forall2_map_self. intros a Ha.
    split; [repeat split|].
    cbn [likeCount dislikeCount with_counts].
    destruct (truthy (id a)) as [i|] eqn:Hi; [|split; reflexivity].
    assert (Hin : bool_decide (i ∈ i0 :: ids0) = true).
    { apply bool_decide_eq_true. rewrite <- Hids. unfold ids.
      apply list_elem_of_omap. exists a. split; [|exact Hi].
      apply list_elem_of_In, Ha. }
    destruct (Hc i) as [Hl Hd]. rewrite Hin, andb_true_r in Hl, Hd.
    split.
    + intros Hvalid. rewrite Hvalid in Hl, Hd.
      rewrite !read_own_count by (apply uuid_not_inherited, Hvalid).
      rewrite Hl, Hd. split; reflexivity.
    + intros Hinvalid Hown. rewrite Hinvalid in Hl, Hd.
      rewrite !read_own_count by exact Hown.
      rewrite Hl, Hd. split; reflexivity.
Qed.

(** ** Saving a batch *)

Section SaveArticles.

Variable URL_new : string -> option URL.

Let key := key_of URL_new.

Lemma normalizeUrl_key (a : Article) : normalizeUrl URL_new (url a) = Ok (key a).
Proof.
  unfold key, key_of, normalizeUrl. destruct (new_URL URL_new (url a)); reflexivity.
Qed.

Lemma map_has_spec (m : list (string * Article)) (norm : string) :
  map_has m norm = bool_decide (norm ∈ map fst m).
Proof.
  induction m as [|[k a] m IH].
  - reflexivity.
  - cbn [map_has existsb map fst]. fold (map_has m norm). rewrite IH.
    apply eq_true_iff_eq.
    rewrite orb_true_iff, !bool_decide_eq_true, elem_of_cons.
    split; intros [H|H]; auto.
Qed.

(** The [Map] built by the loop holds the first occurrences, in order. *)
Lemma unique_input_map_spec (articles : list Article) (m : list (string * Article)) :
  unique_input_map URL_new m articles
  = Ok (m ++ map (fun a => (key a, a))
               (first_occurrences key (map fst m) (List.filter has_url articles))).
Proof.
  revert m. induction articles as [|a rest IH]; intros m; simpl.
  - rewrite app_nil_r. reflexivity.
  - unfold has_url at 1. destruct (Str.nonempty (url a)); [|apply IH].
    rewrite normalizeUrl_key, map_has_spec. cbn [first_occurrences].
    destruct (bool_decide (key a ∈ map fst m)) eqn:Hseen.
    + apply IH.
    + rewrite IH, map_app, <- app_assoc. cbn [map fst app].
      f_equal. f_equal. cbn [map]. f_equal.
      (* the keys seen so far, as a set *)
      clear. generalize (List.filter has_url rest). intros l.
      assert (Hperm : forall seen seen',
                (forall k, k ∈ seen <-> k ∈ seen') ->
                first_occurrences key seen l = first_occurrences key seen' l).
      { induction l as [|x l IHl]; intros seen seen' Heq; [reflexivity|].
        cbn [first_occurrences].
        rewrite (bool_decide_ext _ _ (Heq (key x))).
        destruct (bool_decide (key x ∈ seen')); [apply IHl, Heq|].
        f_equal. apply IHl. intros k. rewrite !elem_of_cons, Heq. tauto. }
      f_equal. apply Hperm. intros k.
      rewrite elem_of_app, !elem_of_cons, elem_of_nil. cbn [fst]. tauto.
Qed.

(** An article is kept exactly when it is the first of its key. *)
Lemma first_occurrences_find (l : list Article) (seen : list string) (u : Article) :
  In u (first_occurrences key seen l)
  <-> (key u ∉ seen)
      /\ List.find (fun a => bool_decide (key a = key u)) l = Some u.
Proof.
  revert seen. induction l as [|a rest IH]; intros seen; cbn [first_occurrences List.find].
  - split; [intros []|intros [_ [=]]].
  - destruct (bool_decide (key a ∈ seen)) eqn:Hseen.
    + apply bool_decide_eq_true in Hseen. rewrite IH.
      case_bool_decide as Hk; [|tauto].
      split; [intros [Hn _]; rewrite <- Hk in Hn; contradiction|].
      intros [Hn _]. rewrite <- Hk in Hn. contradiction.
    + apply bool_decide_eq_false in Hseen. cbn [In]. rewrite IH, not_elem_of_cons.
      case_bool_decide as Hk.
      * split.
        -- intros [->|[[Hne _] _]]; [tauto|congruence].
        -- intros [_ [= ->]]. left. reflexivity.
      * split.
        -- intros [->|[[_ Hn] Hf]]; [congruence|tauto].
        -- intros [Hn Hf]. right. repeat split; auto.
Qed.

Lemma first_occurrences_NoDup (l : list Article) (seen : list string) :
  NoDup (map key (first_occurrences key seen l))
  /\ forall u, In u (first_occurrences key seen l) -> (key u ∉ seen).
Proof.
  revert seen. induction l as [|a rest IH]; intros seen; cbn [first_occurrences].
  - split; [constructor|intros u []].
  - destruct (bool_decide (key a ∈ seen)) eqn:Hseen; [apply IH|].
    apply bool_decide_eq_false in Hseen.
    destruct (IH (key a :: seen)) as [Hnd Hout]. split.
    + cbn [map]. constructor; [|exact Hnd].
      intros Hin. apply list_elem_of_In, in_map_iff in Hin as (u & Hk & Hu).
      apply Hout in Hu. apply Hu. rewrite Hk. left.
    + intros u [<-|Hu]; [exact Hseen|].
      apply Hout in Hu. intros Hin. apply Hu. right. exact Hin.
Qed.


(** *** The upsert, row by row *)

Lemma filter_upserted (row : ArticleData) (u : string) (l : list ArticleRow) :
  List.filter (fun r => bool_decide (row_url (row_data r) = u))
    (map (fun x => if bool_decide (row_url (row_data x) = row_url row)
                   then {| row_id := row_id x; row_data := row |} else x) l)
  = if bool_decide (u = row_url row)
    then map (fun x => {| row_id := row_id x; row_data := row |})
           (List.filter (fun r => bool_decide (row_url (row_data r) = row_url row)) l)
    else List.filter (fun r => bool_decide (row_url (row_data r) = u)) l.
Proof.
  induction l as [|x l IH]; [destruct (bool_decide _); reflexivity|].
  cbn [map List.filter]. rewrite IH. clear IH.
  destruct (bool_decide (row_url (row_data x) = row_url row)) eqn:Hx;
    destruct (bool_decide (u = row_url row)) eqn:Hu; cbn [row_data row_url].
  - apply bool_decide_eq_true in Hu. subst u.
    rewrite bool_decide_eq_true_2 by reflexivity. reflexivity.
  - apply bool_decide_eq_false in Hu. apply bool_decide_eq_true in Hx.
    rewrite bool_decide_eq_false_2 by congruence.
    rewrite bool_decide_eq_false_2 by congruence. reflexivity.
  - apply bool_decide_eq_true in Hu. subst u. rewrite Hx. reflexivity.
  - reflexivity.
Qed.

(** What one served upsert answers and leaves behind. *)
Lemma upsert_article_spec (row : ArticleData) (d : Database) (n : nat) :
  exists r d' n',
    upsert_article row d n = (answered r, d', n')
    /\ row_data r = row
    /\ In r (rows_at (row_url row) d')
    /\ (forall u, u <> row_url row -> rows_at u d' = rows_at u d)
    /\ length (rows_at (row_url row) d') = Nat.max 1 (length (rows_at (row_url row) d))
    /\ (rows_at (row_url row) d = [] ->
        row_id r = uuid_of_nat n /\ db_articles d' = db_articles d ++ [r])
    /\ (forall old l, rows_at (row_url row) d = old :: l ->
        row_id r = row_id old /\ length (db_articles d') = length (db_articles d))
    /\ (forall t, pairs t d' = pairs t d)
    /\ db_comments d' = db_comments d.
Proof.
  unfold upsert_article, rows_at.
  destruct (List.filter (fun r => bool_decide (row_url (row_data r) = row_url row))
              (db_articles d)) as [|old l] eqn:Hhit.
  - eexists _, _, _. split; [reflexivity|]. cbn [db_articles set_articles row_data].
    split; [reflexivity|]. split.
    { rewrite List.filter_app, Hhit. cbn [List.filter row_data row_url].
      rewrite bool_decide_eq_true_2 by reflexivity. left. reflexivity. }
    split.
    { intros u Hu. rewrite List.filter_app. cbn [List.filter row_data row_url].
      rewrite bool_decide_eq_false_2 by congruence. apply app_nil_r. }
    split.
    { rewrite List.filter_app, Hhit. cbn [List.filter row_data row_url].
      rewrite bool_decide_eq_true_2 by reflexivity. reflexivity. }
    split; [intros _; split; reflexivity|].
    split; [intros old l [=]|]. split; [intros []; reflexivity|reflexivity].
  - eexists _, _, _. split; [reflexivity|]. cbn [db_articles set_articles row_data].
    split; [reflexivity|].
    rewrite (filter_upserted row (row_url row)), Hhit.
    rewrite bool_decide_eq_true_2 by reflexivity.
    split; [left; reflexivity|]. split.
    { intros u Hu. rewrite filter_upserted.
      rewrite bool_decide_eq_false_2 by exact Hu. reflexivity. }
    split; [rewrite length_map; reflexivity|].
    split; [intros [=]|].
    split; [intros old' l' [= <- <-]; split; [reflexivity|apply length_map]|].
    split; [intros []; reflexivity|reflexivity].
Qed.

(** One turn of the loop. *)
Lemma save_one_spec (cat : string) (saved : list Article) (a : Article) (w : World) :
  exists w1,
    log w1 = log w ++ [ask Rel_articles Upsert]
    /\ answers w1 = tl (answers w)
    /\ match hd Serve (answers w) with
       | Serve =>
           exists r,
             save_one cat saved a w = (Ok (saved ++ [persisted a r]), w1)
             /\ upsert_article (row_of cat a) (store w) (supply w)
                = (answered r, store w1, supply w1)
       | _ =>
           save_one cat saved a w = (Ok saved, w1)
           /\ store w1 = store w /\ supply w1 = supply w
       end.
Proof.
  unfold save_one, try_catch, bind, send.
  destruct (hd Serve (answers w)).
  - destruct (upsert_article_spec (row_of cat a) (store w) (supply w))
      as (r & d' & n' & E & _).
    rewrite E. cbn [data answered].
    exists {| store := d'; supply := n'; answers := tl (answers w);
              log := log w ++ [ask Rel_articles Upsert] |}.
    split; [reflexivity|]. split; [reflexivity|]. exists r. split; reflexivity.
  - exists {| store := store w; supply := supply w; answers := tl (answers w);
              log := log w ++ [ask Rel_articles Upsert] |}.
    cbn. repeat split.
  - exists {| store := store w; supply := supply w; answers := tl (answers w);
              log := log w ++ [ask Rel_articles Upsert] |}.
    cbn. repeat split.
Qed.

Lemma kept_served (plan : list answer) (l : list Article) :
  Forall (fun a => a = Serve) plan -> kept plan l = l.
Proof.
  revert plan. induction l as [|a l IH]; intros plan Hp; [reflexivity|].
  cbn [kept]. destruct plan as [|x plan]; cbn [hd tl].
  - f_equal. apply IH. constructor.
  - inversion Hp as [|? ? -> Hp']. f_equal. apply IH, Hp'.
Qed.

Lemma Forall2_In_l {A B : Type} (R : A -> B -> Prop) (l : list A) (l' : list B) (a : A) :
  Forall2 R l l' -> In a l -> exists b, In b l' /\ R a b.
Proof.
  induction 1 as [|x y l l' Hxy _ IH]; intros Hin; [destruct Hin|].
  destruct Hin as [<-|Hin].
  - exists y. split; [left; reflexivity|exact Hxy].
  - destruct (IH Hin) as (b & Hb & Hr). exists b. split; [right; exact Hb|exact Hr].
Qed.

(** The loop over the unique articles: one upsert each, whatever the store
    answers; the served ones are returned, each with the row it now has. *)
Lemma save_each_spec (cat : string) (uniq : list Article) :
  NoDup (map url uniq) ->
  forall (saved : list Article) (w : World),
  exists added w',
    save_each cat uniq saved w = (Ok (saved ++ added), w')
    /\ log w' = log w ++ repeat (ask Rel_articles Upsert) (length uniq)
    /\ Forall2
         (fun a s => exists row,
            s = persisted a row
            /\ row_data row = row_of cat a
            /\ In row (rows_at (url a) (store w')))
         (kept (answers w) uniq) added
    /\ (forall u, ~ In u (map url uniq) -> rows_at u (store w') = rows_at u (store w))
    /\ (forall u, length (rows_at u (store w)) <= 1 ->
                  length (rows_at u (store w')) <= 1)
    /\ (forall t, pairs t (store w') = pairs t (store w))
    /\ db_comments (store w') = db_comments (store w).
Proof.
  induction uniq as [|a rest IH]; intros Hnd saved w.
  - exists [], w. cbn [save_each length repeat kept]. rewrite !app_nil_r.
    split; [reflexivity|]. repeat split; auto.
  - apply NoDup_cons in Hnd as [Hfresh Hnd]. rewrite list_elem_of_In in Hfresh.
    cbn [save_each kept length repeat map].
    destruct (save_one_spec cat saved a w) as (w1 & Hlog1 & Hans1 & Hrun).
    destruct (hd Serve (answers w)) eqn:Hhd.
    + destruct Hrun as (r & Hrun & Hup).
      destruct (upsert_article_spec (row_of cat a) (store w) (supply w))
        as (r' & d' & n' & E & Hdata & Hin & Hother & Hlen & _ & _ & Hpairs & Hcomm).
      rewrite E in Hup. injection Hup as Hr Hd Hn. subst r' d' n'.
      cbn [row_of row_url] in Hin, Hother, Hlen.
      destruct (IH Hnd (saved ++ [persisted a r]) w1)
        as (added & w' & Hsave & Hlog & Hall & Hrows & Huniq & Hp & Hc).
      exists (persisted a r :: added), w'.
      split. { rewrite (bind_ok _ _ _ _ _ Hrun), Hsave, <- app_assoc. reflexivity. }
      split. { rewrite Hlog, Hlog1, <- app_assoc. reflexivity. }
      split.
      { constructor; [|rewrite <- Hans1; exact Hall].
        exists r. split; [reflexivity|]. split; [exact Hdata|].
        rewrite (Hrows (url a) Hfresh). exact Hin. }
      split.
      { intros u Hu. cbn [In] in Hu. rewrite Hrows by tauto.
        apply Hother. intros ->. apply Hu. left. reflexivity. }
      split.
      { intros u Hu. apply Huniq.
        destruct (decide (u = url a)) as [->|Hne].
        - rewrite Hlen. lia.
        - rewrite (Hother u Hne). exact Hu. }
      split; [intros t; rewrite Hp; apply Hpairs|rewrite Hc; exact Hcomm].
    + destruct Hrun as (Hrun & Hst & _).
      destruct (IH Hnd saved w1)
        as (added & w' & Hsave & Hlog & Hall & Hrows & Huniq & Hp & Hc).
      exists added, w'. rewrite Hst in *.
      split. { rewrite (bind_ok _ _ _ _ _ Hrun). exact Hsave. }
      split. { rewrite Hlog, Hlog1, <- app_assoc. reflexivity. }
      split; [rewrite <- Hans1; exact Hall|].
      split; [intros u Hu; apply Hrows; cbn [In] in Hu; tauto|].
      repeat split; assumption.
    + destruct Hrun as (Hrun & Hst & _).
      destruct (IH Hnd saved w1)
        as (added & w' & Hsave & Hlog & Hall & Hrows & Huniq & Hp & Hc).
      exists added, w'. rewrite Hst in *.
      split. { rewrite (bind_ok _ _ _ _ _ Hrun). exact Hsave. }
      split. { rewrite Hlog, Hlog1, <- app_assoc. reflexivity. }
      split; [rewrite <- Hans1; exact Hall|].
      split; [intros u Hu; apply Hrows; cbn [In] in Hu; tauto|].
      repeat split; assumption.
Qed.


Lemma NoDup_keys_urls (l : list Article) : NoDup (map key l) -> NoDup (map url l).
Proof.
  induction l as [|a l IH]; cbn [map]; intros H; [constructor|].
  apply NoDup_cons in H as [Hout Hnd]. constructor; [|apply IH, Hnd].
  intros Hin. apply Hout.
  apply list_elem_of_In, in_map_iff in Hin as (b & Hb & Hin).
  apply list_elem_of_In, in_map_iff. exists b. split; [|exact Hin].
  unfold key, key_of. rewrite Hb. reflexivity.
Qed.

Lemma NoDup_map_eq {A B : Type} (f : A -> B) (l : list A) (a b : A) :
  NoDup (map f l) -> In a l -> In b l -> f a = f b -> a = b.
Proof.
  induction l as [|x l IH]; cbn [map]; intros Hnd Ha Hb Hf; [destruct Ha|].
  apply NoDup_cons in Hnd as [Hout Hnd].
  assert (Hin : forall y, In y l -> f y <> f x).
  { intros y Hy E. apply Hout. rewrite <- E.
    apply list_elem_of_In, in_map. exact Hy. }
  destruct Ha as [<-|Ha], Hb as [<-|Hb]; [reflexivity| | |exact (IH Hnd Ha Hb Hf)].
  - exfalso. apply (Hin b Hb). symmetry. exact Hf.
  - exfalso. exact (Hin a Ha Hf).
Qed.

(** C4.  [saveArticles] never throws.  The articles it works on are the
    first occurrences of each normalized key among the articles of the
    batch that have a URL: one is kept exactly when it is the first with
    its key, so no key is kept twice.  It sends exactly one upsert per kept
    article, hence per key, and nothing else.  It returns, in order, the
    kept articles whose upsert the store served; those whose upsert was
    refused or thrown are left out.  Each returned article is the kept one
    with the [id] of the row the store now holds under its URL, the
    category written to that row (the article's own, or the trimmed label)
    and the row's audio; its other fields are the article's.  Rows under
    other URLs, and the other relations, stay as they were.  With a store
    that is unique on [url], the store stays so and every returned article
    has exactly one row under its URL as written; when every upsert is
    served, all kept articles are returned, and each key of the batch has
    exactly one row, provided no row already in the store had that key
    under another spelling of the URL. *)
Theorem saveArticles_dedup_upsert (categoryLabel : string) (batch : list Article)
  (w : World) :
  let uniq := first_occurrences (key_of URL_new) [] (List.filter has_url batch) in
  let cleanCategory := Str.trim (Str.or_else (Some categoryLabel) "Generale") in
  (forall u, In u uniq <->
             List.find (fun a => bool_decide (key_of URL_new a = key_of URL_new u))
               (List.filter has_url batch) = Some u)
  /\ NoDup (map (key_of URL_new) uniq)
  /\ exists saved w',
       saveArticles URL_new categoryLabel batch w = (Ok saved, w')
       /\ log w' = log w ++ repeat (ask Rel_articles Upsert) (length uniq)
       /\ Forall2
            (fun a s => exists row,
               s = persisted a row
               /\ s = {| id := Some (row_id row);
                         url := url a;
                         title := title a;
                         summary := summary a;
                         source := source a;
                         date := date a;
                         category := Some (Str.or_else (category a) cleanCategory);
                         imageUrl := imageUrl a;
                         audioBase64 := truthy (audioBase64 a);
                         sentimentScore := sentimentScore a;
                         likeCount := likeCount a;
                         dislikeCount := dislikeCount a;
                         isNew := isNew a |}
               /\ row_url (row_data row) = url a
               /\ row_category (row_data row) = Str.or_else (category a) cleanCategory
               /\ In row (rows_at (url a) (store w')))
            (kept (answers w) uniq) saved
       /\ (forall u, ~ In u (map url uniq) -> rows_at u (store w') = rows_at u (store w))
       /\ (forall t, pairs t (store w') = pairs t (store w))
       /\ db_comments (store w') = db_comments (store w)
       /\ (unique_urls (store w) ->
           unique_urls (store w')
           /\ (forall a, In a (kept (answers w) uniq) ->
                         length (rows_at (url a) (store w')) = 1)
           /\ (served w ->
               length saved = length uniq
               /\ (forall a, In a uniq -> length (rows_at (url a) (store w')) = 1)
               /\ ((forall r a,
                       In r (db_articles (store w)) -> In a uniq ->
                       normalizeUrl URL_new (row_url (row_data r))
                       = Ok (key_of URL_new a) ->
                       row_url (row_data r) = url a) ->
                   forall a, In a uniq ->
                             length (rows_keyed URL_new (key_of URL_new a) (store w')) = 1))).
Proof.
  intros uniq clean. fold key in uniq |- *.
  destruct (first_occurrences_NoDup (List.filter has_url batch) []) as [Hnd _].
  fold uniq in Hnd.
  split.
  { intros u. unfold uniq. rewrite first_occurrences_find.
    split; [tauto|]. intros H. split; [apply not_elem_of_nil|exact H]. }
  split; [exact Hnd|].
  destruct (save_each_spec clean uniq (NoDup_keys_urls uniq Hnd) [] w)
    as (saved & w' & Hsave & Hlog & Hall & Hrows & Huniq & Hp & Hc).
  exists saved, w'.
  assert (Hrun : saveArticles URL_new categoryLabel batch w = (Ok saved, w')).
  { cbn [app] in Hsave. unfold uniq in Hsave. clear -Hsave.
    unfold saveArticles. destruct batch as [|a0 rest].
    - cbn in Hsave. injection Hsave as <- <-. reflexivity.
    - cbn [length Nat.eqb]. fold clean.
      unfold bind, lift. rewrite unique_input_map_spec. cbn [app map fst].
      rewrite map_map. cbn [snd]. rewrite map_id. exact Hsave. }
  split; [exact Hrun|]. split; [exact Hlog|]. split.
  { eapply Forall2_impl; [exact Hall|]. intros a s (row & -> & Hdata & Hin).
    exists row. split; [reflexivity|].
    split; [unfold persisted; rewrite Hdata; reflexivity|].
    rewrite Hdata. split; [reflexivity|]. split; [reflexivity|exact Hin]. }
  split; [exact Hrows|]. split; [exact Hp|]. split; [exact Hc|].
  intros Hu.
  assert (Huniq' : unique_urls (store w')) by (intros u; apply Huniq, Hu).
  assert (Hone : forall a, In a (kept (answers w) uniq) ->
                           length (rows_at (url a) (store w')) = 1).
  { intros a Ha.
    destruct (Forall2_In_l _ _ _ _ Hall Ha) as (s & _ & row & _ & _ & Hin).
    pose proof (Huniq' (url a)) as Hle.
    destruct (rows_at (url a) (store w')); [destruct Hin|]. cbn [length] in *. lia. }
  split; [exact Huniq'|]. split; [exact Hone|].
  intros Hs. rewrite (kept_served _ _ Hs) in Hall, Hone. split.
  { symmetry. eapply Forall2_length, Hall. }
  split; [exact Hone|].
  intros Hspell a Ha. rewrite <- (Hone a Ha). f_equal.
  unfold rows_keyed, rows_at. apply filter_ext_in. intros r Hr.
  assert (Hkeyed : match normalizeUrl URL_new (row_url (row_data r)) with
                   | Ok k => bool_decide (k = key a)
                   | Thrown => false
                   end = true
                   <-> normalizeUrl URL_new (row_url (row_data r)) = Ok (key a)).
  { destruct (normalizeUrl URL_new (row_url (row_data r))) as [k|].
    - rewrite bool_decide_eq_true. split; [intros ->; reflexivity|].
      intros E. injection E as E. exact E.
    - split; discriminate. }
  apply eq_true_iff_eq. rewrite Hkeyed, bool_decide_eq_true. clear Hkeyed. split.
  - intros Hk.
    destruct (in_dec String.string_dec (row_url (row_data r)) (map url uniq)) as [Hin|Hout].
    + apply in_map_iff in Hin as (b & Hb & Hin).
      assert (Hkey : key b = key a).
      { pose proof (normalizeUrl_key b) as Hkb. rewrite Hb, Hk in Hkb.
        injection Hkb as Hkb. symmetry. exact Hkb. }
      rewrite <- Hb. f_equal. exact (NoDup_map_eq key uniq b a Hnd Hin Ha Hkey).
    + apply (Hspell r a); [|exact Ha|exact Hk].
      assert (Hin : In r (rows_at (row_url (row_data r)) (store w'))).
      { unfold rows_at. apply filter_In. split; [exact Hr|].
        apply bool_decide_eq_true. reflexivity. }
      rewrite (Hrows _ Hout) in Hin. unfold rows_at in Hin.
      apply filter_In in Hin as [Hin _]. exact Hin.
  - intros ->. apply normalizeUrl_key.
Qed.

End SaveArticles.

(** ** Resolving an article's identity *)

Section Resolver.

Variable URL_new : string -> option URL.

Lemma save_one_default_category (article : Article) (saved : list Article) :
  save_one (Str.trim (Str.or_else (Some (Str.or_else (category article) "Generale"))
                        "Generale")) saved article
  = save_one "Generale" saved article.
Proof.
  unfold save_one, row_of. destruct (category article) as [[|c s]|]; reflexivity.
Qed.

Lemma uuid_nonempty (n : nat) : Str.nonempty (uuid_of_nat n) = true.
Proof. reflexivity. Qed.

Lemma saveArticles_single (label : string) (a : Article) (w : World) :
  saveArticles URL_new label [a] w
  = if has_url a
    then save_one (Str.trim (Str.or_else (Some label) "Generale")) [] a w
    else (Ok [], w).
Proof.
  unfold saveArticles, bind, lift. cbn [length Nat.eqb unique_input_map].
  unfold has_url. destruct (Str.nonempty (url a)); [|reflexivity].
  rewrite normalizeUrl_key. cbn [map_has existsb app map snd save_each].
  unfold bind, ret.
  destruct (save_one _ [] a w) as [[saved|] w']; reflexivity.
Qed.

(** C3, as the code has it.  (1) An article whose [id] is present and made
    of exactly 36 hexadecimal digits or hyphens is resolved to that [id]
    with no request sent.  Otherwise the store is asked for the row with
    the article's URL, and: (2) if the lookup is served and finds the row,
    its [id] is returned and the store is unchanged, no row being created;
    (3) if the lookup is served and finds none, the article has a URL and
    the upsert is served, a row is appended under a new identifier, with
    the article's category or, when that is absent, ["Generale"], and the
    new identifier is returned; (4) if the lookup found nothing or was
    refused, and the upsert is refused or throws, the result is [null]
    and the store is unchanged. *)
Theorem ensureArticleSaved_contract (article : Article) (w : World) :
  (forall i, truthy (id article) = Some i -> Re.test id36_pattern i = true ->
             ensureArticleSaved URL_new article w = (Ok (Some i), w))
  /\ (match truthy (id article) with
      | Some i => Re.test id36_pattern i
      | None => false
      end = false ->
      (forall r,
          hd Serve (answers w) = Serve ->
          rows_at (url article) (store w) = [r] ->
          Str.nonempty (row_id r) = true ->
          exists w',
            ensureArticleSaved URL_new article w = (Ok (Some (row_id r)), w')
            /\ store w' = store w
            /\ log w' = log w ++ [ask Rel_articles Select])
      /\ (hd Serve (answers w) = Serve ->
          hd Serve (tl (answers w)) = Serve ->
          rows_at (url article) (store w) = [] ->
          has_url article = true ->
          exists w',
            ensureArticleSaved URL_new article w
            = (Ok (Some (uuid_of_nat (supply w))), w')
            /\ db_articles (store w')
               = db_articles (store w)
                 ++ [{| row_id := uuid_of_nat (supply w);
                        row_data := row_of "Generale" article |}]
            /\ row_category (row_of "Generale" article)
               = Str.or_else (category article) "Generale"
            /\ log w' = log w ++ [ask Rel_articles Select; ask Rel_articles Upsert])
      /\ (hd Serve (answers w) = Fail
          \/ (hd Serve (answers w) = Serve /\ rows_at (url article) (store w) = []) ->
          hd Serve (tl (answers w)) <> Serve ->
          exists w',
            ensureArticleSaved URL_new article w = (Ok None, w')
            /\ store w' = store w)).
Proof.
  split.
  { intros i Hi Hshape. unfold ensureArticleSaved. rewrite Hi, Hshape.
    unfold ret. f_equal. f_equal.
    unfold truthy in Hi. destruct (id article) as [s|]; [|discriminate].
    destruct (Str.nonempty s); [exact Hi|discriminate]. }
  intros Hshape. unfold ensureArticleSaved. rewrite Hshape.
  split; [|split].
  - intros r Hserve Hrow Hid.
    unfold bind, send, select_article_id. fold (rows_at (url article) (store w)).
    rewrite Hserve, Hrow. cbn [data answered truthy].
    rewrite Hid. eexists. split; [reflexivity|]. split; reflexivity.
  - intros Hserve Hserve2 Hnone Hurl.
    unfold bind at 1, send at 1, select_article_id.
    fold (rows_at (url article) (store w)).
    rewrite Hserve, Hnone. cbn [data no_data truthy]. unfold try_catch, bind.
    rewrite saveArticles_single, Hurl, save_one_default_category.
    set (w1 := {| store := store w; supply := supply w;
                  answers := tl (answers w);
                  log := log w ++ [ask Rel_articles Select] |}).
    destruct (save_one_spec "Generale" [] article w1) as (w2 & Hlog & _ & Hrun).
    cbn [answers w1] in Hrun. rewrite Hserve2 in Hrun.
    destruct Hrun as (r & Hrun & Hup).
    destruct (upsert_article_spec (row_of "Generale" article) (store w1) (supply w1))
      as (r' & d' & n' & E & Hdata & _ & _ & _ & Hnew & _).
    rewrite E in Hup. injection Hup as Hr Hd Hn. subst r' d' n'.
    destruct (Hnew Hnone) as [Hid Hrows].
    rewrite Hrun. cbn [app persisted id truthy ret]. rewrite Hid, uuid_nonempty.
    exists w2. split; [reflexivity|]. split.
    { rewrite Hrows. cbn [store w1]. f_equal. f_equal.
      destruct r as [i d]. cbn in Hid, Hdata. subst i d. reflexivity. }
    split; [reflexivity|].
    rewrite Hlog. unfold w1. cbn [log]. rewrite <- app_assoc. reflexivity.
  - intros Hlookup Hupsert.
    set (w1 := {| store := store w; supply := supply w;
                  answers := tl (answers w);
                  log := log w ++ [ask Rel_articles Select] |}).
    assert (Hfirst :
              send (ask Rel_articles Select) (select_article_id (url article)) w
              = (Ok (refused StoreFailure), w1)
              \/ send (ask Rel_articles Select) (select_article_id (url article)) w
                 = (Ok no_data, w1)).
    { unfold send, select_article_id. fold (rows_at (url article) (store w)).
      destruct Hlookup as [-> | [-> ->]]; [left|right]; reflexivity. }
    assert (Hrest :
              exists w',
                try_catch
                  (await saved <- saveArticles URL_new
                                    (Str.or_else (category article) "Generale")
                                    [article] ;;
                   match saved with
                   | first :: _ => ret (truthy (id first))
                   | [] => ret None
                   end)
                  (ret None) w1 = (Ok None, w')
                /\ store w' = store w).
    { unfold try_catch, bind. rewrite saveArticles_single.
      destruct (has_url article); [|exists w1; split; reflexivity].
      destruct (save_one_spec
                  (Str.trim (Str.or_else
                               (Some (Str.or_else (category article) "Generale"))
                               "Generale")) [] article w1)
        as (w2 & _ & _ & Hrun).
      cbn [answers w1] in Hrun.
      destruct (hd Serve (tl (answers w))); [contradiction|..];
        destruct Hrun as (Hrun & Hst & _); rewrite Hrun;
        exists w2; split; [reflexivity|exact Hst| reflexivity|exact Hst]. }
    destruct Hrest as (w' & Hrest & Hst). exists w'. split; [|exact Hst].
    destruct Hfirst as [E|E]; rewrite (bind_ok _ _ _ _ _ E); exact Hrest.
Qed.

End Resolver.

(* ===================================================================== *)
(** * The properties at work, and the limits of four of them *)
(* ===================================================================== *)

Lemma served_start : served Sample.start.
Proof. constructor. Defined.

(** The voting scenario of the specification: a like, then a dislike, then
    the dislike again; like and dislike counts go 1/0, 0/1, 0/0. *)
Example vote_scenario :
  let a := Sample.durable_id in
  let u := "user-1" in
  let w1 := snd (toggleLike a u Sample.start) in
  let w2 := snd (toggleDislike a u w1) in
  let w3 := snd (toggleDislike a u w2) in
  fst (toggleLike a u Sample.start) = Ok true
  /\ (votes_on Likes a (store w1), votes_on Dislikes a (store w1)) = (1, 0)
  /\ fst (toggleDislike a u w1) = Ok true
  /\ (votes_on Likes a (store w2), votes_on Dislikes a (store w2)) = (0, 1)
  /\ fst (toggleDislike a u w2) = Ok false
  /\ (votes_on Likes a (store w3), votes_on Dislikes a (store w3)) = (0, 0).
Proof. vm_compute. repeat split. Qed.



(** The same from a store that holds the dislike already. *)
Example refused_delete_keeps_dislike :
  let disliked := snd (toggleDislike Sample.durable_id "user-1" Sample.start) in
  let w := snd (toggleLike Sample.durable_id "user-1"
                  (Sample.answering [Fail] disliked)) in
  has_pair Likes Sample.durable_id "user-1" (store w) = true
  /\ has_pair Dislikes Sample.durable_id "user-1" (store w) = true.
Proof. split; reflexivity. Qed.

(** [toggleLike_twice] at work, on the empty store. *)
Lemma toggleLike_twice_witness :
  isValidUUID (Some Sample.durable_id) = true
  /\ served Sample.start
  /\ has_pair Likes Sample.durable_id "user-1" (store Sample.start) = false
  /\ has_pair Dislikes Sample.durable_id "user-1" (store Sample.start) = false
  /\ next_id_unused Likes Sample.start
  /\ exists (w1 w2 : World) (n : nat),
       toggleLike Sample.durable_id "user-1" Sample.start = (Ok true, w1)
       /\ toggleLike Sample.durable_id "user-1" w1 = (Ok false, w2)
       /\ has_pair Likes Sample.durable_id "user-1" (store w1) = true
       /\ fst (getLikeCount Sample.durable_id Sample.start) = Ok n
       /\ fst (getLikeCount Sample.durable_id w1) = Ok (S n)
       /\ fst (getLikeCount Sample.durable_id w2) = Ok n
       /\ store w2 = store Sample.start.
Proof.
  split; [reflexivity|]. split; [exact served_start|].
  split; [reflexivity|]. split; [reflexivity|]. split; [constructor|].
  apply (toggleLike_twice Sample.durable_id "user-1" Sample.start);
    [reflexivity|exact served_start|reflexivity|reflexivity|constructor].
Defined.

(** [toggle_invalid_id_no_request] at work: an identifier one character
    short. *)
Lemma toggle_invalid_id_witness :
  isValidUUID (Some "0123abcd-89ef-4a4a-bbbb-0123456789a") = false
  /\ toggleLike "0123abcd-89ef-4a4a-bbbb-0123456789a" "user-1" Sample.start
     = (Ok false, Sample.start)
  /\ toggleDislike "0123abcd-89ef-4a4a-bbbb-0123456789a" "user-1" Sample.start
     = (Ok false, Sample.start).
Proof.
  split; [reflexivity|].
  apply (toggle_invalid_id_no_request "0123abcd-89ef-4a4a-bbbb-0123456789a"
           "user-1" Sample.start).
  reflexivity.
Defined.

(** [gesture_needs_login] at work: a like with nobody signed in. *)
Lemma gesture_needs_login_witness :
  currentUser (Sample.session None) = None
  /\ handleLike Platform.URL_basic (Sample.news None "https://x.com/a")
       (Sample.session None) Sample.start
     = (Ok (setShowLoginModal true (Sample.session None)), Sample.start).
Proof.
  split; [reflexivity|].
  apply (gesture_needs_login Platform.URL_basic (Sample.news None "https://x.com/a")
           (Sample.session None) Sample.start).
  reflexivity.
Defined.

(** [resolver_accepts_what_votes_reject] at work: a like on an article
    whose [id] is the string of hyphens. *)
Lemma resolver_accepts_witness :
  id (Sample.news (Some hyphens36) "https://x.com/a") = Some hyphens36
  /\ currentUser (Sample.session (Some Sample.ada)) = Some Sample.ada
  /\ ensureArticleSaved Platform.URL_basic
       (Sample.news (Some hyphens36) "https://x.com/a") Sample.start
     = (Ok (Some hyphens36), Sample.start)
  /\ handleLike Platform.URL_basic (Sample.news (Some hyphens36) "https://x.com/a")
       (Sample.session (Some Sample.ada)) Sample.start
     = (Ok (showToast "Grazie per il tuo feedback positivo! ✨"
              (handleArticleUpdate
                 (voted (Sample.news (Some hyphens36) "https://x.com/a") hyphens36 0 0)
                 (Sample.session (Some Sample.ada)))), Sample.start).
Proof.
  split; [reflexivity|]. split; [reflexivity|].
  destruct (resolver_accepts_what_votes_reject Platform.URL_basic
              (Sample.news (Some hyphens36) "https://x.com/a") Sample.ada
              (Sample.session (Some Sample.ada)) Sample.start eq_refl eq_refl)
    as (_ & _ & _ & _ & Hres & _ & _ & _ & _ & Hlike & _).
  split; [exact Hres|exact Hlike].
Defined.

(** [deleteComment_author_only] at work: [user-2] asks to delete the comment
    of [user-1], then [user-1] does. *)
Lemma deleteComment_witness :
  deleteComment "c-1" "user-2" Sample.commented
  = (Ok tt, {| store := store Sample.commented; supply := 0; answers := [];
               log := [{| on := Rel_comments; does := Delete |}] |})
  /\ db_comments (store (snd (deleteComment "c-1" "user-1" Sample.commented))) = []
  /\ store (snd (deleteComment "c-1" "user-2" Sample.commented))
     = store Sample.commented.
Proof.
  split; [reflexivity|]. split; [reflexivity|].
  destruct (deleteComment_author_only "c-1" "user-2" Sample.commented)
    as (_ & _ & _ & _ & _ & _ & Hnoop & _).
  apply Hnoop. intros r [<-|[]] _. discriminate.
Defined.

(** Against C5 as worded.  Two web addresses that differ in
    one trailing slash, the shorter already ending in a slash, get
    different keys; and two strings the URL constructor rejects (the port
    is out of range) keep their schemes, so [http] and [https] give
    different keys.  [Platform.URL_parse] covers the four strings, so the
    keys are those of every platform it describes. *)
Lemma normalizeUrl_counterexample :
  "https://x.com/a//" = "https://x.com/a/" +:+ "/"
  /\ Platform.URL_parse "https://x.com/a//"
     = Platform.Parsed {| hostname := "x.com"; pathname := "/a//" |}
  /\ Platform.URL_parse "https://x.com/a/"
     = Platform.Parsed {| hostname := "x.com"; pathname := "/a/" |}
  /\ normalizeUrl Platform.URL_basic "https://x.com/a//" = Ok "x.com/a/"
  /\ normalizeUrl Platform.URL_basic "https://x.com/a/" = Ok "x.com/a"
  /\ "x.com/a/" <> "x.com/a"
  /\ Platform.URL_parse "http://x.com:99999/a" = Platform.Rejected
  /\ Platform.URL_parse "https://x.com:99999/a" = Platform.Rejected
  /\ normalizeUrl Platform.URL_basic "http://x.com:99999/a" = Ok "http://x.com:99999/a"
  /\ normalizeUrl Platform.URL_basic "https://x.com:99999/a" = Ok "https://x.com:99999/a"
  /\ "http://x.com:99999/a" <> "https://x.com:99999/a".
Proof. repeat split; discriminate. Qed.

(** [normalizeUrl_total_and_insensitive] at work: an address with either
    scheme, with and without one trailing slash, and a string that is no
    address, with and without one trailing slash. *)
Lemma normalizeUrl_witness :
  Platform.URL_parse "http://X.com/a"
  = Platform.Parsed {| hostname := "x.com"; pathname := "/a" |}
  /\ normalizeUrl Platform.URL_basic "http://X.com/a" = Ok "x.com/a"
  /\ normalizeUrl Platform.URL_basic "https://X.com/a" = Ok "x.com/a"
  /\ normalizeUrl Platform.URL_basic "https://X.com/a/"
     = normalizeUrl Platform.URL_basic "https://X.com/a"
  /\ Platform.URL_parse " Example.COM/Page" = Platform.Rejected
  /\ normalizeUrl Platform.URL_basic " Example.COM/Page" = Ok "example.com/page"
  /\ normalizeUrl Platform.URL_basic (" Example.COM/Page" +:+ "/")
     = normalizeUrl Platform.URL_basic " Example.COM/Page".
Proof.
  destruct (normalizeUrl_total_and_insensitive Platform.URL_basic)
    as (_ & _ & Hcatch & Hcatch_slash & Hweb).
  destruct (Hweb agrees_URL_basic) as (Hscheme & Hslash & _).
  destruct (Hscheme "X.com/a" {| hostname := "x.com"; pathname := "/a" |} eq_refl)
    as [Hhttp Hhttps].
  split; [reflexivity|]. split; [exact Hhttp|]. split; [exact Hhttps|].
  split.
  { apply (Hslash "https://" "X.com/a" {| hostname := "x.com"; pathname := "/a" |});
      [right; reflexivity|reflexivity|reflexivity|reflexivity]. }
  split; [reflexivity|]. split.
  { apply (Hcatch " Example.COM/Page"); reflexivity. }
  apply (Hcatch_slash " Example.COM/Page"); reflexivity.
Defined.

(** Against C7 as worded.  A list in which no article has
    an [id] comes back with the counts it had (5 and 2 here, not zero); and
    when the store answers the batched lookup with an error instead of
    throwing, the counts of the list are overwritten with zero. *)
Lemma enrich_counterexample :
  enrichArticlesWithCounts [Sample.news None "https://x.com/a"] Sample.start
  = (Ok [Sample.news None "https://x.com/a"], Sample.start)
  /\ likeCount (Sample.news None "https://x.com/a") = Count 5
  /\ dislikeCount (Sample.news None "https://x.com/a") = Count 2
  /\ fst (enrichArticlesWithCounts
            [Sample.news (Some Sample.durable_id) "https://x.com/a"]
            (Sample.failing [Fail; Fail]))
     = Ok [with_counts (Sample.news (Some Sample.durable_id) "https://x.com/a")
             (Count 0) (Count 0)].
Proof. repeat split. Qed.

(** An [id] named like a member of [Object.prototype] reads that member. *)
Example enrich_inherited_member :
  fst (enrichArticlesWithCounts [Sample.news (Some "constructor") "https://x.com/a"]
         Sample.start)
  = Ok [with_counts (Sample.news (Some "constructor") "https://x.com/a")
          (Inherited "constructor") (Inherited "constructor")].
Proof. reflexivity. Qed.

(** [enrich_overwrites_counts] at work: two likes and a dislike on the
    first article, none on the second, which has no [id]; and a lookup
    that throws. *)
Lemma enrich_witness :
  let w := cast_all [VoteLike Sample.durable_id "user-1";
                     VoteLike Sample.durable_id "user-2";
                     VoteDislike Sample.durable_id "user-3"] Sample.start in
  let arts := [Sample.news (Some Sample.durable_id) "https://x.com/a";
               Sample.news None "https://x.com/b"] in
  served w
  /\ (exists out w',
        enrichArticlesWithCounts arts w = (Ok out, w')
        /\ store w' = store w
        /\ log w' = log w ++ [ask Rel_likes Select; ask Rel_dislikes Select]
        /\ map likeCount out = [Count 2; Count 0]
        /\ map dislikeCount out = [Count 1; Count 0])
  /\ fst (getBatchCounts [Sample.durable_id] (Sample.failing [Throw])) = Thrown
  /\ fst (enrichArticlesWithCounts arts (Sample.failing [Throw])) = Ok arts.
Proof.
  intros w arts.
  assert (Hs : served w) by constructor.
  split; [exact Hs|]. split; [|split; [reflexivity|]].
  - destruct (enrich_overwrites_counts arts w) as (_ & _ & Hserved).
    destruct (Hserved ltac:(discriminate) Hs) as (out & w' & Hrun & Hst & Hlog & _).
    exists out, w'. split; [exact Hrun|]. split; [exact Hst|]. split; [exact Hlog|].
    assert (Hout : Ok out = fst (enrichArticlesWithCounts arts w))
      by (rewrite Hrun; reflexivity).
    injection Hout as ->. split; reflexivity.
  - destruct (enrich_overwrites_counts arts (Sample.failing [Throw]))
      as (_ & Hthrown & _).
    apply Hthrown. reflexivity.
Defined.

(** Against C3 as worded.  An [id] that is present but not
    of the 36-character shape is not returned: the store is asked, the
    article is saved, and the new identifier comes back.  And the stored
    row is looked up by the URL as written, not by its normalized key: the
    store holds the article of [https://x.com/a], the article of
    [http://X.com/a/] has the same key, and yet it is saved again, under a
    new identifier, so that two rows have that key. *)
Lemma ensureArticleSaved_counterexample :
  id (Sample.news (Some "abc") "https://x.com/a") = Some "abc"
  /\ fst (ensureArticleSaved Platform.URL_basic
            (Sample.news (Some "abc") "https://x.com/a") Sample.start)
     = Ok (Some "00000000-0000-0000-0000-000000000000")
  /\ log (snd (ensureArticleSaved Platform.URL_basic
                 (Sample.news (Some "abc") "https://x.com/a") Sample.start))
     = [ask Rel_articles Select; ask Rel_articles Upsert]
  /\ map (fun r => (row_id r, row_url (row_data r))) (db_articles (store Sample.stored))
     = [(Sample.durable_id, "https://x.com/a")]
  /\ Platform.URL_parse "https://x.com/a"
     = Platform.Parsed {| hostname := "x.com"; pathname := "/a" |}
  /\ Platform.URL_parse "http://X.com/a/"
     = Platform.Parsed {| hostname := "x.com"; pathname := "/a/" |}
  /\ normalizeUrl Platform.URL_basic "https://x.com/a" = Ok "x.com/a"
  /\ normalizeUrl Platform.URL_basic "http://X.com/a/" = Ok "x.com/a"
  /\ fst (ensureArticleSaved Platform.URL_basic
            (Sample.news None "http://X.com/a/") Sample.stored)
     = Ok (Some "00000000-0000-0000-0000-000000000001")
  /\ map (fun r => (row_id r, row_url (row_data r)))
       (db_articles (store (snd (ensureArticleSaved Platform.URL_basic
                                   (Sample.news None "http://X.com/a/") Sample.stored))))
     = [(Sample.durable_id, "https://x.com/a");
        ("00000000-0000-0000-0000-000000000001", "http://X.com/a/")]
  /\ length (rows_keyed Platform.URL_basic "x.com/a"
               (store (snd (ensureArticleSaved Platform.URL_basic
                              (Sample.news None "http://X.com/a/") Sample.stored))))
     = 2.
Proof. repeat split. Qed.

(** [ensureArticleSaved_contract] at work, step by step: an [id] of the
    right shape is returned as it is; a stored article is found by its
    URL; a new one is saved under the default category; and a refused
    upsert gives [null]. *)
Lemma ensureArticleSaved_witness :
  ensureArticleSaved Platform.URL_basic
    (Sample.news (Some Sample.durable_id) "https://x.com/a") Sample.start
  = (Ok (Some Sample.durable_id), Sample.start)
  /\ (exists w',
        ensureArticleSaved Platform.URL_basic (Sample.news None "https://x.com/a")
          Sample.stored
        = (Ok (Some Sample.durable_id), w')
        /\ store w' = store Sample.stored)
  /\ (exists w',
        ensureArticleSaved Platform.URL_basic (Sample.news None "https://x.com/a")
          Sample.start
        = (Ok (Some (uuid_of_nat 0)), w')
        /\ map (fun r => (row_id r, row_category (row_data r)))
             (db_articles (store w'))
           = [("00000000-0000-0000-0000-000000000000", "Generale")])
  /\ (exists w',
        ensureArticleSaved Platform.URL_basic (Sample.news None "https://x.com/a")
          (Sample.failing [Serve; Fail])
        = (Ok None, w')
        /\ store w' = Sample.empty_db).
Proof.
  split; [|split; [|split]].
  - destruct (ensureArticleSaved_contract Platform.URL_basic
                (Sample.news (Some Sample.durable_id) "https://x.com/a")
                Sample.start) as (Hid & _).
    apply Hid; reflexivity.
  - destruct (ensureArticleSaved_contract Platform.URL_basic
                (Sample.news None "https://x.com/a") Sample.stored) as (_ & Hrest).
    destruct (Hrest eq_refl) as (Hfound & _).
    destruct (Hfound _ eq_refl eq_refl eq_refl) as (w' & Hrun & Hst & _).
    exists w'. split; [exact Hrun|exact Hst].
  - destruct (ensureArticleSaved_contract Platform.URL_basic
                (Sample.news None "https://x.com/a") Sample.start) as (_ & Hrest).
    destruct (Hrest eq_refl) as (_ & Hnew & _).
    destruct (Hnew eq_refl eq_refl eq_refl eq_refl) as (w' & Hrun & Hrows & _).
    exists w'. split; [exact Hrun|]. rewrite Hrows. reflexivity.
  - destruct (ensureArticleSaved_contract Platform.URL_basic
                (Sample.news None "https://x.com/a")
                (Sample.failing [Serve; Fail])) as (_ & Hrest).
    destruct (Hrest eq_refl) as (_ & _ & Hfail).
    apply Hfail; [right; split; reflexivity|discriminate].
Defined.

(** [saveArticles_dedup_upsert] at work, on the scenario of the
    specification: the two addresses have the key [x.com/a]; one upsert is
    sent, for the first of them; one row is stored, the only one with that
    key; and the article comes back with the identifier of that row and the
    category written to it. *)
Lemma saveArticles_witness :
  let batch := [Sample.news None "https://x.com/a/";
                Sample.news None "http://x.com/a"] in
  map (key_of Platform.URL_basic) batch = ["x.com/a"; "x.com/a"]
  /\ exists saved w',
       saveArticles Platform.URL_basic "Tech" batch Sample.start = (Ok saved, w')
       /\ log w' = [ask Rel_articles Upsert]
       /\ length saved = 1
       /\ (exists row,
             saved = [persisted (Sample.news None "https://x.com/a/") row]
             /\ map id saved = [Some (row_id row)]
             /\ map category saved = [Some "Tech"]
             /\ In row (db_articles (store w')))
       /\ map (fun r => (row_id r, row_url (row_data r), row_category (row_data r)))
            (db_articles (store w'))
          = [("00000000-0000-0000-0000-000000000000", "https://x.com/a/", "Tech")]
       /\ length (rows_at "https://x.com/a/" (store w')) = 1
       /\ rows_at "http://x.com/a" (store w') = []
       /\ length (rows_keyed Platform.URL_basic "x.com/a" (store w')) = 1.
Proof.
  intros batch. split; [reflexivity|].
  destruct (saveArticles_dedup_upsert Platform.URL_basic "Tech" batch Sample.start)
    as (_ & _ & saved & w' & Hrun & Hlog & Hall & Hother & _ & _ & Hunique).
  assert (Hu : unique_urls (store Sample.start)) by (intros u; repeat constructor).
  destruct (Hunique Hu) as (_ & _ & Hserved).
  destruct (Hserved served_start) as (Hlen & Hone & Hkeyed).
  exists saved, w'. split; [exact Hrun|]. split; [exact Hlog|]. split; [exact Hlen|].
  split.
  { change (Forall2
              (fun a s => exists row,
                 s = persisted a row
                 /\ s = {| id := Some (row_id row);
                           url := url a;
                           title := title a;
                           summary := summary a;
                           source := source a;
                           date := date a;
                           category := Some (Str.or_else (category a) "Tech");
                           imageUrl := imageUrl a;
                           audioBase64 := truthy (audioBase64 a);
                           sentimentScore := sentimentScore a;
                           likeCount := likeCount a;
                           dislikeCount := dislikeCount a;
                           isNew := isNew a |}
                 /\ row_url (row_data row) = url a
                 /\ row_category (row_data row) = Str.or_else (category a) "Tech"
                 /\ In row (rows_at (url a) (store w')))
              [Sample.news None "https://x.com/a/"] saved) in Hall.
    inversion Hall as [|a s l l' (row & Hs & Hfields & _ & _ & Hin) Hrest]; subst.
    inversion Hrest; subst.
    exists row. split; [reflexivity|].
    split; [rewrite Hfields; reflexivity|].
    split; [rewrite Hfields; reflexivity|].
    apply filter_In in Hin as [Hin _]. exact Hin. }
  split.
  { assert (E := Hrun). vm_compute in E. injection E as _ <-. reflexivity. }
  split.
  { apply (Hone (Sample.news None "https://x.com/a/")). left. reflexivity. }
  split.
  { rewrite Hother; [reflexivity|]. intros [H|[]]. discriminate H. }
  apply (Hkeyed (fun r a Hr => match Hr with end)
           (Sample.news None "https://x.com/a/")).
  left. reflexivity.
Defined.

(** [saveArticles] on a store that holds the article under another
    spelling of its URL: the upsert is keyed on the URL as written, so a
    second row is added, and the key [x.com/a] has two rows. *)
Example saveArticles_other_spelling :
  let out := saveArticles Platform.URL_basic "Tech"
               [Sample.news None "http://X.com/a/"] Sample.stored in
  map (fun r => (row_id r, row_url (row_data r))) (db_articles (store (snd out)))
  = [(Sample.durable_id, "https://x.com/a");
     ("00000000-0000-0000-0000-000000000001", "http://X.com/a/")]
  /\ length (rows_keyed Platform.URL_basic "x.com/a" (store Sample.stored)) = 1
  /\ length (rows_keyed Platform.URL_basic "x.com/a" (store (snd out))) = 2.
Proof. repeat split. Qed.

(** [saveArticles] when the store refuses the first of two upserts: the
    second article alone is stored and returned. *)
Example saveArticles_partial :
  let batch := [Sample.news None "https://x.com/a"; Sample.news None "https://x.com/b"] in
  let out := saveArticles Platform.URL_basic "Tech" batch (Sample.failing [Fail; Serve]) in
  fst out
  = Ok [persisted (Sample.news None "https://x.com/b")
          {| row_id := uuid_of_nat 0;
             row_data := row_of "Tech" (Sample.news None "https://x.com/b") |}]
  /\ map (fun r => row_url (row_data r)) (db_articles (store (snd out)))
     = ["https://x.com/b"]
  /\ log (snd out) = [ask Rel_articles Upsert; ask Rel_articles Upsert].
Proof. repeat split. Qed.

(* ===================================================================== *)
(** * Further properties of the services and of the hook *)
(* ===================================================================== *)

(** ** Votes *)

Lemma same_pair_true (a u : string) (r : PairRow) :
  same_pair a u r = true <-> article_id r = a /\ user_id r = u.
Proof.
  unfold same_pair. rewrite andb_true_iff, !bool_decide_eq_true. reflexivity.
Qed.

Lemma has_pair_without (a u a0 u0 : string) (l : list PairRow) :
  existsb (same_pair a0 u0) (List.filter (fun r => negb (same_pair a u r)) l)
  = if bool_decide (a0 = a /\ u0 = u) then false else existsb (same_pair a0 u0) l.
Proof.
  induction l as [|r l IH]; cbn [List.filter existsb].
  - destruct (bool_decide _); reflexivity.
  - destruct (same_pair a u r) eqn:Hr; cbn [negb existsb]; rewrite IH.
    + apply same_pair_true in Hr as [Ha Hu].
      case_bool_decide as Hp; [reflexivity|].
      destruct (same_pair a0 u0 r) eqn:Hr0; [|reflexivity].
      apply same_pair_true in Hr0 as [Ha0 Hu0]. exfalso. apply Hp. split; congruence.
    + case_bool_decide as Hp; [|reflexivity].
      destruct Hp as [-> ->]. rewrite Hr. reflexivity.
Qed.

Lemma votes_without (a u : string) (l : list PairRow) :
  length (List.filter (fun r => bool_decide (article_id r = a))
            (List.filter (fun r => negb (same_pair a u r)) l))
  + length (List.filter (same_pair a u) l)
  = length (List.filter (fun r => bool_decide (article_id r = a)) l).
Proof.
  induction l as [|r l IH]; [reflexivity|]. cbn [List.filter].
  destruct (same_pair a u r) eqn:Hr; cbn [negb List.filter].
  - apply same_pair_true in Hr as [Ha _].
    rewrite (bool_decide_eq_true_2 _ Ha). cbn [length]. lia.
  - destruct (bool_decide (article_id r = a)); cbn [length]; lia.
Qed.

(** A toggle on a pair that has no vote of its own kind, in a store that
    serves it: the vote is added and the opposite one, if any, is gone;
    every other pair keeps what it had. *)
Lemma toggle_adds (mine other : pair_table) (a u : string) (w : World) :
  mine <> other -> isValidUUID (Some a) = true -> served w ->
  has_pair mine a u (store w) = false ->
  exists w',
    toggle mine other a u w = (Ok true, w')
    /\ served w'
    /\ has_pair mine a u (store w') = true
    /\ has_pair other a u (store w') = false
    /\ votes_on mine a (store w') = S (votes_on mine a (store w))
    /\ votes_on other a (store w')
       + length (List.filter (same_pair a u) (pairs other (store w)))
       = votes_on other a (store w)
    /\ forall a0 u0, ~ (a0 = a /\ u0 = u) ->
         has_pair mine a0 u0 (store w') = has_pair mine a0 u0 (store w)
         /\ has_pair other a0 u0 (store w') = has_pair other a0 u0 (store w).
Proof.
  intros Hne Hvalid Hs Hnone.
  destruct (toggle_served mine other a u w Hne Hvalid Hs) as (w' & Hs' & _ & Hrun).
  unfold has_pair in Hnone. pose proof Hnone as Hnil.
  apply existsb_filter_nil in Hnil. rewrite Hnil in Hrun.
  destruct Hrun as (Hrun & Hst & _).
  assert (Hne' : other <> mine) by congruence.
  assert (Hmine : pairs mine (store w')
                  = pairs mine (store w)
                    ++ [{| pair_id := uuid_of_nat (supply w);
                           article_id := a; user_id := u |}])
    by (rewrite Hst; apply pairs_set_pairs).
  assert (Hother : pairs other (store w')
                   = List.filter (fun r => negb (same_pair a u r))
                       (pairs other (store w))).
  { rewrite Hst, pairs_set_pairs_ne by exact Hne'. apply pairs_set_pairs. }
  exists w'. split; [exact Hrun|]. split; [exact Hs'|].
  unfold has_pair, votes_on. rewrite Hmine, Hother.
  split.
  { rewrite existsb_app. cbn [existsb]. unfold same_pair at 2. cbn.
    rewrite !bool_decide_eq_true_2 by reflexivity. apply orb_true_r. }
  split.
  { rewrite has_pair_without, bool_decide_eq_true_2; [reflexivity|tauto]. }
  split.
  { rewrite List.filter_app, length_app. cbn [List.filter article_id].
    rewrite bool_decide_eq_true_2 by reflexivity. cbn [length]. lia. }
  split; [apply votes_without|].
  intros a0 u0 Hdiff. split.
  - rewrite existsb_app. cbn [existsb]. rewrite orb_false_r.
    destruct (same_pair a0 u0 _) eqn:E; [|apply orb_false_r].
    apply same_pair_true in E as [Ha Hu]. cbn in Ha, Hu. exfalso. apply Hdiff.
    split; congruence.
  - rewrite has_pair_without, bool_decide_eq_false_2 by exact Hdiff. reflexivity.
Qed.

(** X1.  A dislike on an article the user has liked (one like row, no
    dislike), in a store that serves the requests, returns [true], takes
    the like away and records the dislike: the like count of the article
    drops by one, its dislike count grows by one, and no other pair of
    article and user gains or loses a vote.  The same holds with the two
    kinds exchanged. *)
Theorem vote_switches_kind (articleId userId : string) (w : World) :
  isValidUUID (Some articleId) = true ->
  served w ->
  (forall r,
      List.filter (same_pair articleId userId) (pairs Likes (store w)) = [r] ->
      has_pair Dislikes articleId userId (store w) = false ->
      exists w',
        toggleDislike articleId userId w = (Ok true, w')
        /\ has_pair Likes articleId userId (store w') = false
        /\ has_pair Dislikes articleId userId (store w') = true
        /\ S (votes_on Likes articleId (store w')) = votes_on Likes articleId (store w)
        /\ votes_on Dislikes articleId (store w')
           = S (votes_on Dislikes articleId (store w))
        /\ forall a0 u0, ~ (a0 = articleId /\ u0 = userId) ->
             has_pair Likes a0 u0 (store w') = has_pair Likes a0 u0 (store w)
             /\ has_pair Dislikes a0 u0 (store w') = has_pair Dislikes a0 u0 (store w))
  /\ (forall r,
         List.filter (same_pair articleId userId) (pairs Dislikes (store w)) = [r] ->
         has_pair Likes articleId userId (store w) = false ->
         exists w',
           toggleLike articleId userId w = (Ok true, w')
           /\ has_pair Dislikes articleId userId (store w') = false
           /\ has_pair Likes articleId userId (store w') = true
           /\ S (votes_on Dislikes articleId (store w'))
              = votes_on Dislikes articleId (store w)
           /\ votes_on Likes articleId (store w') = S (votes_on Likes articleId (store w))
           /\ forall a0 u0, ~ (a0 = articleId /\ u0 = userId) ->
                has_pair Dislikes a0 u0 (store w') = has_pair Dislikes a0 u0 (store w)
                /\ has_pair Likes a0 u0 (store w') = has_pair Likes a0 u0 (store w)).
Proof.
  intros Hvalid Hs. split; intros r Hone Hnone.
  - destruct (toggle_adds Dislikes Likes articleId userId w
                ltac:(discriminate) Hvalid Hs Hnone)
      as (w' & Hrun & _ & Hmine & Hother & Hup & Hdown & Hrest).
    exists w'. rewrite Hone in Hdown. cbn [length] in Hdown.
    split; [exact Hrun|]. split; [exact Hother|]. split; [exact Hmine|].
    split; [lia|]. split; [exact Hup|].
    intros a0 u0 Hd. destruct (Hrest a0 u0 Hd). split; assumption.
  - destruct (toggle_adds Likes Dislikes articleId userId w
                ltac:(discriminate) Hvalid Hs Hnone)
      as (w' & Hrun & _ & Hmine & Hother & Hup & Hdown & Hrest).
    exists w'. rewrite Hone in Hdown. cbn [length] in Hdown.
    split; [exact Hrun|]. split; [exact Hother|]. split; [exact Hmine|].
    split; [lia|]. split; [exact Hup|].
    intros a0 u0 Hd. destruct (Hrest a0 u0 Hd). split; assumption.
Qed.






Lemma served_liked : served Scene.liked.
Proof. constructor. Defined.

Lemma served_favored : served Scene.favored.
Proof. constructor. Defined.

(** [vote_switches_kind] at work: [user-1] dislikes an article they liked. *)
Lemma vote_switches_kind_witness :
  isValidUUID (Some Sample.durable_id) = true
  /\ served Scene.liked
  /\ List.filter (same_pair Sample.durable_id "user-1") (pairs Likes (store Scene.liked))
     = [Scene.a_like]
  /\ has_pair Dislikes Sample.durable_id "user-1" (store Scene.liked) = false
  /\ exists w',
       toggleDislike Sample.durable_id "user-1" Scene.liked = (Ok true, w')
       /\ has_pair Likes Sample.durable_id "user-1" (store w') = false
       /\ has_pair Dislikes Sample.durable_id "user-1" (store w') = true
       /\ S (votes_on Likes Sample.durable_id (store w'))
          = votes_on Likes Sample.durable_id (store Scene.liked)
       /\ votes_on Dislikes Sample.durable_id (store w')
          = S (votes_on Dislikes Sample.durable_id (store Scene.liked))
       /\ forall a0 u0, ~ (a0 = Sample.durable_id /\ u0 = "user-1") ->
            has_pair Likes a0 u0 (store w') = has_pair Likes a0 u0 (store Scene.liked)
            /\ has_pair Dislikes a0 u0 (store w')
               = has_pair Dislikes a0 u0 (store Scene.liked).
Proof.
  split; [reflexivity|]. split; [constructor|]. split; [reflexivity|].
  split; [reflexivity|].
  apply (proj1 (vote_switches_kind Sample.durable_id "user-1" Scene.liked
                  eq_refl served_liked) Scene.a_like);
    reflexivity.
Defined.


(* ===================================================================== *)
(** ** Favorites *)
(* ===================================================================== *)

Lemma next_served_of_served (w : World) : served w -> next_served w = true.
Proof. intros Hs. unfold next_served. rewrite (served_hd w Hs). reflexivity. Qed.

(** X3.  [addFavorite] never rejects.  It returns [true] exactly when the
    identifier is a UUID, the user id is not empty and the store carries
    the request out; the pair is then a favorite, a pair that was one
    already leaves the store as it was, and no other pair and no other
    relation changes.  When it returns [false] the store is untouched. *)
Theorem addFavorite_outcome (articleId userId : string) (w : World) :
  exists w',
    addFavorite articleId userId w
    = (Ok (isValidUUID (Some articleId) && Str.nonempty userId && next_served w), w')
    /\ if isValidUUID (Some articleId) && Str.nonempty userId && next_served w
       then has_pair Favorites articleId userId (store w') = true
            /\ (has_pair Favorites articleId userId (store w) = true ->
                store w' = store w)
            /\ (forall a0 u0, ~ (a0 = articleId /\ u0 = userId) ->
                  has_pair Favorites a0 u0 (store w')
                  = has_pair Favorites a0 u0 (store w))
            /\ (forall t, t <> Favorites -> pairs t (store w') = pairs t (store w))
            /\ db_articles (store w') = db_articles (store w)
            /\ db_comments (store w') = db_comments (store w)
       else store w' = store w.
Proof.
  unfold addFavorite, next_served.
  destruct (isValidUUID (Some articleId)); cbn [negb orb andb];
    [|eexists; split; reflexivity].
  destruct (Str.nonempty userId); cbn [negb orb andb];
    [|eexists; split; reflexivity].
  unfold try_catch, bind, send, ret.
  destruct (hd Serve (answers w)); cbn [andb];
    [|eexists; split; reflexivity|eexists; split; reflexivity].
  unfold insert_pair. fold (has_pair Favorites articleId userId (store w)).
  destruct (has_pair Favorites articleId userId (store w)) eqn:Hhas;
    cbn [error refused no_data]; eexists; (split; [reflexivity|]); cbn [store].
  - repeat split; try assumption; reflexivity.
  - split; [|split; [discriminate|split; [|split; [|split]]]].
    + unfold has_pair. rewrite pairs_set_pairs, existsb_app. cbn [existsb].
      unfold same_pair at 2. cbn [article_id user_id].
      rewrite !bool_decide_eq_true_2 by reflexivity. apply orb_true_r.
    + intros a0 u0 Hd. unfold has_pair. rewrite pairs_set_pairs, existsb_app.
      cbn [existsb]. unfold same_pair at 2. cbn [article_id user_id].
      destruct (bool_decide (articleId = a0)) eqn:Ea;
        destruct (bool_decide (userId = u0)) eqn:Eu; cbn [andb orb];
        rewrite ?orb_false_r; try reflexivity.
      apply bool_decide_eq_true in Ea, Eu. exfalso. apply Hd. split; congruence.
    + intros t Ht. apply pairs_set_pairs_ne. exact Ht.
    + destruct (store w); reflexivity.
    + destruct (store w); reflexivity.
Qed.

(** X4.  [removeFavorite] never rejects.  It returns [true] exactly when
    the identifier is a UUID, the user id is not empty and the store
    carries the request out; the pair is then no favorite, and no other
    pair and no other relation changes.  When it returns [false] the store
    is untouched. *)
Theorem removeFavorite_outcome (articleId userId : string) (w : World) :
  exists w',
    removeFavorite articleId userId w
    = (Ok (isValidUUID (Some articleId) && Str.nonempty userId && next_served w), w')
    /\ if isValidUUID (Some articleId) && Str.nonempty userId && next_served w
       then has_pair Favorites articleId userId (store w') = false
            /\ (forall a0 u0, ~ (a0 = articleId /\ u0 = userId) ->
                  has_pair Favorites a0 u0 (store w')
                  = has_pair Favorites a0 u0 (store w))
            /\ (forall t, t <> Favorites -> pairs t (store w') = pairs t (store w))
            /\ db_articles (store w') = db_articles (store w)
            /\ db_comments (store w') = db_comments (store w)
       else store w' = store w.
Proof.
  unfold removeFavorite, next_served.
  destruct (isValidUUID (Some articleId)); cbn [negb orb andb];
    [|eexists; split; reflexivity].
  destruct (Str.nonempty userId); cbn [negb orb andb];
    [|eexists; split; reflexivity].
  unfold try_catch, bind, send, ret.
  destruct (hd Serve (answers w)); cbn [andb];
    [|eexists; split; reflexivity|eexists; split; reflexivity].
  unfold delete_pair. cbn [error no_data]. eexists. split; [reflexivity|].
  cbn [store]. split; [|split; [|split; [|split]]].
  - unfold has_pair. rewrite pairs_set_pairs, has_pair_without.
    rewrite bool_decide_eq_true_2 by (split; reflexivity). reflexivity.
  - intros a0 u0 Hd. unfold has_pair.
    rewrite pairs_set_pairs, has_pair_without, bool_decide_eq_false_2 by exact Hd.
    reflexivity.
  - intros t Ht. apply pairs_set_pairs_ne. exact Ht.
  - destruct (store w); reflexivity.
  - destruct (store w); reflexivity.
Qed.

Lemma elem_of_selected_ids (u a : string) (rows : list PairRow) :
  a ∈ map article_id (List.filter (fun r => bool_decide (user_id r = u)) rows)
  <-> existsb (same_pair a u) rows = true.
Proof.
  rewrite list_elem_of_In, in_map_iff, existsb_exists. split.
  - intros (r & Ha & Hin). apply List.filter_In in Hin as [Hin Hu].
    apply bool_decide_eq_true in Hu. exists r. split; [exact Hin|].
    apply same_pair_true. split; assumption.
  - intros (r & Hin & Hr). apply same_pair_true in Hr as [Ha Hu].
    exists r. split; [exact Ha|]. apply List.filter_In. split; [exact Hin|].
    apply bool_decide_eq_true. exact Hu.
Qed.

(** The favorite ids of a user, read from a store that serves the request. *)
Lemma getUserFavoritesIds_served (userId : string) (w : World) :
  Str.nonempty userId = true -> served w ->
  exists (ids : gset string) (w' : World),
    getUserFavoritesIds userId w = (Ok ids, w')
    /\ forall a, a ∈ ids <-> has_pair Favorites a userId (store w) = true.
Proof.
  intros Hu Hs. unfold getUserFavoritesIds. rewrite Hu. cbn [negb].
  unfold try_catch. served_step E Hst Hsu Hlog Hs'.
  cbn [select_article_ids_of error data answered fst from_option Datatypes.id ret].
  eexists _, _. split; [reflexivity|]. intros a.
  rewrite elem_of_list_to_set, elem_of_selected_ids. reflexivity.
Qed.

(** X5.  [getUserFavoritesIds] never rejects and never changes the store.
    The set it returns holds exactly the articles the user has a favorite
    row for, provided the user id is not empty and the store carries the
    request out; otherwise it is empty, and for an empty user id no
    request is sent at all. *)
Theorem getUserFavoritesIds_outcome (userId : string) (w : World) :
  exists (ids : gset string) (w' : World),
    getUserFavoritesIds userId w = (Ok ids, w')
    /\ store w' = store w
    /\ (forall a,
          a ∈ ids <->
          Str.nonempty userId = true /\ next_served w = true
          /\ has_pair Favorites a userId (store w) = true)
    /\ log w' = log w ++ (if Str.nonempty userId then [ask Rel_favorites Select] else []).
Proof.
  unfold getUserFavoritesIds, next_served.
  destruct (Str.nonempty userId); cbn [negb].
  2:{ exists ∅, w. split; [reflexivity|]. split; [reflexivity|]. split.
      - intros a. rewrite elem_of_empty. split; [tauto|]. intros [H _]. discriminate.
      - rewrite app_nil_r. reflexivity. }
  unfold try_catch, bind, send, ret.
  destruct (hd Serve (answers w)); cbn [select_article_ids_of error data answered
                                         refused from_option].
  - eexists _, _. split; [reflexivity|]. cbn [store log]. split; [reflexivity|].
    split; [|reflexivity]. intros a.
    cbn [from_option Datatypes.id]. rewrite elem_of_list_to_set, elem_of_selected_ids. unfold has_pair. tauto.
  - eexists _, _. split; [reflexivity|]. cbn [store log]. split; [reflexivity|].
    split; [|reflexivity]. intros a. rewrite elem_of_empty.
    split; [tauto|]. intros (_ & H & _). discriminate.
  - eexists _, _. split; [reflexivity|]. cbn [store log]. split; [reflexivity|].
    split; [|reflexivity]. intros a. rewrite elem_of_empty.
    split; [tauto|]. intros (_ & H & _). discriminate.
Qed.

(** X6.  In a store that serves the request and holds at most one favorite
    row for the pair, [isFavorite] tells whether the pair is a favorite,
    and so agrees with membership in the set [getUserFavoritesIds] returns
    for the user. *)
Theorem isFavorite_agrees (articleId userId : string) (w : World) :
  isValidUUID (Some articleId) = true ->
  Str.nonempty userId = true ->
  served w ->
  at_most_one Favorites articleId userId (store w) ->
  fst (isFavorite articleId userId w)
  = Ok (has_pair Favorites articleId userId (store w))
  /\ exists ids w',
       getUserFavoritesIds userId w = (Ok ids, w')
       /\ fst (isFavorite articleId userId w) = Ok (bool_decide (articleId ∈ ids)).
Proof.
  intros Hvalid Hu Hs Hone.
  assert (Hfav : fst (isFavorite articleId userId w)
                 = Ok (has_pair Favorites articleId userId (store w))).
  { unfold isFavorite. rewrite Hvalid, Hu. cbn [negb orb].
    unfold try_catch, bind, send, ret. rewrite (served_hd w Hs).
    cbn [select_pair_id fst]. unfold has_pair, at_most_one in *.
    destruct (List.filter (same_pair articleId userId) (pairs Favorites (store w)))
      as [|r [|r' l]] eqn:Hf; cbn [data no_data answered].
    - apply existsb_filter_nil in Hf. rewrite Hf. reflexivity.
    - destruct (existsb _ _) eqn:Ex; [reflexivity|].
      apply existsb_filter_nil in Ex. rewrite Ex in Hf. discriminate.
    - cbn in Hone. lia. }
  split; [exact Hfav|].
  destruct (getUserFavoritesIds_served userId w Hu Hs) as (ids & w' & Hrun & Hin).
  exists ids, w'. split; [exact Hrun|]. rewrite Hfav. f_equal.
  destruct (has_pair Favorites articleId userId (store w)) eqn:Hhas; symmetry.
  - apply bool_decide_eq_true. apply Hin. exact Hhas.
  - apply bool_decide_eq_false. intros Hc. apply Hin in Hc. congruence.
Qed.

(** [isFavorite_agrees] at work, on the favorite of [user-1]. *)
Lemma isFavorite_agrees_witness :
  isValidUUID (Some Sample.durable_id) = true
  /\ Str.nonempty "user-1" = true
  /\ served Scene.favored
  /\ at_most_one Favorites Sample.durable_id "user-1" (store Scene.favored)
  /\ fst (isFavorite Sample.durable_id "user-1" Scene.favored)
     = Ok (has_pair Favorites Sample.durable_id "user-1" (store Scene.favored))
  /\ exists ids w',
       getUserFavoritesIds "user-1" Scene.favored = (Ok ids, w')
       /\ fst (isFavorite Sample.durable_id "user-1" Scene.favored)
          = Ok (bool_decide (Sample.durable_id ∈ ids)).
Proof.
  split; [reflexivity|]. split; [reflexivity|]. split; [exact served_favored|].
  split; [unfold at_most_one; vm_compute; lia|].
  apply (isFavorite_agrees Sample.durable_id "user-1" Scene.favored);
    [reflexivity|reflexivity|exact served_favored|unfold at_most_one; vm_compute; lia].
Defined.

(** A read on a pair relation: the store is as before whatever the answer. *)
Lemma send_select_store {A : Type} (q : request)
  (op : Database -> nat -> response A * Database * nat) (w : World) :
  (forall d n, (op d n).1.2 = d) -> store (snd (send q op w)) = store w.
Proof.
  intros Hop. unfold send. destruct (hd Serve (answers w)); [|reflexivity..].
  specialize (Hop (store w) (supply w)).
  destruct (op (store w) (supply w)) as [[r d] n]. exact Hop.
Qed.

Lemma bind_keeps_store {A B : Type} (m : M A) (k : A -> M B) (w : World) :
  (forall x w', store (snd (k x w')) = store w') ->
  store (snd (bind m k w)) = store (snd (m w)).
Proof. intros Hk. unfold bind. destruct (m w) as [[x|] w']; [apply Hk|reflexivity]. Qed.

Lemma bind_ret_store {A B : Type} (m : M A) (f : A -> B) (w : World) :
  store (snd (bind m (fun x => ret (f x)) w)) = store (snd (m w)).
Proof. apply bind_keeps_store. reflexivity. Qed.

Lemma try_catch_ret_store {A : Type} (m : M A) (a : A) (w : World) :
  store (snd (try_catch m (ret a) w)) = store (snd (m w)).
Proof. unfold try_catch, ret. destruct (m w) as [[x|] w']; reflexivity. Qed.

Lemma try_catch_ret_ok {A : Type} (m : M A) (a : A) (w : World) :
  fst (try_catch m (ret a) w) <> Thrown.
Proof. unfold try_catch, ret. destruct (m w) as [[x|] w']; discriminate. Qed.

(** The batched count reads two relations and writes none. *)
Lemma getBatchCounts_keeps_store (ids : list string) (w : World) :
  store (snd (getBatchCounts ids w)) = store w.
Proof.
  unfold getBatchCounts. destruct (_ =? _)%nat; [reflexivity|].
  rewrite bind_ret_store. unfold promise_all.
  set (q1 := send _ _). set (q2 := send _ _).
  pose proof (send_select_store (ask Rel_likes Select)
                (select_article_ids_in Likes
                   (List.filter (fun i => isValidUUID (Some i)) ids)) w
                (fun _ _ => eq_refl)) as H1.
  fold q1 in H1. destruct (q1 w) as [r1 w1]. cbn [snd] in H1.
  pose proof (send_select_store (ask Rel_dislikes Select)
                (select_article_ids_in Dislikes
                   (List.filter (fun i => isValidUUID (Some i)) ids)) w1
                (fun _ _ => eq_refl)) as H2.
  fold q2 in H2. destruct (q2 w1) as [r2 w2]. cbn [snd] in H2.
  destruct r1, r2; cbn [snd]; congruence.
Qed.

(** X7.  The reading functions of the services never write: whatever the
    store answers, [isFavorite], [getUserFavoritesIds], [getLikeCount],
    [getDislikeCount], [hasUserLiked], [hasUserDisliked] and
    [getBatchCounts] leave every relation as it was.  [isFavorite] and
    [getUserFavoritesIds] moreover never reject. *)
Theorem reads_never_write (articleId userId : string) (ids : list string) (w : World) :
  store (snd (isFavorite articleId userId w)) = store w
  /\ store (snd (getUserFavoritesIds userId w)) = store w
  /\ store (snd (getLikeCount articleId w)) = store w
  /\ store (snd (getDislikeCount articleId w)) = store w
  /\ store (snd (hasUserLiked articleId userId w)) = store w
  /\ store (snd (hasUserDisliked articleId userId w)) = store w
  /\ store (snd (getBatchCounts ids w)) = store w
  /\ fst (isFavorite articleId userId w) <> Thrown
  /\ fst (getUserFavoritesIds userId w) <> Thrown.
Proof.
  assert (Hcount : forall t, store (snd (count_of t articleId w)) = store w).
  { intros t. unfold count_of. destruct (negb _); [reflexivity|].
    rewrite bind_ret_store. apply send_select_store. reflexivity. }
  assert (Hvoted : forall t, store (snd (has_user_voted t articleId userId w)) = store w).
  { intros t. unfold has_user_voted. destruct (_ || _); [reflexivity|].
    rewrite bind_ret_store. apply send_select_store. reflexivity. }
  split; [|split; [|split; [|split; [|split; [|split; [|split; [|split]]]]]]].
  - unfold isFavorite. destruct (_ || _); [reflexivity|].
    rewrite try_catch_ret_store, bind_ret_store. apply send_select_store. reflexivity.
  - unfold getUserFavoritesIds. destruct (negb _); [reflexivity|].
    rewrite try_catch_ret_store, bind_keeps_store.
    + apply send_select_store. reflexivity.
    + intros r w'. destruct (error r); reflexivity.
  - apply Hcount.
  - apply Hcount.
  - apply Hvoted.
  - apply Hvoted.
  - apply getBatchCounts_keeps_store.
  - unfold isFavorite. destruct (_ || _); [discriminate|]. apply try_catch_ret_ok.
  - unfold getUserFavoritesIds. destruct (negb _); [discriminate|].
    apply try_catch_ret_ok.
Qed.

(* ===================================================================== *)
(** ** Counting votes *)
(* ===================================================================== *)

(** A count, read from a store that serves the request. *)
Lemma count_of_run (t : pair_table) (a : string) (w : World) :
  isValidUUID (Some a) = true -> served w ->
  exists w',
    count_of t a w = (Ok (votes_on t a (store w)), w')
    /\ store w' = store w /\ supply w' = supply w /\ served w'
    /\ log w' = log w ++ [ask (rel_of t) Select].
Proof.
  intros Hvalid Hs. unfold count_of. rewrite Hvalid. cbn [negb].
  served_step E Hst Hsu Hlog Hs'. cbn [count_pairs fst snd] in *.
  exists w0. repeat split; assumption.
Qed.

(** X8.  In a store that serves the requests, the batch count and the
    single counts agree: for a UUID among the identifiers asked for, the
    entry of [getBatchCounts] (or 0 when there is none) is what
    [getLikeCount] and [getDislikeCount] return; identifiers that are not
    asked for, or are no UUID, get no votes in the batch. *)
Theorem batch_and_single_counts_agree (ids : list string) (w : World) :
  served w ->
  exists c w',
    getBatchCounts ids w = (Ok c, w')
    /\ (forall i, isValidUUID (Some i) = true -> i ∈ ids ->
          fst (getLikeCount i w) = Ok (default 0 (likes c !! i))
          /\ fst (getDislikeCount i w) = Ok (default 0 (dislikes c !! i)))
    /\ (forall i, isValidUUID (Some i) = false \/ i ∉ ids ->
          default 0 (likes c !! i) = 0 /\ default 0 (dislikes c !! i) = 0).
Proof.
  intros Hs.
  destruct (getBatchCounts_served ids w Hs) as (c & w' & Hrun & _ & _ & Hc).
  exists c, w'. split; [exact Hrun|]. split.
  - intros i Hvalid Hin. destruct (Hc i) as [Hl Hd].
    rewrite Hvalid, bool_decide_eq_true_2 in Hl, Hd by exact Hin. cbn [andb] in Hl, Hd.
    unfold getLikeCount, getDislikeCount.
    rewrite !count_of_served by assumption. rewrite Hl, Hd. split; reflexivity.
  - intros i Hi. destruct (Hc i) as [Hl Hd]. destruct Hi as [Hi|Hi].
    + rewrite Hi in Hl, Hd. cbn [andb] in Hl, Hd. split; assumption.
    + rewrite bool_decide_eq_false_2, andb_false_r in Hl, Hd by exact Hi.
      split; assumption.
Qed.

(** [batch_and_single_counts_agree] at work, on a store with one like. *)
Lemma batch_and_single_counts_witness :
  served Scene.liked
  /\ exists c w',
       getBatchCounts [Sample.durable_id; "x"] Scene.liked = (Ok c, w')
       /\ (forall i, isValidUUID (Some i) = true -> i ∈ [Sample.durable_id; "x"] ->
             fst (getLikeCount i Scene.liked) = Ok (default 0 (likes c !! i))
             /\ fst (getDislikeCount i Scene.liked) = Ok (default 0 (dislikes c !! i)))
       /\ (forall i, isValidUUID (Some i) = false \/ i ∉ [Sample.durable_id; "x"] ->
             default 0 (likes c !! i) = 0 /\ default 0 (dislikes c !! i) = 0).
Proof.
  split; [exact served_liked|].
  apply (batch_and_single_counts_agree [Sample.durable_id; "x"] Scene.liked).
  exact served_liked.
Defined.

(* ===================================================================== *)
(** ** The gesture handlers *)
(* ===================================================================== *)

Lemma uuid_truthy (i : string) : isValidUUID (Some i) = true -> truthy (Some i) = Some i.
Proof.
  unfold isValidUUID, truthy. destruct (Str.nonempty i); [reflexivity|discriminate].
Qed.

Section GestureFacts.

Variable URL_new : string -> option URL.

(** An article that carries a UUID is resolved to it, with no request. *)
Lemma ensureArticleSaved_durable (article : Article) (i : string) (w : World) :
  id article = Some i -> isValidUUID (Some i) = true ->
  ensureArticleSaved URL_new article w = (Ok (Some i), w).
Proof.
  intros Hid Hvalid. unfold ensureArticleSaved.
  rewrite Hid, (uuid_truthy i Hvalid), (uuid_is_id36 i Hvalid). reflexivity.
Qed.

(** A toggle followed by the two counts, as the vote handlers run them. *)
Lemma vote_then_count {A : Type} (mine other : pair_table) (i u : string)
  (f : nat * nat -> A) (h : M A) (w : World) :
  mine <> other -> isValidUUID (Some i) = true -> served w ->
  exists b w1 w',
    toggle mine other i u w = (Ok b, w1)
    /\ try_catch
         (run toggle mine other i u ;;
          await n <- promise_all (getLikeCount i) (getDislikeCount i) ;;
          ret (f n)) h w
       = (Ok (f (votes_on Likes i (store w1), votes_on Dislikes i (store w1))), w')
    /\ store w' = store w1
    /\ log w' = log w1 ++ [ask Rel_likes Select; ask Rel_dislikes Select].
Proof.
  intros Hne Hvalid Hs.
  destruct (toggle_served mine other i u w Hne Hvalid Hs) as (w1 & Hs1 & _ & Hrun).
  assert (Hb : exists b, toggle mine other i u w = (Ok b, w1)).
  { destruct (List.filter (same_pair i u) (pairs mine (store w))) as [|r [|r' l]];
      destruct Hrun as (Hrun & _); eexists; exact Hrun. }
  destruct Hb as [b Hb]. exists b, w1.
  destruct (count_of_run Likes i w1 Hvalid Hs1) as (w2 & Hl & Hst2 & _ & Hs2 & Hlog2).
  destruct (count_of_run Dislikes i w2 Hvalid Hs2) as (w3 & Hd & Hst3 & _ & _ & Hlog3).
  exists w3. split; [exact Hb|].
  unfold try_catch. rewrite (bind_ok _ _ w b w1 Hb).
  unfold bind, promise_all, getLikeCount, getDislikeCount, ret.
  rewrite Hl, Hd, Hst2. split; [reflexivity|]. split; [congruence|].
  rewrite Hlog3, Hlog2, <- app_assoc. reflexivity.
Qed.

(** The articles of the list that carry the identifier of the update take
    its counts. *)
Lemma handleArticleUpdate_counts (article : Article) (i : string) (nl nd : nat)
  (s : AppState) (a' : Article) :
  In a' (articles (handleArticleUpdate (voted article i nl nd) s)) ->
  id a' = Some i ->
  likeCount a' = Count nl /\ dislikeCount a' = Count nd.
Proof.
  cbn [handleArticleUpdate articles]. rewrite in_map_iff.
  intros (a & Ha' & _) Hid. subst a'.
  destruct (same_article a (voted article i nl nd)) eqn:Hsame; [split; reflexivity|].
  unfold same_article in Hsame. cbn [id voted] in Hsame.
  rewrite bool_decide_eq_true_2 in Hsame by exact Hid. discriminate.
Qed.

(** X9.  For a signed-in user and an article that carries a UUID, in a
    store that serves the requests, [handleLike] and [handleDislike] cast
    the vote and then show what the store holds: every article of the list
    with that identifier ends with the like and dislike counts of the store
    as the vote left it, the list keeps its length, and the toast is
    shown. *)
Theorem vote_gesture_shows_stored_counts (article : Article) (i : string)
  (user : User) (s : AppState) (w : World) :
  currentUser s = Some user ->
  id article = Some i ->
  isValidUUID (Some i) = true ->
  served w ->
  (exists s' w',
      handleLike URL_new article s w = (Ok s', w')
      /\ store w' = store (snd (toggleLike i (user_ident user) w))
      /\ notification s' = Some "Grazie per il tuo feedback positivo! ✨"
      /\ length (articles s') = length (articles s)
      /\ forall a', In a' (articles s') -> id a' = Some i ->
           likeCount a' = Count (votes_on Likes i (store w'))
           /\ dislikeCount a' = Count (votes_on Dislikes i (store w')))
  /\ (exists s' w',
         handleDislike URL_new article s w = (Ok s', w')
         /\ store w' = store (snd (toggleDislike i (user_ident user) w))
         /\ notification s' = Some "Feedback ricevuto."
         /\ length (articles s') = length (articles s)
         /\ forall a', In a' (articles s') -> id a' = Some i ->
              likeCount a' = Count (votes_on Likes i (store w'))
              /\ dislikeCount a' = Count (votes_on Dislikes i (store w'))).
Proof.
  intros Huser Hid Hvalid Hs. split.
  - unfold handleLike. rewrite Huser.
    rewrite (bind_ok _ _ w _ w (ensureArticleSaved_durable article i w Hid Hvalid)).
    rewrite (uuid_truthy i Hvalid).
    destruct (vote_then_count Likes Dislikes i (user_ident user)
                (fun n => showToast "Grazie per il tuo feedback positivo! ✨"
                            (handleArticleUpdate (voted article i (fst n) (snd n)) s))
                (ret s) w ltac:(discriminate) Hvalid Hs)
      as (b & w1 & w' & Hb & Hrun & Hst & _).
    unfold toggleLike. rewrite Hb. cbn [snd].
    eexists _, w'. split; [exact Hrun|]. split; [exact Hst|]. split; [reflexivity|].
    split; [cbn [showToast handleArticleUpdate articles]; apply length_map|].
    rewrite Hst. cbn [showToast articles fst snd].
    apply handleArticleUpdate_counts.
  - unfold handleDislike. rewrite Huser.
    rewrite (bind_ok _ _ w _ w (ensureArticleSaved_durable article i w Hid Hvalid)).
    rewrite (uuid_truthy i Hvalid).
    destruct (vote_then_count Dislikes Likes i (user_ident user)
                (fun n => showToast "Feedback ricevuto."
                            (handleArticleUpdate (voted article i (fst n) (snd n)) s))
                (ret s) w ltac:(discriminate) Hvalid Hs)
      as (b & w1 & w' & Hb & Hrun & Hst & _).
    unfold toggleDislike. rewrite Hb. cbn [snd].
    eexists _, w'. split; [exact Hrun|]. split; [exact Hst|]. split; [reflexivity|].
    split; [cbn [showToast handleArticleUpdate articles]; apply length_map|].
    rewrite Hst. cbn [showToast articles fst snd].
    apply handleArticleUpdate_counts.
Qed.

End GestureFacts.

(** [vote_gesture_shows_stored_counts] at work: [ada] likes a stored
    article. *)
Lemma vote_gesture_witness :
  currentUser (Sample.session (Some Sample.ada)) = Some Sample.ada
  /\ id (Sample.news (Some Sample.durable_id) "https://x.com/a") = Some Sample.durable_id
  /\ isValidUUID (Some Sample.durable_id) = true
  /\ served Sample.start
  /\ exists s' w',
       handleLike Platform.URL_basic
         (Sample.news (Some Sample.durable_id) "https://x.com/a")
         (Sample.session (Some Sample.ada)) Sample.start = (Ok s', w')
       /\ store w'
          = store (snd (toggleLike Sample.durable_id (user_ident Sample.ada) Sample.start))
       /\ notification s' = Some "Grazie per il tuo feedback positivo! ✨"
       /\ length (articles s') = length (articles (Sample.session (Some Sample.ada)))
       /\ forall a', In a' (articles s') -> id a' = Some Sample.durable_id ->
            likeCount a' = Count (votes_on Likes Sample.durable_id (store w'))
            /\ dislikeCount a' = Count (votes_on Dislikes Sample.durable_id (store w')).
Proof.
  split; [reflexivity|]. split; [reflexivity|]. split; [reflexivity|].
  split; [exact served_start|].
  apply (proj1 (vote_gesture_shows_stored_counts Platform.URL_basic
                  (Sample.news (Some Sample.durable_id) "https://x.com/a")
                  Sample.durable_id Sample.ada (Sample.session (Some Sample.ada))
                  Sample.start eq_refl eq_refl eq_refl served_start)).
Defined.

Ltac set_step :=
  intros;
  rewrite ?elem_of_difference, ?elem_of_union, ?elem_of_singleton;
  try apply bool_decide_eq_true; try apply bool_decide_eq_false;
  rewrite ?elem_of_difference, ?elem_of_union, ?elem_of_singleton;
  intuition congruence.

Section FavoriteGesture.

Variable URL_new : string -> option URL.

(** X10.  For a signed-in user with a non-empty id and an article that
    carries a UUID, when the store carries the request out,
    [handleToggleFavorite] flips the article's membership in the client's
    set of favorites and leaves the store agreeing with the set on that
    article, whatever the store held before; no other identifier enters or
    leaves the set, and the list of articles is not touched. *)
Theorem favorite_gesture_syncs (article : Article) (i : string) (user : User)
  (s : AppState) (w : World) :
  currentUser s = Some user ->
  Str.nonempty (user_ident user) = true ->
  id article = Some i ->
  isValidUUID (Some i) = true ->
  next_served w = true ->
  exists s' w',
    handleToggleFavorite URL_new article s w = (Ok s', w')
    /\ (i ∈ favoriteArticleIds s' <-> i ∉ favoriteArticleIds s)
    /\ has_pair Favorites i (user_ident user) (store w')
       = bool_decide (i ∈ favoriteArticleIds s')
    /\ (forall j, j <> i -> (j ∈ favoriteArticleIds s' <-> j ∈ favoriteArticleIds s))
    /\ articles s' = articles s.
Proof.
  intros Huser Hu Hid Hvalid Hnext. unfold handleToggleFavorite. rewrite Huser.
  rewrite (bind_ok _ _ w _ w (ensureArticleSaved_durable URL_new article i w Hid Hvalid)).
  rewrite (uuid_truthy i Hvalid).
  unfold next_served in Hnext.
  destruct (hd Serve (answers w)) eqn:Hhd; try discriminate.
  destruct (bool_decide (i ∈ favoriteArticleIds s)) eqn:Hin.
  - apply bool_decide_eq_true in Hin.
    unfold try_catch, bind, removeFavorite. rewrite Hvalid, Hu. cbn [negb orb].
    unfold try_catch, bind, send, ret. rewrite Hhd. cbn [delete_pair].
    eexists _, _. split; [reflexivity|].
    cbn [showToast setFavoriteArticleIds favoriteArticleIds articles store].
    split; [set_step|]. split; [|split; [set_step|reflexivity]].
    unfold has_pair. rewrite pairs_set_pairs, has_pair_without.
    rewrite bool_decide_eq_true_2 by (split; reflexivity).
    symmetry. set_step.
  - apply bool_decide_eq_false in Hin.
    unfold try_catch, bind, addFavorite. rewrite Hvalid, Hu. cbn [negb orb].
    unfold try_catch, bind, send, ret. rewrite Hhd. unfold insert_pair.
    destruct (existsb (same_pair i (user_ident user)) (pairs Favorites (store w)))
      eqn:Hhas; eexists _, _; (split; [reflexivity|]);
      cbn [showToast setFavoriteArticleIds favoriteArticleIds articles store];
      (split; [set_step|]); (split; [|split; [set_step|reflexivity]]).
    + unfold has_pair. rewrite Hhas. symmetry. set_step.
    + unfold has_pair. rewrite pairs_set_pairs, existsb_app. cbn [existsb].
      unfold same_pair at 2. cbn [article_id user_id].
      rewrite !bool_decide_eq_true_2 by reflexivity. rewrite orb_true_r.
      symmetry. set_step.
Qed.

(** X11.  [handleToggleFavorite] does not look at what [addFavorite] and
    [removeFavorite] return, and these never reject: when the store refuses
    the request or the request fails, the store is left as it was, and the
    client's set is flipped and the toast shown all the same. *)
Theorem favorite_gesture_ignores_refusal (article : Article) (i : string)
  (user : User) (s : AppState) (w : World) :
  currentUser s = Some user ->
  id article = Some i ->
  isValidUUID (Some i) = true ->
  next_served w = false ->
  exists s' w',
    handleToggleFavorite URL_new article s w = (Ok s', w')
    /\ store w' = store w
    /\ (i ∈ favoriteArticleIds s' <-> i ∉ favoriteArticleIds s)
    /\ notification s'
       = Some (if bool_decide (i ∈ favoriteArticleIds s)
               then "Rimosso dai preferiti 💔" else "Aggiunto ai preferiti! ❤️").
Proof.
  intros Huser Hid Hvalid Hnext. unfold handleToggleFavorite. rewrite Huser.
  rewrite (bind_ok _ _ w _ w (ensureArticleSaved_durable URL_new article i w Hid Hvalid)).
  rewrite (uuid_truthy i Hvalid).
  unfold next_served in Hnext.
  destruct (bool_decide (i ∈ favoriteArticleIds s)) eqn:Hin.
  - apply bool_decide_eq_true in Hin.
    unfold try_catch, bind, removeFavorite. rewrite Hvalid. cbn [negb orb].
    destruct (Str.nonempty (user_ident user)); cbn [negb];
      [unfold try_catch, bind, send, ret;
       destruct (hd Serve (answers w)); try discriminate|unfold ret];
      eexists _, _; (split; [reflexivity|]);
      cbn [showToast setFavoriteArticleIds favoriteArticleIds notification store];
      (split; [reflexivity|]); (split; [set_step|reflexivity]).
  - apply bool_decide_eq_false in Hin.
    unfold try_catch, bind, addFavorite. rewrite Hvalid. cbn [negb orb].
    destruct (Str.nonempty (user_ident user)); cbn [negb];
      [unfold try_catch, bind, send, ret;
       destruct (hd Serve (answers w)); try discriminate|unfold ret];
      eexists _, _; (split; [reflexivity|]);
      cbn [showToast setFavoriteArticleIds favoriteArticleIds notification store];
      (split; [reflexivity|]); (split; [set_step|reflexivity]).
Qed.

End FavoriteGesture.

(** [favorite_gesture_syncs] at work: [ada] marks a stored article. *)
Lemma favorite_gesture_syncs_witness :
  currentUser (Sample.session (Some Sample.ada)) = Some Sample.ada
  /\ Str.nonempty (user_ident Sample.ada) = true
  /\ id (Sample.news (Some Sample.durable_id) "https://x.com/a") = Some Sample.durable_id
  /\ isValidUUID (Some Sample.durable_id) = true
  /\ next_served Sample.start = true
  /\ exists s' w',
       handleToggleFavorite Platform.URL_basic
         (Sample.news (Some Sample.durable_id) "https://x.com/a")
         (Sample.session (Some Sample.ada)) Sample.start = (Ok s', w')
       /\ (Sample.durable_id ∈ favoriteArticleIds s'
           <-> Sample.durable_id ∉ favoriteArticleIds (Sample.session (Some Sample.ada)))
       /\ has_pair Favorites Sample.durable_id (user_ident Sample.ada) (store w')
          = bool_decide (Sample.durable_id ∈ favoriteArticleIds s')
       /\ (forall j, j <> Sample.durable_id ->
             (j ∈ favoriteArticleIds s'
              <-> j ∈ favoriteArticleIds (Sample.session (Some Sample.ada))))
       /\ articles s' = articles (Sample.session (Some Sample.ada)).
Proof.
  split; [reflexivity|]. split; [reflexivity|]. split; [reflexivity|].
  split; [reflexivity|]. split; [reflexivity|].
  apply (favorite_gesture_syncs Platform.URL_basic
           (Sample.news (Some Sample.durable_id) "https://x.com/a")
           Sample.durable_id Sample.ada (Sample.session (Some Sample.ada))
           Sample.start); reflexivity.
Defined.

(** [favorite_gesture_ignores_refusal] at work: the store refuses the
    insertion. *)
Lemma favorite_gesture_refusal_witness :
  currentUser (Sample.session (Some Sample.ada)) = Some Sample.ada
  /\ id (Sample.news (Some Sample.durable_id) "https://x.com/a") = Some Sample.durable_id
  /\ isValidUUID (Some Sample.durable_id) = true
  /\ next_served (Sample.failing [Fail]) = false
  /\ exists s' w',
       handleToggleFavorite Platform.URL_basic
         (Sample.news (Some Sample.durable_id) "https://x.com/a")
         (Sample.session (Some Sample.ada)) (Sample.failing [Fail]) = (Ok s', w')
       /\ store w' = store (Sample.failing [Fail])
       /\ (Sample.durable_id ∈ favoriteArticleIds s'
           <-> Sample.durable_id ∉ favoriteArticleIds (Sample.session (Some Sample.ada)))
       /\ notification s'
          = Some (if bool_decide (Sample.durable_id
                                  ∈ favoriteArticleIds (Sample.session (Some Sample.ada)))
                  then "Rimosso dai preferiti 💔" else "Aggiunto ai preferiti! ❤️").
Proof.
  split; [reflexivity|]. split; [reflexivity|]. split; [reflexivity|].
  split; [reflexivity|].
  apply (favorite_gesture_ignores_refusal Platform.URL_basic
           (Sample.news (Some Sample.durable_id) "https://x.com/a")
           Sample.durable_id Sample.ada (Sample.session (Some Sample.ada))
           (Sample.failing [Fail])); reflexivity.
Defined.

(* ===================================================================== *)
(** ** The list of articles on screen *)
(* ===================================================================== *)

Lemma over_over {A : Type} (x y : option A) : over (over x y) y = over x y.
Proof. destruct y; reflexivity. Qed.

Lemma spread_spread (a updated : Article) :
  spread (spread a updated) updated = spread a updated.
Proof.
  unfold spread. cbn [id url title summary source date category imageUrl audioBase64
                      sentimentScore likeCount dislikeCount isNew].
  rewrite !over_over.
  destruct (likeCount updated), (dislikeCount updated); reflexivity.
Qed.

Lemma same_article_spread (a updated : Article) :
  same_article (spread a updated) updated = true.
Proof.
  unfold same_article. cbn [spread url].
  rewrite (bool_decide_eq_true_2 (url updated = url updated)) by reflexivity.
  apply orb_true_r.
Qed.

Lemma lookup_map {A B : Type} (f : A -> B) (l : list A) (n : nat) :
  map f l !! n = match l !! n with Some a => Some (f a) | None => None end.
Proof.
  revert n. induction l as [|x l IH]; intros [|n]; cbn; try reflexivity. apply IH.
Qed.

Lemma over_covered {A : Type} (x y : option A) :
  (y = None -> x = None) -> over x y = y.
Proof. destruct y; [reflexivity|]. intros H. apply H. reflexivity. Qed.

Lemma spread_covered (a updated : Article) :
  covers updated a -> spread a updated = updated.
Proof.
  intros (Hid & Hcat & Himg & Haudio & Hnew & Hlike & Hdislike).
  destruct updated as [ui uu ut us uo ud uc um ub ue ul uk un].
  cbn [id category imageUrl audioBase64 isNew likeCount dislikeCount] in *.
  unfold spread.
  cbn [id url title summary source date category imageUrl audioBase64
       sentimentScore likeCount dislikeCount isNew].
  rewrite (over_covered _ _ Hid), (over_covered _ _ Hcat), (over_covered _ _ Himg),
    (over_covered _ _ Haudio), (over_covered _ _ Hnew).
  f_equal.
  - destruct ul; [apply Hlike|..]; reflexivity.
  - destruct uk; [apply Hdislike|..]; reflexivity.
Qed.

Lemma spread_rewritten (a updated : Article) :
  rewritten updated a (if same_article a updated then spread a updated else a).
Proof.
  unfold rewritten. destruct (same_article a updated); [|reflexivity].
  cbn [spread id url title summary source date category imageUrl audioBase64
       sentimentScore likeCount dislikeCount isNew].
  repeat split.
  - intros i ->. reflexivity.
  - intros c ->. reflexivity.
  - intros u ->. reflexivity.
  - intros b ->. reflexivity.
  - intros b ->. reflexivity.
  - intros H. destruct (likeCount updated); [contradiction|reflexivity..].
  - intros H. destruct (dislikeCount updated); [contradiction|reflexivity..].
  - apply spread_covered.
Qed.

(** X12.  [handleArticleUpdate] rewrites the list in place, and the open
    article likewise.  The list keeps its length.  At each position, and in
    [selectedArticle] when an article is open, an article that shares
    neither [id] nor [url] with the update stays as it is; one that shares
    either (two articles without an [id] share it) gets the update's [url],
    [title], [summary], [source], [date] and sentiment score and, where the
    update has them, its [id], category, image, audio, [isNew] and counts;
    it becomes the update itself when the update has a value wherever the
    article has one.  The cells [loading], [showLoginModal],
    [showFavoritesOnly], [currentUser], [favoriteArticleIds] and
    [notification] are not touched.  Applying the same update again changes
    nothing. *)
Theorem handleArticleUpdate_in_place (updated : Article) (s : AppState) :
  let s' := handleArticleUpdate updated s in
  handleArticleUpdate updated s' = s'
  /\ length (articles s') = length (articles s)
  /\ (forall n a, articles s !! n = Some a ->
        exists a', articles s' !! n = Some a' /\ rewritten updated a a')
  /\ match selectedArticle s with
     | Some prev =>
         exists prev', selectedArticle s' = Some prev' /\ rewritten updated prev prev'
     | None => selectedArticle s' = None
     end
  /\ (forall a, same_article a updated = true
                <-> id a = id updated \/ url a = url updated)
  /\ loading s' = loading s
  /\ showLoginModal s' = showLoginModal s
  /\ showFavoritesOnly s' = showFavoritesOnly s
  /\ currentUser s' = currentUser s
  /\ favoriteArticleIds s' = favoriteArticleIds s
  /\ notification s' = notification s.
Proof.
  intros s'. subst s'.
  split; [|split; [|split; [|split; [|split; [|repeat split]]]]].
  - unfold handleArticleUpdate.
    cbn [articles loading selectedArticle showLoginModal showFavoritesOnly
         currentUser favoriteArticleIds notification].
    f_equal.
    + rewrite map_map. apply map_ext. intros a.
      destruct (same_article a updated) eqn:Hsame; [|rewrite Hsame; reflexivity].
      rewrite same_article_spread, spread_spread. reflexivity.
    + destruct (selectedArticle s) as [prev|]; [|reflexivity].
      destruct (same_article prev updated) eqn:Hsame; [|rewrite Hsame; reflexivity].
      rewrite same_article_spread, spread_spread. reflexivity.
  - cbn [handleArticleUpdate articles]. apply length_map.
  - intros n a Hn. cbn [handleArticleUpdate articles].
    rewrite lookup_map, Hn. eexists. split; [reflexivity|]. apply spread_rewritten.
  - cbn [handleArticleUpdate selectedArticle].
    destruct (selectedArticle s) as [prev|]; [|reflexivity].
    exists (if same_article prev updated then spread prev updated else prev).
    split; [destruct (same_article prev updated); reflexivity|apply spread_rewritten].
  - intros a. unfold same_article.
    rewrite orb_true_iff, !bool_decide_eq_true. reflexivity.
Qed.

(** [handleArticleUpdate] on the list of two with the first one open: an
    update for the first, with an [id] and counts, rewrites it in the list
    and in [selectedArticle]; the second article has no [id] either, and an
    update without an [id] reaches it too, whatever its [url]. *)
Example handleArticleUpdate_reading :
  let a := Sample.news None "https://x.com/a" in
  let b := Sample.news None "https://x.com/b" in
  let updated := voted a Sample.durable_id 1 0 in
  articles (handleArticleUpdate updated Scene.reading) = [updated; b]
  /\ selectedArticle (handleArticleUpdate updated Scene.reading) = Some updated
  /\ articles (handleArticleUpdate (Sample.news None "https://x.com/c") Scene.reading)
     = [Sample.news None "https://x.com/c"; Sample.news None "https://x.com/c"].
Proof. repeat split. Qed.

Lemma findIndex_absent {A : Type} (p : A -> bool) (l : list A) :
  (forall a, In a l -> p a = false) -> findIndex p l = (-1)%Z.
Proof.
  induction l as [|x l IH]; intros Hl; [reflexivity|]. cbn [findIndex].
  rewrite (Hl x) by (left; reflexivity).
  rewrite IH by (intros a Ha; apply Hl; right; exact Ha). reflexivity.
Qed.

Lemma findIndex_first {A : Type} (p : A -> bool) (l1 l2 : list A) (a : A) :
  (forall b, In b l1 -> p b = false) -> p a = true ->
  findIndex p (l1 ++ a :: l2) = Z.of_nat (length l1).
Proof.
  induction l1 as [|x l1 IH]; intros Hl Ha; cbn [app findIndex length].
  - rewrite Ha. reflexivity.
  - rewrite (Hl x) by (left; reflexivity).
    rewrite IH by (try exact Ha; intros b Hb; apply Hl; right; exact Hb).
    destruct (Z.ltb_spec (Z.of_nat (length l1)) 0); lia.
Qed.

(** X13.  The [nextArticle] of the hook, with an article open: it is the
    article that follows the first one with the open article's [url], and
    [null] when that one is the last; when no article of the list has the
    [url], the index -1 that [findIndex] gives makes it the first article
    of the list. *)
Theorem nextArticle_cases (s : AppState) (sel : Article) :
  selectedArticle s = Some sel ->
  ((forall a, In a (articles s) -> url a <> url sel) ->
   nextArticle s = head (articles s))
  /\ (forall l1 a l2,
        articles s = l1 ++ a :: l2 ->
        url a = url sel ->
        (forall b, In b l1 -> url b <> url sel) ->
        nextArticle s = head l2).
Proof.
  intros Hsel. unfold nextArticle. rewrite Hsel. split.
  - intros Habsent. rewrite findIndex_absent.
    + unfold at_index. cbn. destruct (articles s); reflexivity.
    + intros a Ha. apply bool_decide_eq_false. apply Habsent. exact Ha.
  - intros l1 a l2 Hl Ha Hbefore. rewrite Hl, findIndex_first.
    + unfold at_index.
      destruct (Z.ltb_spec (Z.of_nat (length l1) + 1) 0) as [Hneg|_]; [lia|].
      replace (Z.to_nat (Z.of_nat (length l1) + 1)) with (length l1 + 1) by lia.
      rewrite lookup_app_r by lia.
      replace (length l1 + 1 - length l1) with 1 by lia.
      destruct l2; reflexivity.
    + intros b Hb. apply bool_decide_eq_false. apply Hbefore. exact Hb.
    + apply bool_decide_eq_true. exact Ha.
Qed.

(** [nextArticle_cases] at work: the first of two articles is open. *)
Lemma nextArticle_witness :
  selectedArticle Scene.reading = Some (Sample.news None "https://x.com/a")
  /\ articles Scene.reading
     = [] ++ Sample.news None "https://x.com/a" :: [Sample.news None "https://x.com/b"]
  /\ nextArticle Scene.reading = head [Sample.news None "https://x.com/b"].
Proof.
  split; [reflexivity|]. split; [reflexivity|].
  apply (proj2 (nextArticle_cases Scene.reading (Sample.news None "https://x.com/a")
                  eq_refl)
           [] (Sample.news None "https://x.com/a") [Sample.news None "https://x.com/b"]);
    [reflexivity|reflexivity|intros b []].
Defined.

(* ===================================================================== *)
(** ** The article view *)
(* ===================================================================== *)

Lemma split_on_nonempty (sep : ascii) (s : string) : split_on sep s <> [].
Proof.
  destruct s as [|c r]; cbn [split_on]; [discriminate|].
  destruct (Ascii.eqb c sep); [discriminate|].
  destruct (split_on sep r); discriminate.
Qed.

Lemma split_on_free (sep : ascii) (s : string) :
  Forall (fun p => free_of sep p = true) (split_on sep s).
Proof.
  induction s as [|c r IH]; cbn [split_on].
  - constructor; [reflexivity|constructor].
  - destruct (Ascii.eqb c sep) eqn:Hc.
    + constructor; [reflexivity|exact IH].
    + destruct (split_on sep r) as [|p ps]; [constructor; [|constructor]|].
      * unfold free_of. cbn [Str.all]. rewrite Hc. reflexivity.
      * inversion IH as [|? ? Hp Hps]; subst. constructor; [|exact Hps].
        unfold free_of in *. cbn [Str.all]. rewrite Hc, Hp. reflexivity.
Qed.

Lemma split_on_app (sep : ascii) (p r : string) :
  free_of sep p = true ->
  split_on sep (p +:+ String sep r) = p :: split_on sep r.
Proof.
  induction p as [|c p IH]; intros Hp.
  - rewrite append_nil_l. cbn [split_on]. rewrite Ascii.eqb_refl. reflexivity.
  - unfold free_of in Hp. cbn [Str.all] in Hp. apply andb_prop in Hp as [Hc Hp].
    apply negb_true_iff in Hc. rewrite append_cons. cbn [split_on].
    rewrite Hc, IH by exact Hp. reflexivity.
Qed.

Lemma split_on_whole (sep : ascii) (p : string) :
  free_of sep p = true -> split_on sep p = [p].
Proof.
  induction p as [|c p IH]; intros Hp; cbn [split_on]; [reflexivity|].
  unfold free_of in Hp. cbn [Str.all] in Hp. apply andb_prop in Hp as [Hc Hp].
  apply negb_true_iff in Hc. rewrite Hc, IH by exact Hp. reflexivity.
Qed.

(** [parts.join(sep)] of what [split_on] gave is the string again. *)
Lemma join_split_on (sep : ascii) (s : string) : join sep (split_on sep s) = s.
Proof.
  induction s as [|c r IH]; [reflexivity|]. cbn [split_on].
  destruct (Ascii.eqb c sep) eqn:Hc.
  - apply Ascii.eqb_eq in Hc. subst c.
    pose proof (split_on_nonempty sep r) as Hne.
    destruct (split_on sep r) as [|p ps]; [contradiction|].
    cbn [join] in *. rewrite append_nil_l, IH. reflexivity.
  - destruct (split_on sep r) as [|p ps]; [cbn [join] in *; rewrite <- IH; reflexivity|].
    destruct ps as [|q qs]; cbn [join] in *; [rewrite IH; reflexivity|].
    rewrite append_cons, IH. reflexivity.
Qed.

Lemma split_on_three (sep : ascii) (s p0 p1 p2 : string) :
  split_on sep s = [p0; p1; p2] ->
  s = p0 +:+ String sep (p1 +:+ String sep p2).
Proof.
  intros Hs. rewrite <- (join_split_on sep s), Hs. reflexivity.
Qed.

(** X14.  [formatDate] turns [yyyy-mm-dd] into [dd-mm-yyyy] by exchanging
    the first and the last of three hyphen-separated pieces, and leaves
    every other string as it is; applied twice it gives the string back. *)
Theorem formatDate_involutive (dateString : string) :
  formatDate (formatDate dateString) = dateString
  /\ (forall p0 p1 p2,
        free_of "-" p0 = true -> free_of "-" p1 = true -> free_of "-" p2 = true ->
        formatDate (p0 +:+ "-" +:+ p1 +:+ "-" +:+ p2) = p2 +:+ "-" +:+ p1 +:+ "-" +:+ p0)
  /\ (length (split_on "-" dateString) <> 3 -> formatDate dateString = dateString).
Proof.
  assert (Hswap : forall p0 p1 p2,
             free_of "-" p0 = true -> free_of "-" p1 = true -> free_of "-" p2 = true ->
             formatDate (p0 +:+ "-" +:+ p1 +:+ "-" +:+ p2)
             = p2 +:+ "-" +:+ p1 +:+ "-" +:+ p0).
  { intros p0 p1 p2 H0 H1 H2. unfold formatDate.
    change (p0 +:+ "-" +:+ p1 +:+ "-" +:+ p2)
      with (p0 +:+ String "-" (p1 +:+ String "-" p2)).
    rewrite !split_on_app, split_on_whole by assumption.
    destruct p0; reflexivity. }
  split; [|split; [exact Hswap|]].
  - unfold formatDate at 2.
    destruct (Str.nonempty dateString) eqn:Hne; cbn [negb].
    2:{ destruct dateString; [reflexivity|discriminate]. }
    destruct (split_on "-" dateString) as [|p0 [|p1 [|p2 [|p3 l]]]] eqn:Hsplit;
      try (unfold formatDate; rewrite Hne, Hsplit; reflexivity).
    pose proof (split_on_free "-" dateString) as Hfree. rewrite Hsplit in Hfree.
    inversion Hfree as [|? ? H0 Hfree1]; subst.
    inversion Hfree1 as [|? ? H1 Hfree2]; subst.
    inversion Hfree2 as [|? ? H2 _]; subst.
    rewrite Hswap by assumption.
    apply split_on_three in Hsplit. symmetry. exact Hsplit.
  - intros Hlen. unfold formatDate.
    destruct (Str.nonempty dateString) eqn:Hne; cbn [negb].
    2:{ destruct dateString; [reflexivity|discriminate]. }
    destruct (split_on "-" dateString) as [|p0 [|p1 [|p2 [|p3 l]]]]; try reflexivity.
    cbn in Hlen. congruence.
Qed.

Example formatDate_sample : formatDate "2025-01-31" = "31-01-2025".
Proof. reflexivity. Qed.

(* ===================================================================== *)
(** ** Saving again *)
(* ===================================================================== *)

(** An upsert of the values a row already holds gives the row back and
    leaves the store as it is. *)
Lemma upsert_article_settled (row : ArticleData) (d : Database) (n : nat)
  (old : ArticleRow) :
  rows_at (row_url row) d = [old] -> row_data old = row ->
  upsert_article row d n = (answered old, d, n).
Proof.
  intros Hrows Hdata. unfold upsert_article. fold (rows_at (row_url row) d).
  rewrite Hrows.
  assert (Hold : {| row_id := row_id old; row_data := row |} = old)
    by (destruct old; cbn in *; subst; reflexivity).
  rewrite Hold. f_equal. f_equal.
  assert (Hmap : map (fun x => if bool_decide (row_url (row_data x) = row_url row)
                               then {| row_id := row_id x; row_data := row |} else x)
                   (db_articles d) = db_articles d).
  { rewrite <- (map_id (db_articles d)) at 2. apply map_ext_in. intros x Hx.
    destruct (bool_decide (row_url (row_data x) = row_url row)) eqn:Hhit; [|reflexivity].
    assert (Hin : In x (rows_at (row_url row) d))
      by (apply List.filter_In; split; assumption).
    rewrite Hrows in Hin. destruct Hin as [<-|[]]. exact Hold. }
  rewrite Hmap. destruct d; reflexivity.
Qed.

Lemma save_each_settled (cat : string) (uniq : list Article) :
  forall (rows : list ArticleRow) (saved : list Article) (w : World),
    served w ->
    Forall2 (settled cat (store w)) uniq rows ->
    exists w',
      save_each cat uniq saved w
      = (Ok (saved ++ map (fun ar => persisted (fst ar) (snd ar)) (combine uniq rows)), w')
      /\ store w' = store w /\ supply w' = supply w /\ served w'.
Proof.
  induction uniq as [|a uniq IH]; intros rows saved w Hs Hall.
  - inversion Hall; subst. exists w. cbn. rewrite app_nil_r. repeat split. exact Hs.
  - inversion Hall as [|? r ? rows' [Hrows Hdata] Hrest]; subst.
    cbn [save_each combine map fst snd].
    destruct (save_one_spec cat saved a w) as (w1 & _ & Hans & Hrun).
    rewrite (served_hd w Hs) in Hrun. destruct Hrun as (r' & Hrun & Hup).
    rewrite (upsert_article_settled (row_of cat a) (store w) (supply w) r) in Hup
      by (cbn [row_of row_url]; assumption).
    injection Hup as Hr Hst Hsu. subst r'.
    assert (Hs1 : served w1) by (unfold served; rewrite Hans; apply served_tl, Hs).
    rewrite (bind_ok _ _ w _ w1 Hrun).
    destruct (IH rows' (saved ++ [persisted a r]) w1 Hs1) as (w' & Hrun' & Hst' & Hsu' & Hs').
    { rewrite <- Hst. exact Hrest. }
    exists w'. rewrite Hrun', <- app_assoc. cbn [app].
    split; [reflexivity|]. split; [congruence|]. split; [congruence|exact Hs'].
Qed.

Lemma save_each_keeps_served (cat : string) (uniq : list Article) :
  forall (saved : list Article) (w : World),
    served w -> served (snd (save_each cat uniq saved w)).
Proof.
  induction uniq as [|a uniq IH]; intros saved w Hs; [exact Hs|].
  cbn [save_each]. destruct (save_one_spec cat saved a w) as (w1 & _ & Hans & Hrun).
  assert (Hs1 : served w1) by (unfold served; rewrite Hans; apply served_tl, Hs).
  rewrite (served_hd w Hs) in Hrun. destruct Hrun as (r & Hrun & _).
  rewrite (bind_ok _ _ w _ w1 Hrun). apply IH. exact Hs1.
Qed.

Lemma settled_rows (cat : string) (d : Database) (uniq added : list Article) :
  (forall u, length (rows_at u d) <= 1) ->
  Forall2 (fun a s => exists row,
             s = persisted a row /\ row_data row = row_of cat a
             /\ In row (rows_at (url a) d)) uniq added ->
  exists rows,
    Forall2 (settled cat d) uniq rows
    /\ added = map (fun ar => persisted (fst ar) (snd ar)) (combine uniq rows).
Proof.
  intros Hu. induction 1 as [|a s uniq added (row & -> & Hdata & Hin) _ IH].
  - exists []. split; [constructor|reflexivity].
  - destruct IH as (rows & Hall & ->). exists (row :: rows). split; [|reflexivity].
    constructor; [|exact Hall]. split; [|exact Hdata].
    pose proof (Hu (url a)) as Hle.
    destruct (rows_at (url a) d) as [|r [|r' l]]; cbn [length] in Hle;
      [destruct Hin| |lia].
    destruct Hin as [->|[]]. reflexivity.
Qed.

Section SavingAgain.

Variable URL_new : string -> option URL.

Lemma saveArticles_runs_save_each (categoryLabel : string) (batch : list Article)
  (w : World) :
  saveArticles URL_new categoryLabel batch w
  = save_each (Str.trim (Str.or_else (Some categoryLabel) "Generale"))
      (first_occurrences (key_of URL_new) [] (List.filter has_url batch)) [] w.
Proof.
  unfold saveArticles. destruct batch as [|a0 rest]; [reflexivity|].
  cbn [length Nat.eqb]. unfold bind, lift. rewrite unique_input_map_spec.
  cbn [app map fst]. rewrite map_map. cbn [snd]. rewrite map_id. reflexivity.
Qed.

(** X16.  Saving is idempotent.  In a store that serves the requests and
    is unique on [url], [saveArticles] called again with the same label
    and the same batch returns the same articles, with the same
    identifiers, and leaves the store as the first call left it: no row is
    added and none changes. *)
Theorem saveArticles_idempotent (categoryLabel : string) (batch : list Article)
  (w : World) :
  served w ->
  unique_urls (store w) ->
  exists saved w1 w2,
    saveArticles URL_new categoryLabel batch w = (Ok saved, w1)
    /\ saveArticles URL_new categoryLabel batch w1 = (Ok saved, w2)
    /\ store w2 = store w1
    /\ supply w2 = supply w1.
Proof.
  intros Hs Hu. rewrite saveArticles_runs_save_each.
  set (clean := Str.trim (Str.or_else (Some categoryLabel) "Generale")).
  set (uniq := first_occurrences (key_of URL_new) [] (List.filter has_url batch)).
  destruct (first_occurrences_NoDup URL_new (List.filter has_url batch) []) as [Hnd _].
  fold uniq in Hnd.
  destruct (save_each_spec URL_new clean uniq (NoDup_keys_urls URL_new uniq Hnd) [] w)
    as (saved & w1 & Hsave & _ & Hall & _ & Huniq & _).
  rewrite (kept_served _ _ Hs) in Hall. cbn [app] in Hsave.
  pose proof (save_each_keeps_served clean uniq [] w Hs) as Hs1.
  rewrite Hsave in Hs1. cbn [snd] in Hs1.
  destruct (settled_rows clean (store w1) uniq saved) as (rows & Hsettled & Hsaved).
  { intros u. apply Huniq, Hu. }
  { exact Hall. }
  destruct (save_each_settled clean uniq rows [] w1 Hs1 Hsettled)
    as (w2 & Hagain & Hst & Hsu & _).
  exists saved, w1, w2. split; [exact Hsave|].
  rewrite saveArticles_runs_save_each. fold clean uniq.
  rewrite Hagain. cbn [app]. rewrite <- Hsaved. repeat split; assumption.
Qed.

End SavingAgain.

(** [saveArticles_idempotent] at work: a batch of two spellings of one
    address, saved twice. *)
Lemma saveArticles_idempotent_witness :
  served Sample.start
  /\ unique_urls (store Sample.start)
  /\ exists saved w1 w2,
       saveArticles Platform.URL_basic "Tech"
         [Sample.news None "https://x.com/a"; Sample.news None "http://X.com/a/"]
         Sample.start = (Ok saved, w1)
       /\ saveArticles Platform.URL_basic "Tech"
            [Sample.news None "https://x.com/a"; Sample.news None "http://X.com/a/"]
            w1 = (Ok saved, w2)
       /\ store w2 = store w1
       /\ supply w2 = supply w1.
Proof.
  split; [exact served_start|]. split; [intros u; cbn; lia|].
  apply (saveArticles_idempotent Platform.URL_basic "Tech"
           [Sample.news None "https://x.com/a"; Sample.news None "http://X.com/a/"]
           Sample.start);
    [exact served_start|intros u; cbn; lia].
Defined.

Section ResolvingAgain.

Variable URL_new : string -> option URL.

Lemma ensureArticleSaved_found (article : Article) (w : World) (r : ArticleRow) :
  durable_shaped article = false -> served w ->
  rows_at (url article) (store w) = [r] -> Str.nonempty (row_id r) = true ->
  exists w',
    ensureArticleSaved URL_new article w = (Ok (Some (row_id r)), w')
    /\ store w' = store w /\ supply w' = supply w /\ served w'
    /\ log w' = log w ++ [ask Rel_articles Select].
Proof.
  intros Hshape Hs Hrow Hid. unfold ensureArticleSaved.
  unfold durable_shaped in Hshape. rewrite Hshape.
  served_step E Hst Hsu Hlog Hs'.
  unfold select_article_id in *. fold (rows_at (url article) (store w)) in *.
  rewrite Hrow in *. cbn [fst snd data answered truthy] in *. rewrite Hid.
  exists w0. repeat split; assumption.
Qed.

Lemma ensureArticleSaved_new (article : Article) (w : World) :
  durable_shaped article = false -> served w ->
  rows_at (url article) (store w) = [] -> has_url article = true ->
  exists w',
    ensureArticleSaved URL_new article w = (Ok (Some (uuid_of_nat (supply w))), w')
    /\ db_articles (store w')
       = db_articles (store w)
         ++ [{| row_id := uuid_of_nat (supply w);
                row_data := row_of "Generale" article |}]
    /\ (forall t, pairs t (store w') = pairs t (store w))
    /\ served w'.
Proof.
  intros Hshape Hs Hnone Hurl. unfold ensureArticleSaved.
  unfold durable_shaped in Hshape. rewrite Hshape.
  served_step E Hst Hsu Hlog Hs1.
  unfold select_article_id in *. fold (rows_at (url article) (store w)) in *.
  rewrite Hnone in *. cbn [fst snd data no_data truthy] in *.
  unfold try_catch, bind.
  rewrite saveArticles_single, Hurl, save_one_default_category.
  destruct (save_one_spec "Generale" [] article w0) as (w2 & _ & Hans & Hrun).
  rewrite (served_hd w0 Hs1) in Hrun. destruct Hrun as (r & Hrun & Hup).
  destruct (upsert_article_spec (row_of "Generale" article) (store w0) (supply w0))
    as (r' & d' & n' & E' & Hdata & _ & _ & _ & Hnew & _ & Hpairs & _).
  rewrite E' in Hup. injection Hup as Hr Hd Hn. subst r' d' n'.
  rewrite Hst in Hnew. destruct (Hnew Hnone) as [Hid Hrows].
  rewrite Hrun. cbn [app persisted id truthy ret]. rewrite Hid, uuid_nonempty.
  exists w2. rewrite Hsu. split; [reflexivity|]. split.
  { rewrite Hrows. f_equal. f_equal.
    destruct r as [i d]. cbn in Hid, Hdata. subst i d. rewrite Hsu. reflexivity. }
  split; [intros t; rewrite Hpairs, Hst; reflexivity|].
  unfold served. rewrite Hans. apply served_tl, Hs1.
Qed.

(** X15.  An article without a durable-shaped [id] but with a URL, resolved
    in a store that serves the requests, is unique on [url] and has no row
    with an empty [id], gets an identifier; and from then on every article
    with that URL and no durable-shaped [id] of its own is resolved to the
    same identifier, by the lookup alone, the store staying as it is. *)
Theorem ensureArticleSaved_stable (article : Article) (w : World) :
  durable_shaped article = false ->
  has_url article = true ->
  served w ->
  unique_urls (store w) ->
  ids_present (store w) ->
  exists i w1,
    ensureArticleSaved URL_new article w = (Ok (Some i), w1)
    /\ forall other,
         url other = url article -> durable_shaped other = false ->
         exists w2,
           ensureArticleSaved URL_new other w1 = (Ok (Some i), w2)
           /\ store w2 = store w1
           /\ log w2 = log w1 ++ [ask Rel_articles Select].
Proof.
  intros Hshape Hurl Hs Hu Hids.
  pose proof (Hu (url article)) as Hle.
  destruct (rows_at (url article) (store w)) as [|r [|r' l]] eqn:Hrows;
    [| |cbn [length] in Hle; lia].
  - destruct (ensureArticleSaved_new article w Hshape Hs Hrows Hurl)
      as (w1 & Hrun & Hdb & _ & Hs1).
    exists (uuid_of_nat (supply w)), w1. split; [exact Hrun|].
    intros other Hsame Hshape'.
    destruct (ensureArticleSaved_found other w1
                {| row_id := uuid_of_nat (supply w);
                   row_data := row_of "Generale" article |} Hshape' Hs1)
      as (w2 & Hrun2 & Hst2 & _ & _ & Hlog2).
    + unfold rows_at in *. rewrite Hdb, List.filter_app, Hsame, Hrows.
      cbn [List.filter app row_data row_of row_url].
      rewrite bool_decide_eq_true_2 by reflexivity. reflexivity.
    + apply uuid_nonempty.
    + exists w2. repeat split; assumption.
  - assert (Hid : Str.nonempty (row_id r) = true).
    { unfold ids_present in Hids. rewrite List.Forall_forall in Hids. apply Hids.
      assert (Hin : In r (rows_at (url article) (store w)))
        by (rewrite Hrows; left; reflexivity).
      apply List.filter_In in Hin. tauto. }
    destruct (ensureArticleSaved_found article w r Hshape Hs Hrows Hid)
      as (w1 & Hrun & Hst & _ & Hs1 & _).
    exists (row_id r), w1. split; [exact Hrun|].
    intros other Hsame Hshape'.
    destruct (ensureArticleSaved_found other w1 r Hshape' Hs1)
      as (w2 & Hrun2 & Hst2 & _ & _ & Hlog2).
    + rewrite Hst, Hsame. exact Hrows.
    + exact Hid.
    + exists w2. repeat split; assumption.
Qed.

End ResolvingAgain.

(** [ensureArticleSaved_stable] at work, on the empty store. *)
Lemma ensureArticleSaved_stable_witness :
  durable_shaped (Sample.news None "https://x.com/a") = false
  /\ has_url (Sample.news None "https://x.com/a") = true
  /\ served Sample.start
  /\ unique_urls (store Sample.start)
  /\ ids_present (store Sample.start)
  /\ exists i w1,
       ensureArticleSaved Platform.URL_basic (Sample.news None "https://x.com/a")
         Sample.start = (Ok (Some i), w1)
       /\ forall other,
            url other = url (Sample.news None "https://x.com/a") ->
            durable_shaped other = false ->
            exists w2,
              ensureArticleSaved Platform.URL_basic other w1 = (Ok (Some i), w2)
              /\ store w2 = store w1
              /\ log w2 = log w1 ++ [ask Rel_articles Select].
Proof.
  split; [reflexivity|]. split; [reflexivity|]. split; [exact served_start|].
  split; [intros u; cbn; lia|]. split; [constructor|].
  apply (ensureArticleSaved_stable Platform.URL_basic
           (Sample.news None "https://x.com/a") Sample.start);
    [reflexivity|reflexivity|exact served_start|intros u; cbn; lia|constructor].
Defined.

(* ===================================================================== *)
(** ** Reading the cache *)
(* ===================================================================== *)

Lemma firsts_In {A : Type} (key : A -> string) (l : list A) :
  forall seen x, In x (firsts key seen l) -> In x l /\ key x ∉ seen.
Proof.
  induction l as [|y l IH]; intros seen x; cbn [firsts]; [intros []|].
  case_bool_decide as Hy.
  - intros Hx. destruct (IH _ _ Hx). split; [right|]; assumption.
  - intros [<-|Hx]; [split; [left; reflexivity|exact Hy]|].
    destruct (IH _ _ Hx) as [Hin Hout]. split; [right; exact Hin|].
    intros Hc. apply Hout. right. exact Hc.
Qed.

Lemma firsts_NoDup {A : Type} (key : A -> string) (l : list A) :
  forall seen, NoDup (map key (firsts key seen l)).
Proof.
  induction l as [|y l IH]; intros seen; cbn [firsts map]; [constructor|].
  case_bool_decide as Hy; [apply IH|]. cbn [map]. apply NoDup_cons. split; [|apply IH].
  intros Hin. apply list_elem_of_In, in_map_iff in Hin as (x & Hk & Hx).
  destruct (firsts_In key l _ _ Hx) as [_ Hout]. apply Hout. rewrite Hk. left.
Qed.

Lemma firsts_cover {A : Type} (key : A -> string) (l : list A) :
  forall seen x, In x l ->
    key x ∈ seen \/ exists y, In y (firsts key seen l) /\ key y = key x.
Proof.
  induction l as [|y l IH]; intros seen x; [intros []|]. cbn [firsts].
  intros [->|Hx].
  - case_bool_decide as Hy; [left; exact Hy|].
    right. exists x. split; [left|]; reflexivity.
  - case_bool_decide as Hy.
    + destruct (IH seen x Hx) as [Hs|(z & Hz & Hk)]; [left; exact Hs|].
      right. exists z. split; assumption.
    + destruct (IH (key y :: seen) x Hx) as [Hs|(z & Hz & Hk)].
      * apply elem_of_cons in Hs as [Hs|Hs]; [|left; exact Hs].
        right. exists y. split; [left; reflexivity|]. symmetry. exact Hs.
      * right. exists z. split; [right; exact Hz|exact Hk].
Qed.

Lemma firsts_length {A : Type} (key : A -> string) (l : list A) :
  forall seen, length (firsts key seen l) <= length l.
Proof.
  induction l as [|y l IH]; intros seen; cbn [firsts length]; [lia|].
  case_bool_decide; cbn [length]; [specialize (IH seen)|specialize (IH (key y :: seen))];
    lia.
Qed.

Lemma existsb_key_elem {A : Type} (m : list (string * A)) (k : string) :
  existsb (fun kv => bool_decide (fst kv = k)) m = bool_decide (k ∈ map fst m).
Proof.
  induction m as [|kv m IH]; cbn [existsb map].
  - symmetry. apply bool_decide_eq_false, not_elem_of_nil.
  - rewrite IH. repeat case_bool_decide; cbn [orb]; try reflexivity;
      exfalso; rewrite elem_of_cons in *; intuition congruence.
Qed.

(** [firsts] reads the keys seen so far as a set. *)
Lemma firsts_seen_ext {A : Type} (key : A -> string) (l : list A) :
  forall seen seen',
    (forall k, k ∈ seen <-> k ∈ seen') -> firsts key seen l = firsts key seen' l.
Proof.
  induction l as [|x l IH]; intros seen seen' Heq; [reflexivity|].
  cbn [firsts]. rewrite (bool_decide_ext _ _ (Heq (key x))).
  destruct (bool_decide (key x ∈ seen')); [apply IH, Heq|].
  f_equal. apply IH. intros k. rewrite !elem_of_cons, Heq. tauto.
Qed.

Section CacheFacts.

Variable URL_new : string -> option URL.
Variable created_on : ArticleRow -> string.

Let row_key (r : ArticleRow) : string := key_of URL_new (mapped created_on r).

(** The [Map] built by [mapArticles] holds the first rows of each key, in
    order. *)
Lemma unique_map_spec (rows : list ArticleRow) :
  forall m,
    unique_map URL_new m rows
    = Ok (m ++ map (fun r => (row_key r, r)) (firsts row_key (map fst m) rows)).
Proof.
  induction rows as [|r rows IH]; intros m; cbn [unique_map firsts map].
  - rewrite app_nil_r. reflexivity.
  - change (normalizeUrl URL_new (row_url (row_data r)))
      with (normalizeUrl URL_new (url (mapped created_on r))).
    rewrite (normalizeUrl_key URL_new (mapped created_on r)). fold (row_key r).
    rewrite existsb_key_elem.
    destruct (bool_decide (row_key r ∈ map fst m)) eqn:Hseen; [apply IH|].
    rewrite IH, map_app, <- app_assoc. cbn [map fst app].
    f_equal. f_equal. f_equal. f_equal.
    apply firsts_seen_ext. intros k.
    rewrite elem_of_app, !elem_of_cons, elem_of_nil. tauto.
Qed.

Lemma mapArticles_firsts (rows : list ArticleRow) :
  mapArticles URL_new created_on (Some rows)
  = Ok (map (mapped created_on) (firsts row_key [] rows)).
Proof.
  unfold mapArticles. rewrite unique_map_spec. cbn [app map].
  rewrite map_map. reflexivity.
Qed.

End CacheFacts.

Lemma firsts_find {A : Type} (key : A -> string) (l : list A) :
  forall seen x,
    In x (firsts key seen l) ->
    List.find (fun y => bool_decide (key y = key x)) l = Some x.
Proof.
  induction l as [|y l IH]; intros seen x; cbn [firsts List.find]; [intros []|].
  case_bool_decide as Hy.
  - intros Hx. destruct (firsts_In key l _ _ Hx) as [_ Hout].
    rewrite bool_decide_eq_false_2 by (intros Hk; apply Hout; rewrite <- Hk; exact Hy).
    apply (IH seen). exact Hx.
  - intros [<-|Hx]; [rewrite bool_decide_eq_true_2 by reflexivity; reflexivity|].
    destruct (firsts_In key l _ _ Hx) as [_ Hout].
    rewrite bool_decide_eq_false_2 by (intros Hk; apply Hout; rewrite <- Hk; left).
    apply (IH (key y :: seen)). exact Hx.
Qed.

Lemma In_take {A : Type} (n : nat) (l : list A) (x : A) : In x (take n l) -> In x l.
Proof.
  revert l. induction n as [|n IH]; intros [|y l]; cbn; try tauto.
  intros [->|H]; [left; reflexivity|right; apply IH, H].
Qed.

Section MapArticles.

Variable URL_new : string -> option URL.
Variable created_on : ArticleRow -> string.

(** X17.  [mapArticles] gives the empty list for [null], and otherwise one
    article per normalized URL: the first row with each key, in the order
    of the rows.  So no key comes twice, every row's key is represented,
    the first row is always kept, and the list is no longer than the
    rows. *)
Theorem mapArticles_dedup (rows : list ArticleRow) :
  mapArticles URL_new created_on None = Ok []
  /\ exists out,
       mapArticles URL_new created_on (Some rows) = Ok out
       /\ NoDup (map (key_of URL_new) out)
       /\ (forall a, In a out ->
             exists r,
               a = mapped created_on r
               /\ List.find
                    (fun x => bool_decide (key_of URL_new (mapped created_on x)
                                           = key_of URL_new a)) rows
                  = Some r)
       /\ (forall r, In r rows ->
             exists a, In a out
                       /\ key_of URL_new a = key_of URL_new (mapped created_on r))
       /\ head out = option_map (mapped created_on) (head rows)
       /\ length out <= length rows.
Proof.
  split; [reflexivity|].
  exists (map (mapped created_on)
            (firsts (fun r => key_of URL_new (mapped created_on r)) [] rows)).
  split; [apply mapArticles_firsts|]. split.
  { rewrite map_map. apply firsts_NoDup. }
  split.
  { intros a Ha. apply in_map_iff in Ha as (r & <- & Hr). exists r.
    split; [reflexivity|].
    exact (firsts_find (fun r => key_of URL_new (mapped created_on r)) rows [] r Hr). }
  split.
  { intros r Hr.
    destruct (firsts_cover (fun r => key_of URL_new (mapped created_on r)) rows [] r Hr)
      as [Hnil|(y & Hy & Hk)]; [apply elem_of_nil in Hnil; destruct Hnil|].
    exists (mapped created_on y). split; [apply in_map; exact Hy|exact Hk]. }
  split.
  { destruct rows as [|r rows]; [reflexivity|].
    cbn [firsts]. rewrite bool_decide_eq_false_2 by apply not_elem_of_nil.
    reflexivity. }
  rewrite length_map. apply firsts_length.
Qed.

End MapArticles.

Section CacheProperties.

Variable URL_new : string -> option URL.
Variable newest_first : list ArticleRow -> list ArticleRow.
Variable created_on : ArticleRow -> string.

(** The store hands out rows it holds. *)
Hypothesis newest_first_sub : forall l x, In x (newest_first l) -> In x l.

(** X18.  [getCachedArticles] never rejects, sends one select and leaves
    the store as it is.  When the request is refused or fails the result is
    empty.  Otherwise it holds at most 40 articles, no two with the same
    normalized URL, each built from a row of the store whose category is
    the trimmed label (["Generale"] for an empty label). *)
Theorem getCachedArticles_outcome (categoryLabel : string) (w : World) :
  exists out w',
    getCachedArticles URL_new newest_first created_on categoryLabel w = (Ok out, w')
    /\ store w' = store w
    /\ log w' = log w ++ [ask Rel_articles Select]
    /\ (next_served w = false -> out = [])
    /\ length out <= 40
    /\ NoDup (map (key_of URL_new) out)
    /\ forall a, In a out ->
         exists r,
           In r (db_articles (store w))
           /\ a = mapped created_on r
           /\ row_category (row_data r) = clean_label categoryLabel.
Proof.
  unfold getCachedArticles. fold (clean_label categoryLabel).
  unfold try_catch, bind, send, next_served, ret.
  destruct (hd Serve (answers w)).
  2,3: eexists [], _; split; [reflexivity|]; cbn [store log length];
       repeat split; try reflexivity; try lia; try constructor; intros a [].
  unfold select_category. cbn [error data answered lift].
  set (rows := take 40 _).
  rewrite mapArticles_firsts.
  eexists _, _. split; [reflexivity|]. cbn [store log].
  split; [reflexivity|]. split; [reflexivity|]. split; [discriminate|].
  split.
  { rewrite length_map.
    etransitivity; [apply firsts_length|]. unfold rows. rewrite length_take. lia. }
  split; [rewrite map_map; apply firsts_NoDup|].
  intros a Ha. apply in_map_iff in Ha as (r & <- & Hr). exists r.
  apply firsts_In in Hr as [Hr _]. unfold rows in Hr.
  assert (Hin : In r (newest_first
                        (List.filter
                           (fun r => bool_decide (row_category (row_data r)
                                                  = clean_label categoryLabel))
                           (db_articles (store w))))).
  { eapply In_take. exact Hr. }
  apply newest_first_sub, List.filter_In in Hin as [Hin Hcat].
  apply bool_decide_eq_true in Hcat. repeat split; assumption.
Qed.

End CacheProperties.

Lemma oldest_last_sub (l : list ArticleRow) (x : ArticleRow) :
  In x (Scene.oldest_last l) -> In x l.
Proof. unfold Scene.oldest_last. intros H. apply in_rev. exact H. Defined.

(** [getCachedArticles_outcome] at work, on a store with one article. *)
Lemma getCachedArticles_witness :
  (forall l x, In x (Scene.oldest_last l) -> In x l)
  /\ exists out w',
       getCachedArticles Platform.URL_basic Scene.oldest_last Scene.a_day
         "Generale" Sample.stored = (Ok out, w')
       /\ store w' = store Sample.stored
       /\ log w' = log Sample.stored ++ [ask Rel_articles Select]
       /\ (next_served Sample.stored = false -> out = [])
       /\ length out <= 40
       /\ NoDup (map (key_of Platform.URL_basic) out)
       /\ forall a, In a out ->
            exists r,
              In r (db_articles (store Sample.stored))
              /\ a = mapped Scene.a_day r
              /\ row_category (row_data r) = clean_label "Generale".
Proof.
  split; [exact oldest_last_sub|].
  apply (getCachedArticles_outcome Platform.URL_basic Scene.oldest_last Scene.a_day
           oldest_last_sub "Generale" Sample.stored).
Defined.

Lemma Forall2_In_r {A B : Type} (P : A -> B -> Prop) (l : list A) (l' : list B) (y : B) :
  Forall2 P l l' -> In y l' -> exists x, In x l /\ P x y.
Proof.
  induction 1 as [|x y' l l' Hxy _ IH]; [intros []|].
  intros [<-|Hy]; [exists x; split; [left; reflexivity|exact Hxy]|].
  destruct (IH Hy) as (x' & Hx' & Hp). exists x'. split; [right|]; assumption.
Qed.

Lemma clean_label_save (categoryLabel : string) :
  Str.trim (Str.or_else (Some categoryLabel) "Generale") = clean_label categoryLabel.
Proof.
  unfold clean_label. cbn [Str.or_else].
  destruct (Str.nonempty categoryLabel); reflexivity.
Qed.

Section SaveThenRead.

Variable URL_new : string -> option URL.
Variable newest_first : list ArticleRow -> list ArticleRow.
Variable created_on : ArticleRow -> string.

(** Ordering the rows neither drops nor adds one. *)
Hypothesis newest_first_perm : forall l, Permutation (newest_first l) l.

(** X19.  What is saved under a label is found under it.  In a store that
    serves the requests and is unique on [url], after [saveArticles] with a
    batch of articles that bring no category of their own, and as long as
    the label's category holds no more than 40 rows, [getCachedArticles]
    with the same label returns, for every article the save returned, an
    article with the same normalized URL and, like it, the label's
    category. *)
Theorem saved_articles_are_cached (categoryLabel : string) (batch : list Article)
  (w : World) :
  served w ->
  (forall a, In a batch -> truthy (category a) = None) ->
  exists saved w1 out w2,
    saveArticles URL_new categoryLabel batch w = (Ok saved, w1)
    /\ getCachedArticles URL_new newest_first created_on categoryLabel w1 = (Ok out, w2)
    /\ (length (List.filter
                  (fun r => bool_decide (row_category (row_data r)
                                         = clean_label categoryLabel))
                  (db_articles (store w1))) <= 40 ->
        forall s, In s saved ->
          category s = Some (clean_label categoryLabel)
          /\ exists a, In a out
                       /\ key_of URL_new a = key_of URL_new s
                       /\ category a = category s).
Proof.
  intros Hs Hcat. rewrite saveArticles_runs_save_each, clean_label_save.
  set (clean := clean_label categoryLabel).
  set (uniq := first_occurrences (key_of URL_new) [] (List.filter has_url batch)).
  destruct (first_occurrences_NoDup URL_new (List.filter has_url batch) []) as [Hnd _].
  fold uniq in Hnd.
  destruct (save_each_spec URL_new clean uniq (NoDup_keys_urls URL_new uniq Hnd) [] w)
    as (saved & w1 & Hsave & _ & Hall & _).
  rewrite (kept_served _ _ Hs) in Hall. cbn [app] in Hsave.
  pose proof (save_each_keeps_served clean uniq [] w Hs) as Hs1.
  rewrite Hsave in Hs1. cbn [snd] in Hs1.
  exists saved, w1.
  unfold getCachedArticles. fold (clean_label categoryLabel). fold clean.
  unfold try_catch. served_step E Hst Hsu Hlog Hs2.
  unfold select_category. cbn [fst error data answered lift].
  set (rows := List.filter _ (db_articles (store w1))).
  rewrite mapArticles_firsts.
  eexists _, _. split; [exact Hsave|]. split; [reflexivity|].
  intros Hfew s Hin.
  destruct (Forall2_In_r _ _ _ _ Hall Hin) as (a & Ha & row & -> & Hdata & Hrow).
  assert (Hbatch : In a batch).
  { unfold uniq in Ha.
    apply (first_occurrences_find URL_new) in Ha as [_ Hfind].
    apply find_some in Hfind as [Hfind _]. apply List.filter_In in Hfind. tauto. }
  assert (Hrowcat : row_category (row_data row) = clean).
  { rewrite Hdata. cbn [row_of row_category].
    specialize (Hcat a Hbatch). unfold truthy in Hcat. unfold Str.or_else.
    destruct (category a) as [c|]; [|reflexivity].
    destruct (Str.nonempty c); [discriminate|reflexivity]. }
  cbn [persisted category]. split; [rewrite Hrowcat; reflexivity|].
  apply List.filter_In in Hrow as [Hrow Hurl]. apply bool_decide_eq_true in Hurl.
  assert (Hrows : In row (take 40 (newest_first rows))).
  { rewrite take_ge.
    - apply (Permutation_in _ (Permutation_sym (newest_first_perm rows))).
      unfold rows. apply List.filter_In. split; [exact Hrow|].
      apply bool_decide_eq_true. exact Hrowcat.
    - rewrite (Permutation_length (newest_first_perm rows)). exact Hfew. }
  destruct (firsts_cover (fun r => key_of URL_new (mapped created_on r))
              (take 40 (newest_first rows)) [] row Hrows)
    as [Hnil|(y & Hy & Hk)]; [apply elem_of_nil in Hnil; destruct Hnil|].
  exists (mapped created_on y). split; [apply in_map; exact Hy|].
  split.
  - rewrite Hk. unfold key_of. cbn [mapped persisted url]. rewrite Hurl. reflexivity.
  - cbn [mapped category]. f_equal.
    apply firsts_In in Hy as [Hy _]. apply In_take in Hy.
    apply (Permutation_in _ (newest_first_perm rows)) in Hy.
    unfold rows in Hy. apply List.filter_In in Hy as [_ Hy].
    apply bool_decide_eq_true in Hy. congruence.
Qed.

End SaveThenRead.

Lemma oldest_last_perm (l : list ArticleRow) : Permutation (Scene.oldest_last l) l.
Proof. unfold Scene.oldest_last. apply Permutation_sym, Permutation_rev. Defined.

(** [saved_articles_are_cached] at work: one article saved under [Tech]. *)
Lemma saved_articles_are_cached_witness :
  (forall l, Permutation (Scene.oldest_last l) l)
  /\ served Sample.start
  /\ (forall a, In a [Sample.news None "https://x.com/a"] -> truthy (category a) = None)
  /\ exists saved w1 out w2,
       saveArticles Platform.URL_basic "Tech" [Sample.news None "https://x.com/a"]
         Sample.start = (Ok saved, w1)
       /\ getCachedArticles Platform.URL_basic Scene.oldest_last Scene.a_day "Tech" w1
          = (Ok out, w2)
       /\ (length (List.filter
                     (fun r => bool_decide (row_category (row_data r)
                                            = clean_label "Tech"))
                     (db_articles (store w1))) <= 40 ->
           forall s, In s saved ->
             category s = Some (clean_label "Tech")
             /\ exists a, In a out
                          /\ key_of Platform.URL_basic a = key_of Platform.URL_basic s
                          /\ category a = category s).
Proof.
  assert (Hcat : forall a, In a [Sample.news None "https://x.com/a"] ->
                           truthy (category a) = None)
    by (intros a [<-|[]]; reflexivity).
  split; [exact oldest_last_perm|]. split; [exact served_start|].
  split; [exact Hcat|].
  apply (saved_articles_are_cached Platform.URL_basic Scene.oldest_last Scene.a_day
           oldest_last_perm "Tech" [Sample.news None "https://x.com/a"] Sample.start
           served_start Hcat).
Defined.

(* ===================================================================== *)
(** ** Comments *)
(* ===================================================================== *)

Section CommentFacts.

Variable latest_first : list CommentRow -> list CommentRow.
Variable Date_getTime : string -> float.
Variable clock : nat -> string.
Variable ensureUserExists : User -> M unit.

(** Ordering the comments neither drops nor adds one. *)
Hypothesis latest_first_perm : forall l, Permutation (latest_first l) l.

Let comments_on (a : string) (d : Database) : list CommentRow :=
  List.filter (fun r => bool_decide (comment_article_id r = a)) (db_comments d).

Lemma getComments_served (a : string) (w : World) :
  isValidUUID (Some a) = true -> served w ->
  exists w',
    getComments latest_first Date_getTime a w
    = (Ok (map (comment_of Date_getTime) (latest_first (comments_on a (store w)))), w')
    /\ store w' = store w /\ supply w' = supply w /\ served w'.
Proof.
  intros Hvalid Hs. unfold getComments. rewrite Hvalid. cbn [negb].
  unfold try_catch. served_step E Hst Hsu Hlog Hs'.
  cbn [select_comments fst snd error data answered from_option Datatypes.id ret] in *.
  exists w0. repeat split; assumption.
Qed.

(** X20.  [getComments] never rejects and never changes the store.  For an
    identifier that is no UUID it answers with the empty list and sends
    nothing; when the request is refused or fails it answers with the
    empty list; otherwise the comments it returns are, up to their order,
    those the store holds for the article, each row turned into a
    [Comment]. *)
Theorem getComments_outcome (articleId : string) (w : World) :
  exists out w',
    getComments latest_first Date_getTime articleId w = (Ok out, w')
    /\ store w' = store w
    /\ (isValidUUID (Some articleId) = false -> out = [] /\ w' = w)
    /\ (next_served w = false -> out = [])
    /\ (isValidUUID (Some articleId) = true -> next_served w = true ->
        Permutation out
          (map (comment_of Date_getTime)
             (List.filter (fun r => bool_decide (comment_article_id r = articleId))
                (db_comments (store w))))).
Proof.
  unfold getComments, next_served.
  destruct (isValidUUID (Some articleId)); cbn [negb].
  2:{ exists [], w. repeat split; try reflexivity; discriminate. }
  unfold try_catch, bind, send, ret.
  destruct (hd Serve (answers w));
    cbn [select_comments error data answered refused from_option Datatypes.id];
    eexists _, _; (split; [reflexivity|]); cbn [store];
    (split; [reflexivity|]); (split; [discriminate|]);
    (split; [try discriminate; try reflexivity|]); try discriminate.
  intros _ _. apply Permutation_map, latest_first_perm.
Qed.

(** X21.  [addComment] either throws, having inserted nothing, or returns
    the comment it inserted.  It throws at once, before [ensureUserExists]
    and before any request, when the identifier is no UUID; it throws when
    [ensureUserExists] does; it throws, the store as [ensureUserExists]
    left it, when the insertion is refused or fails.  Otherwise one row is
    appended to the comments, with the article, the user's id and name and
    the text as given, and the comment returned is that row's. *)
Theorem addComment_outcome (articleId : string) (user : User) (text : string)
  (w : World) :
  (isValidUUID (Some articleId) = false ->
   addComment Date_getTime clock ensureUserExists articleId user text w = (Thrown, w))
  /\ (isValidUUID (Some articleId) = true ->
      (forall w1, ensureUserExists user w = (Thrown, w1) ->
         addComment Date_getTime clock ensureUserExists articleId user text w
         = (Thrown, w1))
      /\ (forall u w1, ensureUserExists user w = (Ok u, w1) ->
            next_served w1 = false ->
            exists w2,
              addComment Date_getTime clock ensureUserExists articleId user text w
              = (Thrown, w2)
              /\ store w2 = store w1)
      /\ (forall u w1, ensureUserExists user w = (Ok u, w1) ->
            next_served w1 = true ->
            exists row w2,
              addComment Date_getTime clock ensureUserExists articleId user text w
              = (Ok (comment_of Date_getTime row), w2)
              /\ db_comments (store w2) = db_comments (store w1) ++ [row]
              /\ comment_article_id row = articleId
              /\ comment_user_id row = user_ident user
              /\ comment_username row = username user
              /\ comment_text row = text
              /\ comment_id row = uuid_of_nat (supply w1)
              /\ (forall t, pairs t (store w2) = pairs t (store w1))
              /\ db_articles (store w2) = db_articles (store w1))).
Proof.
  unfold addComment. split; [intros ->; reflexivity|]. intros ->. cbn [negb].
  split; [|split].
  - intros w1 H. unfold bind. rewrite H. reflexivity.
  - intros u w1 H Hnext. unfold bind at 1. rewrite H.
    unfold bind, send, throw. unfold next_served in Hnext.
    destruct (hd Serve (answers w1)); [discriminate|..];
      eexists; split; reflexivity.
  - intros u w1 H Hnext. unfold bind at 1. rewrite H.
    unfold bind, send, ret. unfold next_served in Hnext.
    destruct (hd Serve (answers w1)); try discriminate.
    cbn [insert_comment error data answered].
    eexists _, _. split; [reflexivity|]. cbn [store set_comments db_comments
      comment_article_id comment_user_id comment_username comment_text comment_id].
    repeat split.
Qed.

End CommentFacts.

Lemma deleteComment_served (c u : string) (w : World) :
  served w ->
  exists w',
    deleteComment c u w = (Ok tt, w')
    /\ db_comments (store w')
       = List.filter
           (fun r => negb (bool_decide (comment_id r = c)
                           && bool_decide (comment_user_id r = u)))
           (db_comments (store w))
    /\ served w'.
Proof.
  intros Hs. unfold deleteComment. served_step E Hst Hsu Hlog Hs'.
  cbn [delete_comment_of fst snd error no_data ret] in *.
  exists w0. split; [reflexivity|]. split; [rewrite Hst; reflexivity|exact Hs'].
Qed.

Section CommentRoundTrip.

Variable latest_first : list CommentRow -> list CommentRow.
Variable Date_getTime : string -> float.
Variable clock : nat -> string.
Variable ensureUserExists : User -> M unit.

Hypothesis latest_first_perm : forall l, Permutation (latest_first l) l.

Lemma addComment_served (a : string) (user : User) (text : string) (u : unit)
  (w w1 : World) :
  isValidUUID (Some a) = true -> ensureUserExists user w = (Ok u, w1) -> served w1 ->
  let row := {| comment_id := uuid_of_nat (supply w1); comment_article_id := a;
                comment_user_id := user_ident user;
                comment_username := username user;
                comment_text := text; comment_created_at := clock (supply w1) |} in
  exists w2,
    addComment Date_getTime clock ensureUserExists a user text w
    = (Ok (comment_of Date_getTime row), w2)
    /\ db_comments (store w2) = db_comments (store w1) ++ [row]
    /\ served w2.
Proof.
  intros Hvalid Hensure Hs row. unfold addComment. rewrite Hvalid. cbn [negb].
  rewrite (bind_ok _ _ w u w1 Hensure).
  served_step E Hst Hsu Hlog Hs'.
  cbn [insert_comment fst snd error data answered ret] in *.
  exists w0. split; [reflexivity|]. split; [rewrite Hst; reflexivity|exact Hs'].
Qed.

Lemma In_comments_read (a : string) (row : CommentRow) (w : World) :
  In (comment_of Date_getTime row)
    (map (comment_of Date_getTime)
       (latest_first
          (List.filter (fun r => bool_decide (comment_article_id r = a))
             (db_comments (store w)))))
  <-> exists row',
        In row' (db_comments (store w)) /\ comment_article_id row' = a
        /\ comment_of Date_getTime row' = comment_of Date_getTime row.
Proof.
  rewrite in_map_iff. split.
  - intros (row' & Heq & Hin).
    apply (Permutation_in _ (latest_first_perm _)), List.filter_In in Hin as [Hin Ha].
    apply bool_decide_eq_true in Ha. exists row'. repeat split; assumption.
  - intros (row' & Hin & Ha & Heq). exists row'. split; [exact Heq|].
    apply (Permutation_in _ (Permutation_sym (latest_first_perm _))).
    apply List.filter_In. split; [exact Hin|]. apply bool_decide_eq_true. exact Ha.
Qed.

(** X22.  A comment's round trip.  When [ensureUserExists] returns and the
    store serves the requests, [addComment] on a UUID returns a comment
    that [getComments] of the article then lists; after the author's
    [deleteComment] on it [getComments] lists it no more, whereas after
    anybody else's [deleteComment] it is still listed. *)
Theorem comment_round_trip (articleId : string) (user : User) (text : string)
  (u : unit) (w w1 : World) :
  isValidUUID (Some articleId) = true ->
  ensureUserExists user w = (Ok u, w1) ->
  served w1 ->
  exists c w2,
    addComment Date_getTime clock ensureUserExists articleId user text w = (Ok c, w2)
    /\ (exists out w3,
          getComments latest_first Date_getTime articleId w2 = (Ok out, w3)
          /\ In c out)
    /\ (exists w3 out w4,
          deleteComment (Comment.id c) (user_ident user) w2 = (Ok tt, w3)
          /\ getComments latest_first Date_getTime articleId w3 = (Ok out, w4)
          /\ ~ In c out)
    /\ (forall stranger, stranger <> user_ident user ->
          exists w3 out w4,
            deleteComment (Comment.id c) stranger w2 = (Ok tt, w3)
            /\ getComments latest_first Date_getTime articleId w3 = (Ok out, w4)
            /\ In c out).
Proof.
  intros Hvalid Hensure Hs1.
  destruct (addComment_served articleId user text u w w1 Hvalid Hensure Hs1)
    as (w2 & Hadd & Hdb & Hs2).
  set (row := {| comment_id := uuid_of_nat (supply w1);
                 comment_article_id := articleId;
                 comment_user_id := user_ident user;
                 comment_username := username user;
                 comment_text := text;
                 comment_created_at := clock (supply w1) |}) in *.
  exists (comment_of Date_getTime row), w2. split; [exact Hadd|].
  split; [|split].
  - destruct (getComments_served latest_first Date_getTime articleId w2 Hvalid Hs2)
      as (w3 & Hget & _).
    eexists _, w3. split; [exact Hget|].
    apply In_comments_read. exists row. rewrite Hdb.
    split; [apply in_or_app; right; left; reflexivity|]. split; reflexivity.
  - destruct (deleteComment_served (comment_id row) (user_ident user) w2 Hs2)
      as (w3 & Hdel & Hdb3 & Hs3).
    destruct (getComments_served latest_first Date_getTime articleId w3 Hvalid Hs3)
      as (w4 & Hget & _).
    eexists w3, _, w4. split; [exact Hdel|]. split; [exact Hget|].
    rewrite In_comments_read. intros (row' & Hin & _ & Heq).
    rewrite Hdb3 in Hin. apply List.filter_In in Hin as [_ Hkeep].
    apply (f_equal Comment.id) in Heq as Hid.
    apply (f_equal Comment.userId) in Heq as Huser.
    cbn [comment_of Comment.id Comment.userId] in Hid, Huser.
    rewrite !bool_decide_eq_true_2 in Hkeep by assumption. discriminate.
  - intros stranger Hstranger.
    destruct (deleteComment_served (comment_id row) stranger w2 Hs2)
      as (w3 & Hdel & Hdb3 & Hs3).
    destruct (getComments_served latest_first Date_getTime articleId w3 Hvalid Hs3)
      as (w4 & Hget & _).
    eexists w3, _, w4. split; [exact Hdel|]. split; [exact Hget|].
    apply In_comments_read. exists row. rewrite Hdb3, Hdb.
    split; [|split; reflexivity].
    apply List.filter_In. split; [apply in_or_app; right; left; reflexivity|].
    cbn [row comment_user_id].
    rewrite (bool_decide_eq_false_2 (user_ident user = stranger)) by congruence.
    rewrite andb_false_r. reflexivity.
Qed.

End CommentRoundTrip.

Lemma latest_first_rev_perm (l : list CommentRow) : Permutation (Scene.latest_first l) l.
Proof. unfold Scene.latest_first. apply Permutation_sym, Permutation_rev. Defined.

(** [getComments_outcome] at work, on the store with one comment. *)
Lemma getComments_witness :
  (forall l, Permutation (Scene.latest_first l) l)
  /\ exists out w',
       getComments Scene.latest_first Scene.getTime Sample.durable_id Sample.commented
       = (Ok out, w')
       /\ store w' = store Sample.commented
       /\ (isValidUUID (Some Sample.durable_id) = false ->
           out = [] /\ w' = Sample.commented)
       /\ (next_served Sample.commented = false -> out = [])
       /\ (isValidUUID (Some Sample.durable_id) = true ->
           next_served Sample.commented = true ->
           Permutation out
             (map (comment_of Scene.getTime)
                (List.filter
                   (fun r => bool_decide (comment_article_id r = Sample.durable_id))
                   (db_comments (store Sample.commented))))).
Proof.
  split; [exact latest_first_rev_perm|].
  apply (getComments_outcome Scene.latest_first Scene.getTime latest_first_rev_perm
           Sample.durable_id Sample.commented).
Defined.

(** [comment_round_trip] at work: [ada] comments on the sample article. *)
Lemma comment_round_trip_witness :
  (forall l, Permutation (Scene.latest_first l) l)
  /\ isValidUUID (Some Sample.durable_id) = true
  /\ Scene.ensureUserExists Sample.ada Sample.start = (Ok tt, Sample.start)
  /\ served Sample.start
  /\ exists c w2,
       addComment Scene.getTime Scene.clock Scene.ensureUserExists Sample.durable_id
         Sample.ada "Bello!" Sample.start = (Ok c, w2)
       /\ (exists out w3,
             getComments Scene.latest_first Scene.getTime Sample.durable_id w2
             = (Ok out, w3)
             /\ In c out)
       /\ (exists w3 out w4,
             deleteComment (Comment.id c) (user_ident Sample.ada) w2 = (Ok tt, w3)
             /\ getComments Scene.latest_first Scene.getTime Sample.durable_id w3
                = (Ok out, w4)
             /\ ~ In c out)
       /\ (forall stranger, stranger <> user_ident Sample.ada ->
             exists w3 out w4,
               deleteComment (Comment.id c) stranger w2 = (Ok tt, w3)
               /\ getComments Scene.latest_first Scene.getTime Sample.durable_id w3
                  = (Ok out, w4)
               /\ In c out).
Proof.
  split; [exact latest_first_rev_perm|]. split; [reflexivity|].
  split; [reflexivity|]. split; [exact served_start|].
  apply (comment_round_trip Scene.latest_first Scene.getTime Scene.clock
           Scene.ensureUserExists latest_first_rev_perm Sample.durable_id Sample.ada
           "Bello!" tt Sample.start Sample.start eq_refl eq_refl served_start).
Defined.

(** X23.  [performDeleteComment] in the article view.  Without a signed-in
    user it does nothing.  With one it asks [deleteComment] and, unless the
    request fails, drops every comment with that identifier from the view
    without looking at what the store did: a row of another author, or
    one the store refused to delete, stays in the store.  When the request
    fails, view and store are as before.  In every case no deletion is
    pending afterwards. *)
Theorem performDeleteComment_outcome (user : User) (commentId : string)
  (s : DetailState) (w : World) :
  performDeleteComment None commentId s w = (Ok s, w)
  /\ exists s' w',
       performDeleteComment (Some user) commentId s w = (Ok s', w')
       /\ deletingCommentId s' = None
       /\ comments s'
          = match hd Serve (answers w) with
            | Throw => comments s
            | _ => List.filter (fun c => negb (bool_decide (Comment.id c = commentId)))
                     (comments s)
            end
       /\ (next_served w = false -> store w' = store w)
       /\ forall row,
            In row (db_comments (store w)) ->
            comment_id row = commentId ->
            comment_user_id row <> user_ident user ->
            In row (db_comments (store w')).
Proof.
  split; [reflexivity|].
  unfold performDeleteComment, try_catch, bind, deleteComment, bind, send, ret,
    next_served.
  destruct (hd Serve (answers w)); cbn [delete_comment_of error no_data refused];
    eexists _, _; (split; [reflexivity|]); cbn [deletingCommentId comments store];
    (split; [reflexivity|]); (split; [reflexivity|]);
    (split; [try discriminate; try reflexivity|]); try (intros; assumption).
  intros row Hin Hid Huser. cbn [set_comments db_comments].
  apply List.filter_In. split; [exact Hin|].
  rewrite (bool_decide_eq_false_2 (comment_user_id row = user_ident user)) by exact Huser.
  rewrite andb_false_r. reflexivity.
Qed.

(* ===================================================================== *)
(** ** The favorite articles *)
(* ===================================================================== *)

Section FavoriteArticlesFacts.

Variable recent_first : list PairRow -> list PairRow.

(** Ordering the rows neither drops nor adds one. *)
Hypothesis recent_first_perm : forall l, Permutation (recent_first l) l.

Lemma In_omap_favorite (items : list (string * option ArticleRow)) (a : Article) :
  In a (omap (fun item => option_map favorite_article (snd item)) items)
  <-> exists i r, In (i, Some r) items /\ a = favorite_article r.
Proof.
  rewrite <- list_elem_of_In, list_elem_of_omap. split.
  - intros ([i [r|]] & Hin & Heq); cbn in Heq; [|discriminate].
    injection Heq as <-. exists i, r. split; [apply list_elem_of_In, Hin|reflexivity].
  - intros (i & r & Hin & ->). exists (i, Some r).
    split; [apply list_elem_of_In, Hin|reflexivity].
Qed.

(** X24.  [getUserFavoriteArticles] never rejects and never changes the
    store; for an empty user id it sends nothing and answers with the
    empty list, and so it answers when the request is refused or fails.
    Otherwise it returns one article, with both counts at zero, for each
    favorite row of the user whose article is in the store, so that every
    article returned is a favorite of the user and every favorite whose
    article exists is returned; favorites whose article is missing are
    left out. *)
Theorem getUserFavoriteArticles_outcome (userId : string) (w : World) :
  exists out w',
    getUserFavoriteArticles recent_first userId w = (Ok out, w')
    /\ store w' = store w
    /\ (Str.nonempty userId = false -> out = [] /\ w' = w)
    /\ (next_served w = false -> out = [])
    /\ (forall a, In a out ->
          likeCount a = Count 0 /\ dislikeCount a = Count 0
          /\ exists r,
               In r (db_articles (store w))
               /\ a = favorite_article r
               /\ has_pair Favorites (row_id r) userId (store w) = true)
    /\ (Str.nonempty userId = true -> next_served w = true ->
        forall r,
          In r (db_articles (store w)) ->
          has_pair Favorites (row_id r) userId (store w) = true ->
          exists a, In a out /\ id a = Some (row_id r)).
Proof.
  unfold getUserFavoriteArticles, next_served.
  destruct (Str.nonempty userId); cbn [negb].
  2:{ exists [], w. repeat split; try reflexivity; try discriminate;
      intros; try discriminate; contradiction. }
  unfold try_catch, bind, send, ret.
  destruct (hd Serve (answers w)).
  2,3: eexists [], _; split; [reflexivity|]; cbn [store];
       repeat split; try reflexivity; try discriminate;
       intros; try discriminate; contradiction.
  unfold select_favorites. cbn [error data answered].
  set (items := map _ (recent_first _)).
  assert (Hitems : forall i r,
             In (i, Some r) items ->
             In r (db_articles (store w)) /\ row_id r = i
             /\ has_pair Favorites i userId (store w) = true).
  { intros i r Hin. unfold items in Hin. apply in_map_iff in Hin as (f & Heq & Hf).
    injection Heq as <- Hfind.
    apply (Permutation_in _ (recent_first_perm _)), List.filter_In in Hf as [Hf Hu].
    apply bool_decide_eq_true in Hu.
    apply find_some in Hfind as [Hr Hid]. apply bool_decide_eq_true in Hid.
    split; [exact Hr|]. split; [exact Hid|].
    unfold has_pair. apply existsb_exists. exists f. split; [exact Hf|].
    apply same_pair_true. split; [reflexivity|exact Hu]. }
  exists (omap (fun item => option_map favorite_article (snd item)) items).
  eexists. split.
  { destruct items; reflexivity. }
  cbn [store]. split; [reflexivity|]. split; [discriminate|]. split; [discriminate|].
  split.
  - intros a Ha. apply In_omap_favorite in Ha as (i & r & Hin & ->).
    split; [reflexivity|]. split; [reflexivity|].
    destruct (Hitems i r Hin) as (Hr & <- & Hfav). exists r. repeat split; assumption.
  - intros _ _ r Hr Hfav. unfold has_pair in Hfav.
    apply existsb_exists in Hfav as (f & Hf & Hsame).
    apply same_pair_true in Hsame as [Ha Hu].
    destruct (List.find (fun x => bool_decide (row_id x = article_id f))
                (db_articles (store w))) as [r'|] eqn:Hfind.
    + apply find_some in Hfind as Hfound. destruct Hfound as [_ Hid].
      apply bool_decide_eq_true in Hid.
      exists (favorite_article r'). split; [|cbn [favorite_article id]; congruence].
      apply In_omap_favorite. exists (article_id f), r'. split; [|reflexivity].
      unfold items. apply in_map_iff. exists f. rewrite Hfind. split; [reflexivity|].
      apply (Permutation_in _ (Permutation_sym (recent_first_perm _))).
      apply List.filter_In. split; [exact Hf|]. apply bool_decide_eq_true. exact Hu.
    + exfalso. apply (find_none _ _ Hfind r) in Hr.
      apply bool_decide_eq_false in Hr. apply Hr. symmetry. exact Ha.
Qed.

End FavoriteArticlesFacts.

Lemma recent_first_rev_perm (l : list PairRow) : Permutation (Scene.recent_first l) l.
Proof. unfold Scene.recent_first. apply Permutation_sym, Permutation_rev. Defined.

(** [getUserFavoriteArticles_outcome] at work: one favorite, its article
    in the store. *)
Lemma getUserFavoriteArticles_witness :
  (forall l, Permutation (Scene.recent_first l) l)
  /\ exists out w',
       getUserFavoriteArticles Scene.recent_first "user-1" Scene.kept = (Ok out, w')
       /\ store w' = store Scene.kept
       /\ (Str.nonempty "user-1" = false -> out = [] /\ w' = Scene.kept)
       /\ (next_served Scene.kept = false -> out = [])
       /\ (forall a, In a out ->
             likeCount a = Count 0 /\ dislikeCount a = Count 0
             /\ exists r,
                  In r (db_articles (store Scene.kept))
                  /\ a = favorite_article r
                  /\ has_pair Favorites (row_id r) "user-1" (store Scene.kept) = true)
       /\ (Str.nonempty "user-1" = true -> next_served Scene.kept = true ->
           forall r,
             In r (db_articles (store Scene.kept)) ->
             has_pair Favorites (row_id r) "user-1" (store Scene.kept) = true ->
             exists a, In a out /\ id a = Some (row_id r)).
Proof.
  split; [exact recent_first_rev_perm|].
  apply (getUserFavoriteArticles_outcome Scene.recent_first recent_first_rev_perm
           "user-1" Scene.kept).
Defined.

(* ===================================================================== *)
(** ** Loading the news *)
(* ===================================================================== *)

Lemma enrich_ok (l : list Article) (w : World) :
  exists out w',
    enrichArticlesWithCounts l w = (Ok out, w')
    /\ Forall2 same_but_counts l out.
Proof.
  assert (Hself : Forall2 same_but_counts l l).
  { rewrite <- (map_id l) at 2. apply Forall2_map_self. intros a _.
    repeat split. }
  unfold enrichArticlesWithCounts.
  destruct (length (omap (fun a => truthy (id a)) l) =? 0)%nat;
    [exists l, w; split; [reflexivity|exact Hself]|].
  unfold try_catch, bind, ret.
  destruct (getBatchCounts _ w) as [[c|] w'].
  - eexists _, w'. split; [reflexivity|].
    apply Forall2_map_self. intros a _. repeat split.
  - exists l, w'. split; [reflexivity|exact Hself].
Qed.

(** Refreshing the counts writes nothing. *)
Lemma enrich_keeps_store (l : list Article) (w : World) :
  store (snd (enrichArticlesWithCounts l w)) = store w.
Proof.
  unfold enrichArticlesWithCounts. destruct (_ =? _)%nat; [reflexivity|].
  unfold try_catch, bind, ret.
  pose proof (getBatchCounts_keeps_store (omap (fun a => truthy (id a)) l) w) as H.
  destruct (getBatchCounts _ w) as [[c|] w']; exact H.
Qed.

Section NewsFacts.

Variable URL_new : string -> option URL.
Variable newest_first : list ArticleRow -> list ArticleRow.
Variable created_on : ArticleRow -> string.
Variable fetchPositiveNews : string -> string -> M (list Article).

Lemma getCachedArticles_ok (label : string) (w : World) :
  exists out w', getCachedArticles URL_new newest_first created_on label w = (Ok out, w').
Proof.
  unfold getCachedArticles, try_catch, bind, send, ret.
  destruct (hd Serve (answers w)); [|eexists _, _; reflexivity..].
  unfold select_category. cbn [error data answered lift].
  rewrite mapArticles_firsts. eexists _, _. reflexivity.
Qed.

Lemma saveArticles_ok (label : string) (l : list Article) (w : World) :
  exists saved w', saveArticles URL_new label l w = (Ok saved, w').
Proof.
  rewrite saveArticles_runs_save_each.
  set (uniq := first_occurrences (key_of URL_new) [] (List.filter has_url l)).
  destruct (first_occurrences_NoDup URL_new (List.filter has_url l) []) as [Hnd _].
  fold uniq in Hnd.
  destruct (save_each_spec URL_new
              (Str.trim (Str.or_else (Some label) "Generale")) uniq
              (NoDup_keys_urls URL_new uniq Hnd) [] w)
    as (saved & w' & Hsave & _).
  exists saved, w'. exact Hsave.
Qed.

(** X25.  [fetchNews] never rejects.  Called while the favorites are on
    screen it does nothing.  Otherwise it ends with [loading] off, whatever
    the store and the news service did, and touches neither the user, the
    favorites, the open article nor the login dialog; and when the news
    service throws on a forced reload, the articles and the notification
    are as before. *)
Theorem fetchNews_settles (currentRequestMode query label : string)
  (forceAi : bool) (s : AppState) (w : World) :
  fetchNews URL_new newest_first created_on fetchPositiveNews
    "favorites" query label forceAi s w = (Ok s, w)
  /\ (currentRequestMode <> "favorites" ->
      (exists s' w',
         fetchNews URL_new newest_first created_on fetchPositiveNews
           currentRequestMode query label forceAi s w = (Ok s', w')
         /\ loading s' = false
         /\ currentUser s' = currentUser s
         /\ favoriteArticleIds s' = favoriteArticleIds s
         /\ selectedArticle s' = selectedArticle s
         /\ showLoginModal s' = showLoginModal s)
      /\ (forall w1, fetchPositiveNews query label w = (Thrown, w1) ->
            exists s',
              fetchNews URL_new newest_first created_on fetchPositiveNews
                currentRequestMode query label true s w = (Ok s', w1)
              /\ articles s' = articles s
              /\ notification s' = notification s
              /\ loading s' = false)).
Proof.
  split; [reflexivity|]. intros Hmode. unfold fetchNews.
  rewrite (bool_decide_eq_false_2 _ Hmode). split.
  - unfold try_catch, bind at 1.
    match goal with
    | |- context [bind ?m ?k w] => destruct (bind m k w) as [[s2|] w2] eqn:Hbody
    end.
    + unfold ret. eexists _, _. split; [reflexivity|]. cbn [setLoading loading
        currentUser favoriteArticleIds selectedArticle showLoginModal].
      split; [reflexivity|].
      revert Hbody. unfold bind at 1.
      destruct forceAi; cbn [negb].
      * unfold ret at 1. unfold bind.
        destruct (fetchPositiveNews query label w) as [[ai|] w1]; [|discriminate].
        destruct (negb (length ai =? 0)%nat).
        -- destruct (saveArticles_ok label ai w1) as (saved & w3 & ->).
           destruct (enrich_ok (map as_new saved) w3) as (final & w4 & -> & _).
           unfold ret. intros H. injection H as <- _. repeat split.
        -- unfold ret. intros H. injection H as <- _. repeat split.
      * unfold bind at 1.
        destruct (getCachedArticles_ok label w) as (cached & w1 & ->).
        destruct (negb (length cached =? 0)%nat).
        -- unfold bind at 1.
           destruct (enrich_ok cached w1) as (final & w2' & -> & _).
           unfold ret at 1 2. intros H. injection H as <- _. repeat split.
        -- unfold ret at 1. unfold bind.
           destruct (fetchPositiveNews query label w1) as [[ai|] w3]; [|discriminate].
           destruct (negb (length ai =? 0)%nat).
           ++ destruct (saveArticles_ok label ai w3) as (saved & w4 & ->).
              destruct (enrich_ok (map as_new saved) w4) as (final & w5 & -> & _).
              unfold ret. intros H. injection H as <- _. repeat split.
           ++ unfold ret. intros H. injection H as <- _. repeat split.
    + unfold ret. eexists _, _. split; [reflexivity|]. repeat split.
  - intros w1 Hthrow. cbn [negb]. unfold try_catch, bind, ret. rewrite Hthrow.
    eexists. split; [reflexivity|]. repeat split.
Qed.

End NewsFacts.

Section NewsPaths.

Variable URL_new : string -> option URL.
Variable newest_first : list ArticleRow -> list ArticleRow.
Variable created_on : ArticleRow -> string.
Variable fetchPositiveNews : string -> string -> M (list Article).

(** X26.  The cache comes first.  When no reload is forced and
    [getCachedArticles] finds articles under the label, [fetchNews] shows
    them with their counts refreshed and stops: the news service is not
    asked and nothing is saved, the world being the one the counting
    left. *)
Theorem fetchNews_prefers_cache (currentRequestMode query label : string)
  (s : AppState) (w w1 : World) (cached : list Article) :
  currentRequestMode <> "favorites" ->
  getCachedArticles URL_new newest_first created_on label w = (Ok cached, w1) ->
  cached <> [] ->
  exists finalArticles w2 s',
    enrichArticlesWithCounts cached w1 = (Ok finalArticles, w2)
    /\ fetchNews URL_new newest_first created_on fetchPositiveNews
         currentRequestMode query label false s w = (Ok s', w2)
    /\ articles s' = finalArticles
    /\ Forall2 same_but_counts cached finalArticles
    /\ loading s' = false
    /\ notification s' = notification s.
Proof.
  intros Hmode Hcache Hne. unfold fetchNews.
  rewrite (bool_decide_eq_false_2 _ Hmode). cbn [negb].
  destruct (enrich_ok cached w1) as (final & w2 & Henrich & Hsame).
  exists final, w2. eexists. split; [exact Henrich|].
  unfold try_catch, bind. rewrite Hcache.
  destruct cached as [|a0 rest]; [contradiction|]. cbn [length Nat.eqb negb].
  rewrite Henrich. unfold ret. split; [reflexivity|].
  repeat split. exact Hsame.
Qed.

(** X27.  What the news service brings is saved before it is shown.  On a
    forced reload, when the service returns articles, [fetchNews] saves
    them under the label and shows what the save returned, marked as new
    and with counts refreshed; when it returns none, the articles stay and
    the toast says so. *)
Theorem fetchNews_saves_news (currentRequestMode query label : string)
  (s : AppState) (w w1 : World) (aiArticles : list Article) :
  currentRequestMode <> "favorites" ->
  fetchPositiveNews query label w = (Ok aiArticles, w1) ->
  (aiArticles = [] ->
   exists s',
     fetchNews URL_new newest_first created_on fetchPositiveNews
       currentRequestMode query label true s w = (Ok s', w1)
     /\ articles s' = articles s
     /\ notification s' = Some "Nessuna nuova notizia trovata ora."
     /\ loading s' = false)
  /\ (aiArticles <> [] ->
      exists saved w2 finalArticles w3 s',
        saveArticles URL_new label aiArticles w1 = (Ok saved, w2)
        /\ enrichArticlesWithCounts (map as_new saved) w2 = (Ok finalArticles, w3)
        /\ fetchNews URL_new newest_first created_on fetchPositiveNews
             currentRequestMode query label true s w = (Ok s', w3)
        /\ articles s' = finalArticles
        /\ Forall2 (fun a b => id b = id a /\ url b = url a /\ isNew b = Some true)
             saved finalArticles
        /\ loading s' = false
        /\ notification s' = notification s).
Proof.
  intros Hmode Hnews. unfold fetchNews.
  rewrite (bool_decide_eq_false_2 _ Hmode). cbn [negb]. split.
  - intros ->. unfold try_catch, bind, ret. rewrite Hnews. cbn [length Nat.eqb negb].
    eexists. split; [reflexivity|]. repeat split.
  - intros Hne.
    destruct (saveArticles_ok URL_new label aiArticles w1) as (saved & w2 & Hsave).
    destruct (enrich_ok (map as_new saved) w2) as (final & w3 & Henrich & Hsame).
    exists saved, w2, final, w3. eexists. split; [exact Hsave|]. split; [exact Henrich|].
    unfold try_catch, bind, ret. rewrite Hnews.
    destruct aiArticles as [|a0 rest]; [contradiction|]. cbn [length Nat.eqb negb].
    rewrite Hsave, Henrich. split; [reflexivity|]. split; [reflexivity|].
    split; [|split; reflexivity].
    clear -Hsame. revert final Hsame.
    induction saved as [|a saved IH]; intros final Hsame; inversion Hsame; subst;
      constructor.
    + match goal with H : same_but_counts _ _ |- _ => 
        destruct H as (Hid & Hurl & _ & _ & _ & _ & _ & _ & _ & _ & Hnew) end.
      cbn [as_new id url isNew] in *. repeat split; assumption.
    + apply IH. assumption.
Qed.

End NewsPaths.

(** [fetchNews_prefers_cache] at work: an article in the store, a news
    service out of order. *)
Lemma fetchNews_prefers_cache_witness :
  "news" <> "favorites"
  /\ cached_sample <> []
  /\ exists finalArticles w2 s',
       enrichArticlesWithCounts cached_sample
         (snd (getCachedArticles Platform.URL_basic Scene.oldest_last Scene.a_day
                 "Generale" Sample.stored))
       = (Ok finalArticles, w2)
       /\ fetchNews Platform.URL_basic Scene.oldest_last Scene.a_day Scene.no_news
            "news" "buone notizie" "Generale" false (Sample.session None) Sample.stored
          = (Ok s', w2)
       /\ articles s' = finalArticles
       /\ Forall2 same_but_counts cached_sample finalArticles
       /\ loading s' = false
       /\ notification s' = notification (Sample.session None).
Proof.
  split; [discriminate|]. split; [discriminate|].
  apply (fetchNews_prefers_cache Platform.URL_basic Scene.oldest_last Scene.a_day
           Scene.no_news "news" "buone notizie" "Generale" (Sample.session None)
           Sample.stored); [discriminate|reflexivity|discriminate].
Defined.

(** [fetchNews_saves_news] at work: one article from the news service. *)
Lemma fetchNews_saves_news_witness :
  "news" <> "favorites"
  /\ Scene.one_news "buone notizie" "Tech" Sample.start
     = (Ok [Sample.news None "https://x.com/b"], Sample.start)
  /\ [Sample.news None "https://x.com/b"] <> []
  /\ exists saved w2 finalArticles w3 s',
       saveArticles Platform.URL_basic "Tech" [Sample.news None "https://x.com/b"]
         Sample.start = (Ok saved, w2)
       /\ enrichArticlesWithCounts (map as_new saved) w2 = (Ok finalArticles, w3)
       /\ fetchNews Platform.URL_basic Scene.oldest_last Scene.a_day Scene.one_news
            "news" "buone notizie" "Tech" true (Sample.session None) Sample.start
          = (Ok s', w3)
       /\ articles s' = finalArticles
       /\ Forall2 (fun a b => id b = id a /\ url b = url a /\ isNew b = Some true)
            saved finalArticles
       /\ loading s' = false
       /\ notification s' = notification (Sample.session None).
Proof.
  split; [discriminate|]. split; [reflexivity|]. split; [discriminate|].
  apply (proj2 (fetchNews_saves_news Platform.URL_basic Scene.oldest_last Scene.a_day
                  Scene.one_news "news" "buone notizie" "Tech" (Sample.session None)
                  Sample.start Sample.start [Sample.news None "https://x.com/b"]
                  ltac:(discriminate) eq_refl)).
  discriminate.
Defined.

(* ===================================================================== *)
(** ** The identifiers the store hands out *)
(* ===================================================================== *)

Lemma length_append (a b : string) :
  String.length (a +:+ b) = String.length a + String.length b.
Proof.
  induction a as [|c a IH]; [reflexivity|].
  rewrite append_cons. cbn [String.length]. rewrite IH. reflexivity.
Qed.

Lemma hex_digit_hex (d : nat) : d < 16 -> Re.hex (hex_digit d) = true.
Proof.
  intros Hd. do 16 (destruct d as [|d]; [reflexivity|]). lia.
Qed.

Lemma hex_digits_shape (k n : nat) :
  String.length (hex_digits k n) = k /\ Str.all Re.hex (hex_digits k n) = true.
Proof.
  revert n. induction k as [|k IH]; intros n; cbn [hex_digits]; [split; reflexivity|].
  destruct (IH (n / 16)) as [Hlen Hall].
  rewrite length_append, all_append, Hlen, Hall. cbn [String.length Str.all].
  rewrite hex_digit_hex by (apply Nat.mod_upper_bound; lia).
  split; [lia|reflexivity].
Qed.

(** Every identifier of the store passes [isValidUUID]. *)
Lemma uuid_of_nat_valid (n : nat) : isValidUUID (Some (uuid_of_nat n)) = true.
Proof.
  unfold uuid_of_nat. destruct (hex_digits_shape 12 n) as [Hlen Hall].
  generalize dependent (hex_digits 12 n). intros t Hlen Hall.
  assert (Htest : Re.test uuid_pattern ("00000000-0000-0000-0000-" +:+ t)
                  = match Re.eat Re.hex 12 t with
                    | Some r => negb (Str.nonempty r)
                    | None => false
                    end) by reflexivity.
  unfold isValidUUID.
  replace (Str.nonempty ("00000000-0000-0000-0000-" +:+ t)) with true by reflexivity.
  rewrite Htest, <- Hlen, (eat_all _ _ Hall). reflexivity.
Qed.

Lemma toggle_keeps_articles (mine other : pair_table) (a u : string) (w : World) :
  mine <> other -> isValidUUID (Some a) = true -> served w ->
  db_articles (store (snd (toggle mine other a u w))) = db_articles (store w)
  /\ db_comments (store (snd (toggle mine other a u w))) = db_comments (store w).
Proof.
  intros Hne Hvalid Hs.
  destruct (toggle_served mine other a u w Hne Hvalid Hs) as (w' & _ & _ & Hrun).
  destruct (List.filter (same_pair a u) (pairs mine (store w))) as [|r [|r' l]];
    destruct Hrun as (Hrun & Hst & _); rewrite Hrun; cbn [snd]; rewrite Hst;
    destruct mine, other, (store w); split; reflexivity.
Qed.

Section VoteOnUnsaved.

Variable URL_new : string -> option URL.

(** X28.  A like on an article that is not saved yet.  For a signed-in
    user and an article with a URL but no durable-shaped [id], in a store
    that serves the requests, has no row for the URL and no like under the
    identifier it is about to hand out, [handleLike] first saves the
    article and then records the like under the new identifier; on screen,
    every article with that URL ends with the new identifier and with the
    counts of the store. *)
Theorem like_on_unsaved_article (article : Article) (user : User) (s : AppState)
  (w : World) :
  currentUser s = Some user ->
  durable_shaped article = false ->
  has_url article = true ->
  served w ->
  rows_at (url article) (store w) = [] ->
  has_pair Likes (uuid_of_nat (supply w)) (user_ident user) (store w) = false ->
  exists s' w',
    handleLike URL_new article s w = (Ok s', w')
    /\ db_articles (store w')
       = db_articles (store w)
         ++ [{| row_id := uuid_of_nat (supply w);
                row_data := row_of "Generale" article |}]
    /\ has_pair Likes (uuid_of_nat (supply w)) (user_ident user) (store w') = true
    /\ votes_on Likes (uuid_of_nat (supply w)) (store w')
       = S (votes_on Likes (uuid_of_nat (supply w)) (store w))
    /\ forall a', In a' (articles s') -> url a' = url article ->
         id a' = Some (uuid_of_nat (supply w))
         /\ likeCount a' = Count (votes_on Likes (uuid_of_nat (supply w)) (store w'))
         /\ dislikeCount a'
            = Count (votes_on Dislikes (uuid_of_nat (supply w)) (store w')).
Proof.
  intros Huser Hshape Hurl Hs Hnone Hfresh.
  set (i := uuid_of_nat (supply w)) in *.
  assert (Hvalid : isValidUUID (Some i) = true) by apply uuid_of_nat_valid.
  destruct (ensureArticleSaved_new URL_new article w Hshape Hs Hnone Hurl)
    as (w1 & Hsave & Hdb & Hpairs & Hs1). fold i in Hsave, Hdb.
  assert (Hfresh1 : has_pair Likes i (user_ident user) (store w1) = false)
    by (unfold has_pair; rewrite Hpairs; exact Hfresh).
  destruct (toggle_adds Likes Dislikes i (user_ident user) w1 ltac:(discriminate)
              Hvalid Hs1 Hfresh1)
    as (w2 & Htoggle & _ & Hliked & _ & Hup & _).
  destruct (toggle_keeps_articles Likes Dislikes i (user_ident user) w1
              ltac:(discriminate) Hvalid Hs1) as [Harts _].
  rewrite Htoggle in Harts. cbn [snd] in Harts.
  destruct (vote_then_count Likes Dislikes i (user_ident user)
              (fun n => showToast "Grazie per il tuo feedback positivo! ✨"
                          (handleArticleUpdate (voted article i (fst n) (snd n)) s))
              (ret s) w1 ltac:(discriminate) Hvalid Hs1)
    as (b & w2' & w' & Hb & Hrun & Hst & _).
  rewrite Htoggle in Hb. injection Hb as <- <-.
  unfold handleLike. rewrite Huser, (bind_ok _ _ w _ w1 Hsave), (uuid_truthy i Hvalid).
  eexists _, w'. split; [exact Hrun|]. rewrite Hst.
  split; [rewrite Harts; exact Hdb|]. split; [exact Hliked|].
  split.
  { rewrite Hup. unfold votes_on. rewrite Hpairs. reflexivity. }
  cbn [showToast articles handleArticleUpdate fst snd].
  intros a' Ha' Hsame. apply in_map_iff in Ha' as (a0 & <- & _).
  destruct (same_article a0 (voted article i _ _)) eqn:Hmatch.
  - cbn [spread id likeCount dislikeCount voted over]. repeat split.
  - exfalso. unfold same_article in Hmatch. cbn [voted url] in Hmatch.
    rewrite (bool_decide_eq_true_2 (url a0 = url article)) in Hmatch by exact Hsame.
    rewrite orb_true_r in Hmatch. discriminate.
Qed.

End VoteOnUnsaved.

(** [like_on_unsaved_article] at work: [ada] likes the article on screen
    before it was ever saved. *)
Lemma like_on_unsaved_witness :
  currentUser (Sample.session (Some Sample.ada)) = Some Sample.ada
  /\ durable_shaped (Sample.news None "https://x.com/a") = false
  /\ has_url (Sample.news None "https://x.com/a") = true
  /\ served Sample.start
  /\ rows_at (url (Sample.news None "https://x.com/a")) (store Sample.start) = []
  /\ has_pair Likes (uuid_of_nat (supply Sample.start)) (user_ident Sample.ada)
       (store Sample.start) = false
  /\ exists s' w',
       handleLike Platform.URL_basic (Sample.news None "https://x.com/a")
         (Sample.session (Some Sample.ada)) Sample.start = (Ok s', w')
       /\ db_articles (store w')
          = db_articles (store Sample.start)
            ++ [{| row_id := uuid_of_nat (supply Sample.start);
                   row_data := row_of "Generale" (Sample.news None "https://x.com/a") |}]
       /\ has_pair Likes (uuid_of_nat (supply Sample.start)) (user_ident Sample.ada)
            (store w') = true
       /\ votes_on Likes (uuid_of_nat (supply Sample.start)) (store w')
          = S (votes_on Likes (uuid_of_nat (supply Sample.start)) (store Sample.start))
       /\ forall a', In a' (articles s') ->
            url a' = url (Sample.news None "https://x.com/a") ->
            id a' = Some (uuid_of_nat (supply Sample.start))
            /\ likeCount a'
               = Count (votes_on Likes (uuid_of_nat (supply Sample.start)) (store w'))
            /\ dislikeCount a'
               = Count (votes_on Dislikes (uuid_of_nat (supply Sample.start)) (store w')).
Proof.
  split; [reflexivity|]. split; [reflexivity|]. split; [reflexivity|].
  split; [exact served_start|]. split; [reflexivity|]. split; [reflexivity|].
  apply (like_on_unsaved_article Platform.URL_basic (Sample.news None "https://x.com/a")
           Sample.ada (Sample.session (Some Sample.ada)) Sample.start);
    [reflexivity|reflexivity|reflexivity|exact served_start|reflexivity|reflexivity].
Defined.

(** [addComment_outcome] at work: the user is on record, the store serves
    the insertion. *)
Lemma addComment_witness :
  isValidUUID (Some Sample.durable_id) = true
  /\ Scene.ensureUserExists Sample.ada Sample.start = (Ok tt, Sample.start)
  /\ next_served Sample.start = true
  /\ exists row w2,
       addComment Scene.getTime Scene.clock Scene.ensureUserExists Sample.durable_id
         Sample.ada "Bello!" Sample.start
       = (Ok (comment_of Scene.getTime row), w2)
       /\ db_comments (store w2) = db_comments (store Sample.start) ++ [row]
       /\ comment_article_id row = Sample.durable_id
       /\ comment_user_id row = user_ident Sample.ada
       /\ comment_username row = username Sample.ada
       /\ comment_text row = "Bello!"
       /\ comment_id row = uuid_of_nat (supply Sample.start)
       /\ (forall t, pairs t (store w2) = pairs t (store Sample.start))
       /\ db_articles (store w2) = db_articles (store Sample.start).
Proof.
  split; [reflexivity|]. split; [reflexivity|]. split; [reflexivity|].
  apply (proj2 (proj2 (proj2 (addComment_outcome Scene.getTime Scene.clock
                                Scene.ensureUserExists Sample.durable_id Sample.ada
                                "Bello!" Sample.start) eq_refl))
           tt Sample.start eq_refl eq_refl).
Defined.

(* ===================================================================== *)
(** ** Showing the favorites *)
(* ===================================================================== *)

Lemma Forall2_same_ids (l out : list Article) :
  Forall2 same_but_counts l out ->
  omap (fun a => truthy (id a)) out = omap (fun a => truthy (id a)) l.
Proof.
  induction 1 as [|a b l out Hab _ IH]; [reflexivity|].
  destruct Hab as (Hid & _). simpl. rewrite Hid.
  destruct (truthy (id a)); [f_equal|]; exact IH.
Qed.

Section FavoritesShown.

Variable recent_first : list PairRow -> list PairRow.

Hypothesis recent_first_perm : forall l, Permutation (recent_first l) l.

(** The favorites read for a user: each is built from a stored article the
    user has a favorite row for. *)
Lemma getUserFavoriteArticles_sound (userId : string) (w : World) :
  exists out w',
    getUserFavoriteArticles recent_first userId w = (Ok out, w')
    /\ store w' = store w
    /\ (next_served w = false -> out = [])
    /\ forall a, In a out ->
         exists r, a = favorite_article r
                   /\ has_pair Favorites (row_id r) userId (store w) = true.
Proof.
  unfold getUserFavoriteArticles, next_served.
  destruct (Str.nonempty userId); cbn [negb].
  2:{ exists [], w. repeat split; intros; contradiction. }
  unfold try_catch, bind, send, ret.
  destruct (hd Serve (answers w)).
  2,3: eexists [], _; split; [reflexivity|]; cbn [store];
       repeat split; intros; contradiction.
  unfold select_favorites. cbn [error data answered].
  set (items := map _ (recent_first _)).
  exists (omap (fun item => option_map favorite_article (snd item)) items).
  eexists. split; [destruct items; reflexivity|]. cbn [store].
  split; [reflexivity|]. split; [discriminate|].
  intros a Ha. apply In_omap_favorite in Ha as (i & r & Hin & ->). exists r.
  split; [reflexivity|].
  unfold items in Hin. apply in_map_iff in Hin as (f & Heq & Hf).
  injection Heq as <- Hfind.
  apply (Permutation_in _ (recent_first_perm _)), List.filter_In in Hf as [Hf Hu].
  apply bool_decide_eq_true in Hu.
  apply find_some in Hfind as [_ Hid]. apply bool_decide_eq_true in Hid.
  unfold has_pair. apply existsb_exists. exists f. split; [exact Hf|].
  apply same_pair_true. split; [symmetry; exact Hid|exact Hu].
Qed.

End FavoritesShown.

(** X29.  The effect that fills the list, when the favorites come back in
    the order of some permutation.  (1) With [showFavoritesOnly] on and
    nobody signed in it does nothing.  (2) With [showFavoritesOnly] on and a
    user signed in it reads the user's favorites and never changes the
    store; the ref holds what it held when they arrived.  If by then the
    effect was cleaned up or the ref no longer says ['favorites'], nothing
    else is requested and the state is the one the effect started from but
    for [loading], which stays on.  If not, the effect ends with [loading]
    off, and with the client's set of favorites made anew from the articles
    it shows: an identifier is in the set exactly when an article on screen
    carries it, and every one of them is a favorite of the user in the
    store; when the request is refused or fails the list and the set end up
    empty, whatever the store holds.  (3) With [showFavoritesOnly] off the
    effect sets the ref to ['news'] and runs [fetchNews], not forced, for
    the search term if there is one, else for the value and label of the
    first category whose id is [activeCategoryId]; with no search term and no
    such category, or no active category, it only sets the ref. *)
Theorem list_effect_outcome (URL_new : string -> option URL)
  (newest_first : list ArticleRow -> list ArticleRow)
  (created_on : ArticleRow -> string)
  (fetchPositiveNews : string -> string -> M (list Article))
  (recent_first : list PairRow -> list PairRow)
  (searchTerm activeCategoryId : string) (categories : list Category)
  (isMounted : bool) (modeOnArrival currentRequestMode : string)
  (s : AppState) (w : World) :
  (forall l, Permutation (recent_first l) l) ->
  let effect :=
    list_effect URL_new newest_first created_on fetchPositiveNews recent_first
      searchTerm activeCategoryId categories isMounted modeOnArrival
      currentRequestMode in
  let fetch := fetchNews URL_new newest_first created_on fetchPositiveNews "news" in
  (showFavoritesOnly s = true -> currentUser s = None ->
   effect s w = (Ok (s, currentRequestMode), w))
  /\ (forall user,
        showFavoritesOnly s = true -> currentUser s = Some user ->
        exists s' w',
          effect s w = (Ok (s', modeOnArrival), w')
          /\ store w' = store w
          /\ (isMounted = false \/ modeOnArrival <> "favorites" ->
              s' = setLoading true s
              /\ w' = snd (getUserFavoriteArticles recent_first (user_ident user) w))
          /\ (isMounted = true -> modeOnArrival = "favorites" ->
              loading s' = false
              /\ (forall i, i ∈ favoriteArticleIds s'
                            <-> exists a, In a (articles s') /\ truthy (id a) = Some i)
              /\ (forall i, i ∈ favoriteArticleIds s' ->
                            has_pair Favorites i (user_ident user) (store w) = true)
              /\ (next_served w = false ->
                  articles s' = [] /\ favoriteArticleIds s' = ∅)))
  /\ (showFavoritesOnly s = false ->
      (Str.nonempty searchTerm = true ->
       effect s w
       = (await s' <- fetch searchTerm searchTerm false s ;; ret (s', "news")) w)
      /\ (forall cat,
            Str.nonempty searchTerm = false ->
            Str.nonempty activeCategoryId = true ->
            List.find (fun c => bool_decide (cat_id c = activeCategoryId)) categories
            = Some cat ->
            effect s w
            = (await s' <- fetch (cat_value cat) (cat_label cat) false s ;;
               ret (s', "news")) w)
      /\ (Str.nonempty searchTerm = false ->
          Str.nonempty activeCategoryId = false
          \/ List.find (fun c => bool_decide (cat_id c = activeCategoryId)) categories
             = None ->
          effect s w = (Ok (s, "news"), w))).
Proof.
  intros recent_first_perm effect fetch. unfold effect, list_effect.
  split; [|split].
  - intros -> ->. reflexivity.
  - intros user -> ->.
    destruct (getUserFavoriteArticles_sound recent_first recent_first_perm
                (user_ident user) w)
      as (favs & w1 & Hfavs & Hst1 & Hfail & Hsound).
    rewrite (bind_ok _ _ w favs w1 Hfavs).
    destruct (negb isMounted || negb (bool_decide (modeOnArrival = "favorites")))
      eqn:Hguard.
    + exists (setLoading true s), w1. split; [reflexivity|]. split; [exact Hst1|].
      split.
      * intros _. split; [reflexivity|]. rewrite Hfavs. reflexivity.
      * intros -> ->. discriminate Hguard.
    + apply orb_false_iff in Hguard as [Hm Hmode].
      apply negb_false_iff in Hm. apply negb_false_iff, bool_decide_eq_true in Hmode.
      destruct (enrich_ok favs w1) as (enriched & w2 & Henrich & Hsame).
      assert (Hst2 : store w2 = store w1).
      { pose proof (enrich_keeps_store favs w1) as H. rewrite Henrich in H. exact H. }
      rewrite (bind_ok _ _ w1 enriched w2 Henrich).
      unfold ret. eexists _, w2. split; [reflexivity|].
      split; [congruence|]. split.
      * intros [Hf|Hf]; [congruence|contradiction].
      * intros _ _.
        cbn [setLoading setFavoriteArticleIds setArticles loading favoriteArticleIds
               articles].
        split; [reflexivity|]. split; [|split].
        -- intros i. rewrite elem_of_list_to_set, list_elem_of_omap. split.
           ++ intros (a & Ha & Hi). exists a.
              split; [apply list_elem_of_In, Ha|exact Hi].
           ++ intros (a & Ha & Hi). exists a.
              split; [apply list_elem_of_In, Ha|exact Hi].
        -- intros i. rewrite elem_of_list_to_set, (Forall2_same_ids _ _ Hsame).
           rewrite list_elem_of_omap. intros (a & Ha & Hi).
           apply list_elem_of_In, Hsound in Ha as (r & -> & Hfav).
           cbn [favorite_article id truthy] in Hi.
           destruct (Str.nonempty (row_id r)); [|discriminate].
           injection Hi as <-. exact Hfav.
        -- intros Hnext. specialize (Hfail Hnext). subst favs.
           inversion Hsame; subst. split; reflexivity.
  - intros ->. split; [|split].
    + intros ->. reflexivity.
    + intros cat -> -> Hfind. rewrite Hfind.
      destruct categories as [|c l]; [discriminate Hfind|]. reflexivity.
    + intros -> [-> | Hfind]; [reflexivity|].
      rewrite Hfind. destruct (Str.nonempty activeCategoryId && _); reflexivity.
Qed.

(** [list_effect_outcome] at work: [ada] has one favorite, and its article
    is in the store.  When the favorites arrive in time her list and her
    set hold that article; when the effect was cleaned up meanwhile, or the
    ref was set to ['news'], the list is as it was and [loading] stays on. *)
Lemma list_effect_witness :
  let effect :=
    list_effect Platform.URL_basic Scene.oldest_last Scene.a_day Scene.one_news
      Scene.recent_first "" "" [] in
  (forall l, Permutation (Scene.recent_first l) l)
  /\ showFavoritesOnly Scene.asking = true
  /\ currentUser Scene.asking = Some Sample.ada
  /\ (exists s' w',
        effect true "favorites" "news" Scene.asking Scene.kept
        = (Ok (s', "favorites"), w')
        /\ store w' = store Scene.kept
        /\ loading s' = false
        /\ map id (articles s') = [Some Sample.durable_id]
        /\ favoriteArticleIds s' = {[Sample.durable_id]}
        /\ (forall i, i ∈ favoriteArticleIds s' ->
                      has_pair Favorites i "user-1" (store Scene.kept) = true))
  /\ (exists w',
        effect false "favorites" "news" Scene.asking Scene.kept
        = (Ok (setLoading true Scene.asking, "favorites"), w')
        /\ store w' = store Scene.kept)
  /\ (exists w',
        effect true "news" "news" Scene.asking Scene.kept
        = (Ok (setLoading true Scene.asking, "news"), w')
        /\ store w' = store Scene.kept).
Proof.
  intros effect.
  split; [exact recent_first_rev_perm|]. split; [reflexivity|]. split; [reflexivity|].
  split; [|split].
  - destruct (list_effect_outcome Platform.URL_basic Scene.oldest_last Scene.a_day
                Scene.one_news Scene.recent_first "" "" [] true "favorites" "news"
                Scene.asking Scene.kept recent_first_rev_perm)
      as (_ & Hfav & _).
    destruct (Hfav Sample.ada eq_refl eq_refl)
      as (s' & w' & Hrun & Hst & _ & Hshown).
    destruct (Hshown eq_refl eq_refl) as (Hload & _ & Hsound & _).
    exists s', w'. split; [exact Hrun|]. split; [exact Hst|]. split; [exact Hload|].
    assert (E := Hrun). vm_compute in E. injection E as <- _.
    split; [reflexivity|]. split; [reflexivity|]. exact Hsound.
  - destruct (list_effect_outcome Platform.URL_basic Scene.oldest_last Scene.a_day
                Scene.one_news Scene.recent_first "" "" [] false "favorites" "news"
                Scene.asking Scene.kept recent_first_rev_perm)
      as (_ & Hfav & _).
    destruct (Hfav Sample.ada eq_refl eq_refl)
      as (s' & w' & Hrun & Hst & Hguard & _).
    destruct (Hguard (or_introl eq_refl)) as [-> _].
    exists w'. split; [exact Hrun|exact Hst].
  - destruct (list_effect_outcome Platform.URL_basic Scene.oldest_last Scene.a_day
                Scene.one_news Scene.recent_first "" "" [] true "news" "news"
                Scene.asking Scene.kept recent_first_rev_perm)
      as (_ & Hfav & _).
    destruct (Hfav Sample.ada eq_refl eq_refl)
      as (s' & w' & Hrun & Hst & Hguard & _).
    assert (Hnews : "news" <> "favorites") by discriminate.
    destruct (Hguard (or_intror Hnews)) as [-> _].
    exists w'. split; [exact Hrun|exact Hst].
Defined.

(* ===================================================================== *)
(** ** A vote without a user *)
(* ===================================================================== *)

(** X30.  The toggles test the article identifier only.  With an empty
    user id, in a store that serves the requests and has no such row yet,
    [toggleLike] and [toggleDislike] return [true] and add a row with the
    empty user id, so that the count of the article grows by one; the
    existence checks, which do test the user id, answer [false] for that
    user right after, and send nothing. *)
Theorem toggle_takes_empty_user (articleId : string) (w : World) :
  isValidUUID (Some articleId) = true ->
  served w ->
  (has_pair Likes articleId "" (store w) = false ->
   exists w',
     toggleLike articleId "" w = (Ok true, w')
     /\ has_pair Likes articleId "" (store w') = true
     /\ votes_on Likes articleId (store w') = S (votes_on Likes articleId (store w))
     /\ hasUserLiked articleId "" w' = (Ok false, w'))
  /\ (has_pair Dislikes articleId "" (store w) = false ->
      exists w',
        toggleDislike articleId "" w = (Ok true, w')
        /\ has_pair Dislikes articleId "" (store w') = true
        /\ votes_on Dislikes articleId (store w')
           = S (votes_on Dislikes articleId (store w))
        /\ hasUserDisliked articleId "" w' = (Ok false, w')).
Proof.
  intros Hvalid Hs. split; intros Hnone.
  - destruct (toggle_adds Likes Dislikes articleId "" w ltac:(discriminate)
                Hvalid Hs Hnone) as (w' & Hrun & _ & Hmine & _ & Hup & _).
    exists w'. split; [exact Hrun|]. split; [exact Hmine|]. split; [exact Hup|].
    unfold hasUserLiked, has_user_voted. rewrite Hvalid. reflexivity.
  - destruct (toggle_adds Dislikes Likes articleId "" w ltac:(discriminate)
                Hvalid Hs Hnone) as (w' & Hrun & _ & Hmine & _ & Hup & _).
    exists w'. split; [exact Hrun|]. split; [exact Hmine|]. split; [exact Hup|].
    unfold hasUserDisliked, has_user_voted. rewrite Hvalid. reflexivity.
Qed.

(** [toggle_takes_empty_user] at work, on the empty store. *)
Lemma toggle_takes_empty_user_witness :
  isValidUUID (Some Sample.durable_id) = true
  /\ served Sample.start
  /\ has_pair Likes Sample.durable_id "" (store Sample.start) = false
  /\ exists w',
       toggleLike Sample.durable_id "" Sample.start = (Ok true, w')
       /\ has_pair Likes Sample.durable_id "" (store w') = true
       /\ votes_on Likes Sample.durable_id (store w')
          = S (votes_on Likes Sample.durable_id (store Sample.start))
       /\ hasUserLiked Sample.durable_id "" w' = (Ok false, w').
Proof.
  split; [reflexivity|]. split; [exact served_start|]. split; [reflexivity|].
  apply (proj1 (toggle_takes_empty_user Sample.durable_id Sample.start eq_refl
                  served_start)).
  reflexivity.
Defined.
